(** * discord/new_guild.py: the pre-creation staging model of a guild

    A shallow embedding of [discord/new_guild.py] and the properties of its
    builder operations and of its document serializer.

    - Python values that reach the rendered document are [pyval]; a rendered
      document (a [dict] with string keys) is a [gmap string pyval].
    - An exception is a value of [exn]; code that may raise returns [Exc].
    - [random.randint] reads an explicit stream of outcomes ([Rng]).
    - A [NewGuild] object is mutated through references held by its channels
      ([self.guild]); objects live in a store ([World]) under an address.
    - Classes, enumerations and helpers imported from other modules of the
      package ([enums], [colour], [flags], [permissions], [utils], [abc],
      [channel], [partial_emoji]) are opaque value objects, and what the code
      asks of them is gathered in the class [Externals].
    - The submission ([_create_guild] of [NewGuild] and of
      [NewTemplatedGuild]) awaits one request of the connection, given here
      by its outcome (class [Transport]); [__await__] only starts it. *)

From Stdlib Require Import ZArith Lia DecimalString.
From stdpp Require Import base option list gmap strings.

Set Warnings "-register-all".
Local Open Scope Z_scope.

(** ** Python values and exceptions *)

Inductive pyval :=
| VNone
| VBool (b : bool)
| VInt (z : Z)
| VStr (s : string)
| VList (l : list pyval)
| VDict (d : gmap string pyval).

(** A rendered document: [Dict[str, Any]]. *)
Abbreviation dict := (gmap string pyval).

Inductive exn :=
| TypeError (msg : string)
| ValueError (msg : string)
| AttributeError (msg : string)
| IndexError (msg : string).

Inductive Exc (A : Type) :=
| Return (a : A)
| Raise (e : exn).
Arguments Return {A} a.
Arguments Raise {A} e.

#[global] Instance Exc_ret : MRet Exc := fun A a => Return a.
#[global] Instance Exc_bind : MBind Exc := fun A B k m =>
  match m with
  | Return a => k a
  | Raise e => Raise e
  end.

(** [[f(x) for x in xs]] where [f] may raise: left to right, the first
    exception aborts the comprehension. *)
Fixpoint comprehension {A B} (f : A -> Exc B) (xs : list A) : Exc (list B) :=
  match xs with
  | [] => Return []
  | x :: xs' => y ← f x; ys ← comprehension f xs'; Return (y :: ys)
  end.

(** [str(n)] for an [int]. *)
Definition str (n : Z) : string := NilZero.string_of_int (Z.to_int n).

(** [isinstance(x, T)] guards: an argument is an instance of the expected
    class, or an object of some other class (named by [__class__.__name__]). *)
Inductive Checked (T : Type) :=
| IsInstance (x : T)
| NotInstance (cls : string).
Arguments IsInstance {T} x.
Arguments NotInstance {T} cls.

(** ** random.randint *)

(** The outcomes the generator will produce, and how many were consumed. *)
Record Rng := { outcomes : nat -> Z; drawn : nat }.

Definition Rand (A : Type) : Type := Rng -> A * Rng.

Definition ret_rand {A} (a : A) : Rand A := fun s => (a, s).
Definition bind_rand {A B} (m : Rand A) (k : A -> Rand B) : Rand B :=
  fun s => let '(a, s') := m s in k a s'.

Notation "'let*' x ':=' m 'in' k" := (bind_rand m (fun x => k))
  (at level 10, x pattern, m at level 100, k at level 200).

(** [randint(a, b)]: an integer N with a <= N <= b (both ends included). *)
Definition randint (a b : Z) : Rand Z := fun s =>
  (a + outcomes s (drawn s) mod (b - a + 1),
   {| outcomes := outcomes s; drawn := S (drawn s) |}).

(** ** Collaborators: opaque value objects of other modules *)

(** Modelled from the spec: the classes below live in modules that are not
    part of the sources ([permissions.py], [colour.py], [flags.py],
    [enums.py], [channel.py], [partial_emoji.py]); they are opaque value
    objects, the permission, colour, flag and enumeration values with a
    [.value] numeric projection, and each is given by what [new_guild.py]
    reads from it. *)

Module Permissions.
Record t := { value : Z }.
End Permissions.

Module Colour.
Record t := { value : Z }.
End Colour.

Module PermissionOverwrite.
(** [pair()] returns the (allow, deny) permissions of the overwrite. *)
Record t := { pair : Permissions.t * Permissions.t }.
End PermissionOverwrite.

Module SystemChannelFlags.
Record t := { value : Z }.
End SystemChannelFlags.

Module VerificationLevel.
Record t := { value : Z }.
End VerificationLevel.

Module NotificationLevel.
Record t := { value : Z }.
End NotificationLevel.

Module ContentFilter.
Record t := { value : Z }.
End ContentFilter.

Module VideoQualityMode.
Record t := { value : Z }.
End VideoQualityMode.

Module ForumOrderType.
Record t := { value : Z }.
End ForumOrderType.

Module ForumLayoutType.
Record t := { value : Z }.
End ForumLayoutType.

Module ForumTag.
Record t := { to_dict : dict }.
End ForumTag.

Module PartialEmoji.
Record t := { _to_forum_tag_payload : dict }.
End PartialEmoji.

Module EmojiTag.
Record t := { _to_partial : PartialEmoji.t }.
End EmojiTag.

(** Modelled from the spec: the members of [enums.ChannelType] (the module
    [discord/enums.py] is not part of the sources); the channel kinds are
    text, voice, stage, category and forum. *)
Module ChannelType.
Inductive t := text | voice | stage_voice | category | forum.
End ChannelType.

(** What [new_guild.py] asks of the rest of the package. *)
Class Externals := {
  (** [ChannelType.<member>.value] *)
  ChannelType_value : ChannelType.t -> Z;
  (** [abc._Overwrites.ROLE] *)
  Overwrites_ROLE : Z;
  (** [Colour.default()] *)
  Colour_default : Colour.t;
  (** truth value of an object of each class ([__bool__] / [__len__]) *)
  Colour_bool : Colour.t -> bool;
  VerificationLevel_bool : VerificationLevel.t -> bool;
  NotificationLevel_bool : NotificationLevel.t -> bool;
  ContentFilter_bool : ContentFilter.t -> bool;
  SystemChannelFlags_bool : SystemChannelFlags.t -> bool;
  (** [utils._bytes_to_base64_data] *)
  _bytes_to_base64_data : list Byte.byte -> Exc string;
  (** [PartialEmoji.from_str] *)
  PartialEmoji_from_str : string -> PartialEmoji.t;
}.

(** [Union[Colour, int]] *)
Inductive ColourArg :=
| ColourObj (c : Colour.t)
| ColourInt (n : Z).

(** Truth value of an [Optional[Union[Colour, int]]]: [None] and the integer
    0 are false. *)
Definition colour_bool `{Externals} (c : option ColourArg) : bool :=
  match c with
  | None => false
  | Some (ColourInt n) => negb (n =? 0)
  | Some (ColourObj c) => Colour_bool c
  end.

(** [if x is not None: payload[key] = f(x)] *)
Definition set_if_not_None {A} (key : string) (f : A -> pyval) (x : option A)
    (payload : dict) : dict :=
  match x with
  | Some a => <[key := f a]> payload
  | None => payload
  end.

(** ** class NewRole *)

Module NewRole.
Record t := {
  id : Z;
  name : option string;
  permissions : option Permissions.t;
  colour : option ColourArg;
  hoist : option bool;
  mentionable : option bool;
}.

Definition __init__ (name : option string) (permissions : option Permissions.t)
    (colour : option ColourArg) (hoist mentionable : option bool) : Rand t :=
  let* id := randint 0 999999999999 in
  ret_rand {| id := id; name := name; permissions := permissions;
              colour := colour; hoist := hoist; mentionable := mentionable |}.

Definition color (self : t) : option ColourArg := colour self.

Section serializer.
Context `{Externals}.

Definition _to_payload (self : t) : dict :=
  let payload : dict := {[ "id" := VInt (id self) ]} in
  let payload :=
    set_if_not_None "permissions" (fun p => VStr (str (Permissions.value p)))
      (permissions self) payload in
  (* actual_colour = self.colour or Colour.default() *)
  let actual_colour :=
    if colour_bool (colour self) then default (ColourObj Colour_default) (colour self)
    else ColourObj Colour_default in
  let payload :=
    match actual_colour with
    | ColourInt n => <["color" := VInt n]> payload
    | ColourObj c => <["color" := VInt (Colour.value c)]> payload
    end in
  let payload := set_if_not_None "hoist" VBool (hoist self) payload in
  let payload := set_if_not_None "mentionable" VBool (mentionable self) payload in
  let payload := set_if_not_None "name" VStr (name self) payload in
  payload.
End serializer.
End NewRole.

(** ** class NewGuildChannel *)

(** Address of a [NewGuild] object in the store. *)
Definition ref := nat.

(** A key of an [overwrites] mapping: a [NewRole], or an object of another
    class, which may or may not carry an [id] attribute. *)
Inductive Target :=
| TRole (r : NewRole.t)
| TObject (cls : string) (id_attr : option Z).

(** The [overwrites] argument when it is not [None]: a mapping, given by its
    [items()] in insertion order, or an object that is not a [Mapping]. *)
Definition Overwrites : Type :=
  Checked (list (Target * Checked PermissionOverwrite.t)).

Module NewGuildChannel.
(** [category] holds the referenced [NewCategory] object, which has no
    attribute beyond those of [NewGuildChannel]. *)
Inductive t := Build_t {
  id : Z;
  name : string;
  guild : ref;
  type : ChannelType.t;
  category : option t;
  overwrites : option Overwrites;
}.

Definition __init__ (name : string) (type : ChannelType.t) (category : option t)
    (overwrites : option Overwrites) (guild : ref) : Rand t :=
  let* id := randint 0 999999999999 in
  ret_rand {| id := id; name := name; guild := guild; type := type;
              category := category; overwrites := overwrites |}.

Section serializer.
Context `{Externals}.

(** [target.id] *)
Definition target_id (target : Target) : Exc Z :=
  match target with
  | TRole r => Return (NewRole.id r)
  | TObject _ (Some i) => Return i
  | TObject cls None =>
      Raise (AttributeError ("'" +:+ cls +:+ "' object has no attribute 'id'"))
  end.

(** [isinstance(target, NewRole)] *)
Definition is_NewRole (target : Target) : bool :=
  match target with
  | TRole _ => true
  | TObject _ _ => false
  end.

(** The loop [for target, perm in overwrites.items()], started with the
    list [perms] accumulated so far. *)
Fixpoint overwrites_loop (items : list (Target * Checked PermissionOverwrite.t))
    (perms : list pyval) : Exc (list pyval) :=
  match items with
  | [] => Return perms
  | (target, perm) :: items' =>
      match perm with
      | NotInstance cls =>
          Raise (TypeError ("Expected PermissionOverwrite received " +:+ cls))
      | IsInstance perm =>
          let '(allow, deny) := PermissionOverwrite.pair perm in
          target_id ← target_id target;
          let overwrites_payload : dict :=
            <["type" := VInt Overwrites_ROLE]>
              (<["id" := VInt target_id]>
                (<["deny" := VInt (Permissions.value deny)]>
                  {[ "allow" := VInt (Permissions.value allow) ]})) in
          if negb (is_NewRole target) then
            Raise (TypeError "Expected NewRole received PermissionOverwrite")
          else
            overwrites_loop items' (perms ++ [VDict overwrites_payload])
      end
  end.

Definition _to_payload (self : t) : Exc dict :=
  let payload : dict :=
    <["type" := VInt (ChannelType_value (type self))]>
      (<["name" := VStr (name self)]> {[ "id" := VInt (id self) ]}) in
  overwrites ←
    match overwrites self with
    | None => Return []
    | Some (NotInstance _) => Raise (TypeError "overwrites parameter expects a dict.")
    | Some (IsInstance items) => Return items
    end;
  perms ← overwrites_loop overwrites [];
  let payload :=
    match perms with
    | [] => payload
    | _ :: _ => <["permission_overwrites" := VList perms]> payload
    end in
  let payload :=
    match category self with
    | Some c => <["parent_id" := VInt (id c)]> payload
    | None => payload
    end in
  Return payload.
End serializer.
End NewGuildChannel.

Abbreviation NewCategory_t := NewGuildChannel.t.

(** ** class NewTextChannel *)

Module NewTextChannel.
Record t := {
  base : NewGuildChannel.t;
  topic : option string;
  slowmode_delay : option Z;
  nsfw : option bool;
  default_auto_archive_duration : option Z;
  default_thread_slowmode_delay : option Z;
}.

Definition __init__ (topic : option string) (slowmode_delay : option Z)
    (nsfw : option bool) (default_auto_archive_duration : option Z)
    (default_thread_slowmode_delay : option Z)
    (name : string) (category : option NewCategory_t)
    (overwrites : option Overwrites) (guild : ref) : Rand t :=
  let* base := NewGuildChannel.__init__ name ChannelType.text category overwrites guild in
  ret_rand {| base := base; topic := topic; slowmode_delay := slowmode_delay;
              nsfw := nsfw;
              default_auto_archive_duration := default_auto_archive_duration;
              default_thread_slowmode_delay := default_thread_slowmode_delay |}.

Definition _to_payload `{Externals} (self : t) : Exc dict :=
  payload ← NewGuildChannel._to_payload (base self);
  let payload := set_if_not_None "topic" VStr (topic self) payload in
  let payload := set_if_not_None "rate_limit_per_user" VInt (slowmode_delay self) payload in
  let payload := set_if_not_None "nsfw" VBool (nsfw self) payload in
  let payload := set_if_not_None "default_auto_archive_duration" VInt
                   (default_auto_archive_duration self) payload in
  let payload := set_if_not_None "default_thread_rate_limit_per_user" VInt
                   (default_thread_slowmode_delay self) payload in
  Return payload.
End NewTextChannel.

(** ** class NewVoiceChannel *)

Module NewVoiceChannel.
Record t := {
  base : NewGuildChannel.t;
  bitrate : option Z;
  user_limit : option Z;
  rtc_region : option string;
  video_quality_mode : option (Checked VideoQualityMode.t);
}.

Definition __init__ (bitrate user_limit : option Z) (rtc_region : option string)
    (video_quality_mode : option (Checked VideoQualityMode.t))
    (name : string) (category : option NewCategory_t)
    (overwrites : option Overwrites) (guild : ref) : Rand t :=
  let* base := NewGuildChannel.__init__ name ChannelType.voice category overwrites guild in
  ret_rand {| base := base; bitrate := bitrate; user_limit := user_limit;
              rtc_region := rtc_region; video_quality_mode := video_quality_mode |}.

Definition _to_payload `{Externals} (self : t) : Exc dict :=
  payload ← NewGuildChannel._to_payload (base self);
  let payload := set_if_not_None "bitrate" VInt (bitrate self) payload in
  let payload := set_if_not_None "user_limit" VInt (user_limit self) payload in
  let payload := set_if_not_None "rtc_region" VStr (rtc_region self) payload in
  payload ←
    match video_quality_mode self with
    | None => Return payload
    | Some (NotInstance _) =>
        Raise (TypeError "video_quality_mode must be of type VideoQualityMode")
    | Some (IsInstance m) =>
        Return (<["video_quality_mode" := VInt (VideoQualityMode.value m)]> payload)
    end;
  Return payload.
End NewVoiceChannel.

(** ** class NewStageChannel *)

Module NewStageChannel.
Record t := {
  base : NewGuildChannel.t;
  bitrate : option Z;
  user_limit : option Z;
  rtc_region : option string;
  video_quality_mode : option (Checked VideoQualityMode.t);
}.

Definition __init__ (bitrate user_limit : option Z) (rtc_region : option string)
    (video_quality_mode : option (Checked VideoQualityMode.t))
    (name : string) (category : option NewCategory_t)
    (overwrites : option Overwrites) (guild : ref) : Rand t :=
  let* base := NewGuildChannel.__init__ name ChannelType.stage_voice category overwrites guild in
  ret_rand {| base := base; bitrate := bitrate; user_limit := user_limit;
              rtc_region := rtc_region; video_quality_mode := video_quality_mode |}.

Definition _to_payload `{Externals} (self : t) : Exc dict :=
  payload ← NewGuildChannel._to_payload (base self);
  let payload := set_if_not_None "bitrate" VInt (bitrate self) payload in
  let payload := set_if_not_None "user_limit" VInt (user_limit self) payload in
  let payload := set_if_not_None "rtc_region" VStr (rtc_region self) payload in
  payload ←
    match video_quality_mode self with
    | None => Return payload
    | Some (NotInstance _) =>
        Raise (TypeError "video_quality_mode must be of type VideoQualityMode")
    | Some (IsInstance m) =>
        Return (<["video_quality_mode" := VInt (VideoQualityMode.value m)]> payload)
    end;
  Return payload.
End NewStageChannel.

(** ** class NewForum *)

(** [EmojiInputType] as the serializer tells it apart: an [_EmojiTag]
    (Emoji or PartialEmoji), a [str], or anything else. *)
Inductive EmojiInput :=
| EmojiObj (e : EmojiTag.t)
| EmojiStr (s : string)
| EmojiOther (cls : string).

Module NewForum.
Record t := {
  base : NewGuildChannel.t;
  topic : option string;
  slowmode_delay : option Z;
  nsfw : option bool;
  default_auto_archive_duration : option Z;
  default_thread_slowmode_delay : option Z;
  default_sort_order : option (Checked ForumOrderType.t);
  default_reaction_emoji : option EmojiInput;
  default_layout : option (Checked ForumLayoutType.t);
  available_tags : option (list ForumTag.t);
}.

Definition __init__ (topic : option string) (slowmode_delay : option Z)
    (nsfw : option bool) (default_auto_archive_duration : option Z)
    (default_thread_slowmode_delay : option Z)
    (default_sort_order : option (Checked ForumOrderType.t))
    (default_reaction_emoji : option EmojiInput)
    (default_layout : option (Checked ForumLayoutType.t))
    (available_tags : option (list ForumTag.t))
    (name : string) (category : option NewCategory_t)
    (overwrites : option Overwrites) (guild : ref) : Rand t :=
  let* base := NewGuildChannel.__init__ name ChannelType.text category overwrites guild in
  ret_rand {| base := base; topic := topic; slowmode_delay := slowmode_delay;
              nsfw := nsfw;
              default_auto_archive_duration := default_auto_archive_duration;
              default_thread_slowmode_delay := default_thread_slowmode_delay;
              default_sort_order := default_sort_order;
              default_reaction_emoji := default_reaction_emoji;
              default_layout := default_layout;
              available_tags := available_tags |}.

Definition _to_payload `{Externals} (self : t) : Exc dict :=
  payload ← NewGuildChannel._to_payload (base self);
  let payload := set_if_not_None "topic" VStr (topic self) payload in
  let payload := set_if_not_None "rate_limit_per_user" VInt (slowmode_delay self) payload in
  let payload := set_if_not_None "nsfw" VBool (nsfw self) payload in
  let payload := set_if_not_None "default_auto_archive_duration" VInt
                   (default_auto_archive_duration self) payload in
  let payload := set_if_not_None "default_thread_rate_limit_per_user" VInt
                   (default_thread_slowmode_delay self) payload in
  payload ←
    match default_sort_order self with
    | None => Return payload
    | Some (NotInstance cls) =>
        Raise (TypeError
                 ("default_sort_order parameter must be a ForumOrderType not " +:+ cls))
    | Some (IsInstance o) =>
        Return (<["default_sort_order" := VInt (ForumOrderType.value o)]> payload)
    end;
  payload ←
    match default_reaction_emoji self with
    | None => Return payload
    | Some (EmojiObj e) =>
        Return (<["default_reaction_emoji" :=
                    VDict (PartialEmoji._to_forum_tag_payload (EmojiTag._to_partial e))]>
                  payload)
    | Some (EmojiStr s) =>
        Return (<["default_reaction_emoji" :=
                    VDict (PartialEmoji._to_forum_tag_payload (PartialEmoji_from_str s))]>
                  payload)
    | Some (EmojiOther _) =>
        Raise (ValueError
                 "default_reaction_emoji parameter must be either Emoji, PartialEmoji, or str")
    end;
  payload ←
    match default_layout self with
    | None => Return payload
    | Some (NotInstance cls) =>
        Raise (TypeError
                 ("default_layout parameter must be a ForumLayoutType not " +:+ cls))
    | Some (IsInstance l) =>
        Return (<["default_forum_layout" := VInt (ForumLayoutType.value l)]> payload)
    end;
  let payload :=
    set_if_not_None "available_tags"
      (fun tags => VList (map (fun t => VDict (ForumTag.to_dict t)) tags))
      (available_tags self) payload in
  Return payload.
End NewForum.

(** ** class NewCategory: constructor (its operations follow [NewGuild]) *)

Module NewCategory.
Definition t := NewGuildChannel.t.

Definition __init__ (name : string) (overwrites : option Overwrites) (guild : ref)
    : Rand t :=
  NewGuildChannel.__init__ name ChannelType.category None overwrites guild.
End NewCategory.

(** An element of [NewGuild.channels]: an object of one of the five
    subclasses of [NewGuildChannel]. *)
Inductive Channel :=
| TextChannel (c : NewTextChannel.t)
| VoiceChannel (c : NewVoiceChannel.t)
| StageChannel (c : NewStageChannel.t)
| CategoryChannel (c : NewCategory.t)
| ForumChannel (c : NewForum.t).

Module Channel.
(** The [NewGuildChannel] attributes of a channel object. *)
Definition base (channel : Channel) : NewGuildChannel.t :=
  match channel with
  | TextChannel c => NewTextChannel.base c
  | VoiceChannel c => NewVoiceChannel.base c
  | StageChannel c => NewStageChannel.base c
  | CategoryChannel c => c
  | ForumChannel c => NewForum.base c
  end.

(** [channel._to_payload()], dispatched on the object's class. *)
Definition _to_payload `{Externals} (channel : Channel) : Exc dict :=
  match channel with
  | TextChannel c => NewTextChannel._to_payload c
  | VoiceChannel c => NewVoiceChannel._to_payload c
  | StageChannel c => NewStageChannel._to_payload c
  | CategoryChannel c => NewGuildChannel._to_payload c
  | ForumChannel c => NewForum._to_payload c
  end.
End Channel.

(** ** class NewGuild *)

Module NewGuild.
(** The [_state] attribute (the connection used by [_create_guild]) plays
    no part in building or rendering the graph and is left out. *)
Record t := {
  name : string;
  icon : option (list Byte.byte);
  afk_timeout : option Z;
  verification_level : option VerificationLevel.t;
  notification_level : option NotificationLevel.t;
  content_filter : option ContentFilter.t;
  system_channel_flags : option SystemChannelFlags.t;
  roles : list NewRole.t;
  channels : list Channel;
  afk_channel_id : option Z;
  system_channel_id : option Z;
}.

Definition __init__ (name : string) (icon : option (list Byte.byte))
    (afk_timeout : option Z) (verification_level : option VerificationLevel.t)
    (notification_level : option NotificationLevel.t)
    (content_filter : option ContentFilter.t)
    (system_channel_flags : option SystemChannelFlags.t) : t :=
  {| name := name; icon := icon; afk_timeout := afk_timeout;
     verification_level := verification_level;
     notification_level := notification_level;
     content_filter := content_filter;
     system_channel_flags := system_channel_flags;
     roles := []; channels := [];
     afk_channel_id := None; system_channel_id := None |}.

(** Attribute assignments [self.roles.append(role)],
    [self.channels.append(channel)], [self.afk_channel_id = v] and
    [self.system_channel_id = v]. *)
Definition roles_append (role : NewRole.t) (self : t) : t :=
  {| name := name self; icon := icon self; afk_timeout := afk_timeout self;
     verification_level := verification_level self;
     notification_level := notification_level self;
     content_filter := content_filter self;
     system_channel_flags := system_channel_flags self;
     roles := roles self ++ [role]; channels := channels self;
     afk_channel_id := afk_channel_id self;
     system_channel_id := system_channel_id self |}.

Definition channels_append (channel : Channel) (self : t) : t :=
  {| name := name self; icon := icon self; afk_timeout := afk_timeout self;
     verification_level := verification_level self;
     notification_level := notification_level self;
     content_filter := content_filter self;
     system_channel_flags := system_channel_flags self;
     roles := roles self; channels := channels self ++ [channel];
     afk_channel_id := afk_channel_id self;
     system_channel_id := system_channel_id self |}.

Definition set_afk_channel_id (v : Z) (self : t) : t :=
  {| name := name self; icon := icon self; afk_timeout := afk_timeout self;
     verification_level := verification_level self;
     notification_level := notification_level self;
     content_filter := content_filter self;
     system_channel_flags := system_channel_flags self;
     roles := roles self; channels := channels self;
     afk_channel_id := Some v;
     system_channel_id := system_channel_id self |}.

Definition set_system_channel_id (v : Z) (self : t) : t :=
  {| name := name self; icon := icon self; afk_timeout := afk_timeout self;
     verification_level := verification_level self;
     notification_level := notification_level self;
     content_filter := content_filter self;
     system_channel_flags := system_channel_flags self;
     roles := roles self; channels := channels self;
     afk_channel_id := afk_channel_id self;
     system_channel_id := Some v |}.

(** A method runs on the attribute values [self] of the object and returns
    its result with the new attribute values. *)

Section roles.
Context `{Externals}.

(** The body of [add_role]; [default_role] stands for the evaluation of
    the property [self.default_role] (its value is dropped), which is
    only reached when [name] is not '@everyone'. *)
Definition add_role_body (default_role : t -> Rand t) (self : t) (name : string)
    (permissions : option Permissions.t) (color colour : option ColourArg)
    (hoist mentionable : option bool) : Rand (NewRole.t * t) :=
  let* self :=
    (match roles self with
     | [] => if negb (String.eqb name "@everyone") then default_role self
             else ret_rand self
     | _ :: _ => ret_rand self
     end) in
  let* role :=
    NewRole.__init__ (Some name) permissions
      (if colour_bool color then color else colour) hoist mentionable in
  ret_rand (role, roles_append role self).

(** The property [default_role]. Its call [self.add_role(name='@everyone')]
    never evaluates [self.default_role] again. *)
Definition default_role (self : t) : Rand (Exc NewRole.t * t) :=
  let* self :=
    (match roles self with
     | [] =>
         let* r := add_role_body ret_rand self "@everyone" None None None None None in
         ret_rand (snd r)
     | _ :: _ => ret_rand self
     end) in
  ret_rand (match roles self with
            | r :: _ => Return r
            | [] => Raise (IndexError "list index out of range")
            end, self).

Definition add_role (self : t) (name : string)
    (permissions : option Permissions.t) (color colour : option ColourArg)
    (hoist mentionable : option bool) : Rand (NewRole.t * t) :=
  add_role_body (fun self => let* r := default_role self in ret_rand (snd r))
    self name permissions color colour hoist mentionable.
End roles.

(** The channel builders; [this] is the address of the object, which the
    new channel keeps as its [guild]. *)

Definition add_text_channel (this : ref) (self : t) (name : string)
    (category : option NewCategory.t) (topic : option string)
    (slowmode_delay : option Z) (nsfw : option bool)
    (overwrites : option Overwrites)
    (default_auto_archive_duration default_thread_slowmode_delay : option Z)
    (is_system_channel : bool) : Rand (NewTextChannel.t * t) :=
  let* channel :=
    NewTextChannel.__init__ topic slowmode_delay nsfw default_auto_archive_duration
      default_thread_slowmode_delay name category overwrites this in
  let self := channels_append (TextChannel channel) self in
  let self :=
    if is_system_channel
    then set_system_channel_id (NewGuildChannel.id (NewTextChannel.base channel)) self
    else self in
  ret_rand (channel, self).

Definition add_voice_channel (this : ref) (self : t) (name : string)
    (category : option NewCategory.t) (bitrate user_limit : option Z)
    (rtc_region : option string)
    (video_quality_mode : option (Checked VideoQualityMode.t))
    (overwrites : option Overwrites) (is_afk_channel : bool)
    : Rand (NewVoiceChannel.t * t) :=
  let* channel :=
    NewVoiceChannel.__init__ bitrate user_limit rtc_region video_quality_mode
      name category overwrites this in
  let self := channels_append (VoiceChannel channel) self in
  let self :=
    if is_afk_channel
    then set_afk_channel_id (NewGuildChannel.id (NewVoiceChannel.base channel)) self
    else self in
  ret_rand (channel, self).

Definition add_stage_channel (this : ref) (self : t) (name : string)
    (category : option NewCategory.t) (bitrate user_limit : option Z)
    (rtc_region : option string)
    (video_quality_mode : option (Checked VideoQualityMode.t))
    (overwrites : option Overwrites) : Rand (NewStageChannel.t * t) :=
  let* channel :=
    NewStageChannel.__init__ bitrate user_limit rtc_region video_quality_mode
      name category overwrites this in
  ret_rand (channel, channels_append (StageChannel channel) self).

Definition add_category (this : ref) (self : t) (name : string)
    (overwrites : option Overwrites) : Rand (NewCategory.t * t) :=
  let* channel := NewCategory.__init__ name overwrites this in
  ret_rand (channel, channels_append (CategoryChannel channel) self).

Definition add_category_channel := add_category.

Definition add_forum (this : ref) (self : t) (name : string)
    (topic : option string) (category : option NewCategory.t)
    (slowmode_delay : option Z) (nsfw : option bool)
    (overwrites : option Overwrites)
    (default_auto_archive_duration default_thread_slowmode_delay : option Z)
    (default_sort_order : option (Checked ForumOrderType.t))
    (default_reaction_emoji : option EmojiInput)
    (default_layout : option (Checked ForumLayoutType.t))
    (available_tags : option (list ForumTag.t)) : Rand (NewForum.t * t) :=
  let* channel :=
    NewForum.__init__ topic slowmode_delay nsfw default_auto_archive_duration
      default_thread_slowmode_delay default_sort_order default_reaction_emoji
      default_layout available_tags name category overwrites this in
  ret_rand (channel, channels_append (ForumChannel channel) self).

(** [if x: payload[key] = f(x)] for an optional object whose class decides
    its truth value. *)
Definition set_if_true {A} (key : string) (truth : A -> bool) (f : A -> pyval)
    (x : option A) (payload : dict) : dict :=
  match x with
  | Some a => if truth a then <[key := f a]> payload else payload
  | None => payload
  end.

Section serializer.
Context `{Externals}.

Definition _to_payload (self : t) : Exc dict :=
  let payload : dict := {[ "name" := VStr (name self) ]} in
  payload ←
    match icon self with
    | Some (b :: bs) =>
        data ← _bytes_to_base64_data (b :: bs);
        Return (<["icon" := VStr data]> payload)
    | Some [] | None => Return payload
    end;
  let payload := set_if_not_None "afk_timeout" VInt (afk_timeout self) payload in
  let payload :=
    set_if_true "verification_level" VerificationLevel_bool
      (fun l => VInt (VerificationLevel.value l)) (verification_level self) payload in
  let payload :=
    set_if_true "default_message_notifications" NotificationLevel_bool
      (fun l => VInt (NotificationLevel.value l)) (notification_level self) payload in
  let payload :=
    set_if_true "explicit_content_filter" ContentFilter_bool
      (fun l => VInt (ContentFilter.value l)) (content_filter self) payload in
  let payload :=
    set_if_true "system_channel_flags" SystemChannelFlags_bool
      (fun l => VInt (SystemChannelFlags.value l)) (system_channel_flags self) payload in
  let payload :=
    match roles self with
    | [] => payload
    | _ :: _ =>
        <["roles" := VList (map (fun role => VDict (NewRole._to_payload role))
                              (roles self))]> payload
    end in
  match channels self with
  | [] => Return payload
  | _ :: _ =>
      docs ← comprehension Channel._to_payload (channels self);
      let payload := <["channels" := VList (map VDict docs)]> payload in
      let payload :=
        set_if_true "afk_channel_id" (fun i => negb (i =? 0)) VInt
          (afk_channel_id self) payload in
      let payload :=
        set_if_true "system_channel_id" (fun i => negb (i =? 0)) VInt
          (system_channel_id self) payload in
      Return payload
  end.
End serializer.
End NewGuild.

(** ** The store of [NewGuild] objects *)

Record World := { heap : gmap ref NewGuild.t; rng : Rng }.

(** A program over the store; [None] when it dereferences an address that
    holds no object (which a Python reference never does). *)
Definition Prog (A : Type) : Type := World -> option (A * World).

(** [guild.method(...)] for a reference [guild]: the method runs on the
    object stored there and the object is updated in place. *)
Definition invoke {A} (guild : ref)
    (method : ref -> NewGuild.t -> Rand (A * NewGuild.t)) : Prog A := fun w =>
  match heap w !! guild with
  | Some self =>
      let '((a, self'), s) := method guild self (rng w) in
      Some (a, {| heap := <[guild := self']> (heap w); rng := s |})
  | None => None
  end.

(** ** class NewCategory: the convenience operations *)

(** The keyword arguments [**options] that the guild operation of the same
    name accepts besides [category]. *)
Record text_options := {
  opt_topic : option string;
  opt_slowmode_delay : option Z;
  opt_nsfw : option bool;
  opt_overwrites : option Overwrites;
  opt_default_auto_archive_duration : option Z;
  opt_default_thread_slowmode_delay : option Z;
  opt_is_system_channel : bool;
}.

Record voice_options := {
  vopt_bitrate : option Z;
  vopt_user_limit : option Z;
  vopt_rtc_region : option string;
  vopt_video_quality_mode : option (Checked VideoQualityMode.t);
  vopt_overwrites : option Overwrites;
  vopt_is_afk_channel : bool;
}.

Record stage_options := {
  sopt_bitrate : option Z;
  sopt_user_limit : option Z;
  sopt_rtc_region : option string;
  sopt_video_quality_mode : option (Checked VideoQualityMode.t);
  sopt_overwrites : option Overwrites;
}.

Record forum_options := {
  fopt_topic : option string;
  fopt_slowmode_delay : option Z;
  fopt_nsfw : option bool;
  fopt_overwrites : option Overwrites;
  fopt_default_auto_archive_duration : option Z;
  fopt_default_thread_slowmode_delay : option Z;
  fopt_default_sort_order : option (Checked ForumOrderType.t);
  fopt_default_reaction_emoji : option EmojiInput;
  fopt_default_layout : option (Checked ForumLayoutType.t);
  fopt_available_tags : option (list ForumTag.t);
}.

(** [self.add_text_channel(name, **options, category=category)] and its
    siblings: the keyword arguments are bound to the parameters of the
    operation. *)
Definition call_add_text_channel (name : string) (options : text_options)
    (category : option NewCategory.t) (this : ref) (self : NewGuild.t)
    : Rand (NewTextChannel.t * NewGuild.t) :=
  NewGuild.add_text_channel this self name category (opt_topic options)
    (opt_slowmode_delay options) (opt_nsfw options) (opt_overwrites options)
    (opt_default_auto_archive_duration options)
    (opt_default_thread_slowmode_delay options) (opt_is_system_channel options).

Definition call_add_voice_channel (name : string) (options : voice_options)
    (category : option NewCategory.t) (this : ref) (self : NewGuild.t)
    : Rand (NewVoiceChannel.t * NewGuild.t) :=
  NewGuild.add_voice_channel this self name category (vopt_bitrate options)
    (vopt_user_limit options) (vopt_rtc_region options)
    (vopt_video_quality_mode options) (vopt_overwrites options)
    (vopt_is_afk_channel options).

Definition call_add_stage_channel (name : string) (options : stage_options)
    (category : option NewCategory.t) (this : ref) (self : NewGuild.t)
    : Rand (NewStageChannel.t * NewGuild.t) :=
  NewGuild.add_stage_channel this self name category (sopt_bitrate options)
    (sopt_user_limit options) (sopt_rtc_region options)
    (sopt_video_quality_mode options) (sopt_overwrites options).

Definition call_add_forum (name : string) (options : forum_options)
    (category : option NewCategory.t) (this : ref) (self : NewGuild.t)
    : Rand (NewForum.t * NewGuild.t) :=
  NewGuild.add_forum this self name (fopt_topic options) category
    (fopt_slowmode_delay options) (fopt_nsfw options) (fopt_overwrites options)
    (fopt_default_auto_archive_duration options)
    (fopt_default_thread_slowmode_delay options)
    (fopt_default_sort_order options) (fopt_default_reaction_emoji options)
    (fopt_default_layout options) (fopt_available_tags options).

(** The same calls through a reference [guild] to the object. *)
Definition guild_add_text_channel (guild : ref) (name : string)
    (options : text_options) (category : option NewCategory.t)
    : Prog NewTextChannel.t :=
  invoke guild (call_add_text_channel name options category).

Definition guild_add_voice_channel (guild : ref) (name : string)
    (options : voice_options) (category : option NewCategory.t)
    : Prog NewVoiceChannel.t :=
  invoke guild (call_add_voice_channel name options category).

Definition guild_add_stage_channel (guild : ref) (name : string)
    (options : stage_options) (category : option NewCategory.t)
    : Prog NewStageChannel.t :=
  invoke guild (call_add_stage_channel name options category).

Definition guild_add_forum (guild : ref) (name : string)
    (options : forum_options) (category : option NewCategory.t)
    : Prog NewForum.t :=
  invoke guild (call_add_forum name options category).

(** [self.guild.add_text_channel(name, **options, category=self)] and its
    siblings. *)
Definition NewCategory_add_text_channel (self : NewCategory.t) (name : string)
    (options : text_options) : Prog NewTextChannel.t :=
  guild_add_text_channel (NewGuildChannel.guild self) name options (Some self).

Definition NewCategory_add_voice_channel (self : NewCategory.t) (name : string)
    (options : voice_options) : Prog NewVoiceChannel.t :=
  guild_add_voice_channel (NewGuildChannel.guild self) name options (Some self).

Definition NewCategory_add_stage_channel (self : NewCategory.t) (name : string)
    (options : stage_options) : Prog NewStageChannel.t :=
  guild_add_stage_channel (NewGuildChannel.guild self) name options (Some self).

Definition NewCategory_add_forum (self : NewCategory.t) (name : string)
    (options : forum_options) : Prog NewForum.t :=
  guild_add_forum (NewGuildChannel.guild self) name options (Some self).

(** ** Submission: [_create_guild] and class NewTemplatedGuild *)

(** What the submission asks of the connection ([self._state.http]) and of
    [guild.Guild], which are not part of the sources. An awaited request is
    given by its outcome: the data received, or the exception raised. *)
Class Transport := {
  RawGuild : Type;
  Guild : Type;
  (** [await self._state.http.create_guild], called with the items of the
      payload as keyword arguments *)
  http_create_guild : dict -> Exc RawGuild;
  (** [await self._state.http.create_from_template(code, name, icon_b64)] *)
  http_create_from_template : string -> string -> option string -> Exc RawGuild;
  (** [Guild(data=data, state=self._state)] *)
  Guild_from_data : RawGuild -> Guild;
}.

(** [NewGuild._create_guild] *)
Definition NewGuild_create_guild `{Externals} `{Transport} (self : NewGuild.t)
    : Exc Guild :=
  payload ← NewGuild._to_payload self;
  data ← http_create_guild payload;
  Return (Guild_from_data data).

Module NewTemplatedGuild.
Record t := {
  name : string;
  icon : option (list Byte.byte);
  code : string;
}.

Definition __init__ (name code : string) (icon : option (list Byte.byte)) : t :=
  {| name := name; icon := icon; code := code |}.

Definition _create_guild `{Externals} `{Transport} (self : t) : Exc Guild :=
  icon_b64 ←
    match icon self with
    | Some bytes => data ← _bytes_to_base64_data bytes; Return (Some data)
    | None => Return None
    end;
  data ← http_create_from_template (code self) (name self) icon_b64;
  Return (Guild_from_data data).
End NewTemplatedGuild.

(** ** An instance of the collaborators, to run the model on concrete graphs *)

(** The codes are those of the platform's API; the icon encoder accepts a
    PNG signature byte and rejects anything else. *)
Definition platform : Externals := {|
  ChannelType_value := fun ty =>
    match ty with
    | ChannelType.text => 0
    | ChannelType.voice => 2
    | ChannelType.category => 4
    | ChannelType.stage_voice => 13
    | ChannelType.forum => 15
    end;
  Overwrites_ROLE := 0;
  Colour_default := {| Colour.value := 0 |};
  Colour_bool := fun _ => true;
  VerificationLevel_bool := fun _ => true;
  NotificationLevel_bool := fun _ => true;
  ContentFilter_bool := fun _ => true;
  SystemChannelFlags_bool := fun f => negb (SystemChannelFlags.value f =? 0);
  _bytes_to_base64_data := fun data =>
    match data with
    | Byte.x89 :: _ => Return "data:image/png;base64,iQ=="
    | _ => Raise (ValueError "Unsupported image type given")
    end;
  PartialEmoji_from_str := fun s =>
    {| PartialEmoji._to_forum_tag_payload :=
         <["emoji_name" := VStr s]> {[ "emoji_id" := VNone ]} |};
|}.

(** A generator whose every outcome is [n]. *)
Definition constant_rng (n : Z) : Rng := {| outcomes := fun _ => n; drawn := 0 |}.

(** A generator whose outcomes are 1, 2, 3, ... *)
Definition counting_rng : Rng :=
  {| outcomes := fun n => Z.of_nat n + 1; drawn := 0 |}.

(** A guild "Test" at address 0 with a category "General", a role "Mods" and
    a text channel "chat" under the category, on which "Mods" has the
    overwrite (allow = 8, deny = 0). *)
Definition test_guild `{Externals}
    : Rand (NewCategory.t * NewRole.t * NewTextChannel.t * NewGuild.t) :=
  let g := NewGuild.__init__ "Test" None None None None None None in
  let* (general, g) := NewGuild.add_category 0%nat g "General" None in
  let* (mods, g) :=
    NewGuild.add_role g "Mods" (Some {| Permissions.value := 8 |}) None None None None in
  let overwrite :=
    {| PermissionOverwrite.pair :=
         ({| Permissions.value := 8 |}, {| Permissions.value := 0 |}) |} in
  let* (chat, g) :=
    NewGuild.add_text_channel 0%nat g "chat" (Some general) None None None
      (Some (IsInstance [(TRole mods, IsInstance overwrite)])) None None false in
  ret_rand (general, mods, chat, g).

(** The parts of the guild "Test" built with the outcomes 1, 2, 3, ... *)
Definition test_general : NewCategory.t :=
  fst (fst (fst (fst (@test_guild platform counting_rng)))).

Definition test_mods : NewRole.t :=
  snd (fst (fst (fst (@test_guild platform counting_rng)))).

Definition test_chat : NewTextChannel.t :=
  snd (fst (fst (@test_guild platform counting_rng))).

Definition test_graph : NewGuild.t :=
  snd (fst (@test_guild platform counting_rng)).

(** A connection that answers every request with the request itself. *)
Definition echo : Transport := {|
  RawGuild := dict;
  Guild := dict;
  http_create_guild := fun payload => Return payload;
  http_create_from_template := fun code name icon =>
    Return (<["icon" := from_option VStr VNone icon]>
              (<["name" := VStr name]> {[ "code" := VStr code ]}));
  Guild_from_data := fun data => data;
|}.

(** ** Notions used in the statements *)

(** The keys written by [NewGuildChannel._to_payload]. *)
Definition base_keys : list string :=
  ["id"; "name"; "type"; "permission_overwrites"; "parent_id"].

(** The items the loop of [NewGuildChannel._to_payload] runs over. *)
Definition overwrites_items (c : NewGuildChannel.t)
    : list (Target * Checked PermissionOverwrite.t) :=
  match NewGuildChannel.overwrites c with
  | Some (IsInstance items) => items
  | _ => []
  end.

(** The role that [add_role(name='@everyone')] creates when it draws [id]. *)
Definition everyone_role (id : Z) : NewRole.t :=
  {| NewRole.id := id; NewRole.name := Some "@everyone";
     NewRole.permissions := None; NewRole.colour := None;
     NewRole.hoist := None; NewRole.mentionable := None |}.

(** A call of one of the builder operations of a guild, or an access to its
    property [default_role]. *)
Inductive Call :=
| Call_add_role (name : string) (permissions : option Permissions.t)
    (color colour : option ColourArg) (hoist mentionable : option bool)
| Call_default_role
| Call_add_text_channel (name : string) (options : text_options)
    (category : option NewCategory.t)
| Call_add_voice_channel (name : string) (options : voice_options)
    (category : option NewCategory.t)
| Call_add_stage_channel (name : string) (options : stage_options)
    (category : option NewCategory.t)
| Call_add_category (name : string) (overwrites : option Overwrites)
| Call_add_forum (name : string) (options : forum_options)
    (category : option NewCategory.t).

(** The calls that add a channel. *)
Definition is_channel_call (c : Call) : bool :=
  match c with
  | Call_add_role _ _ _ _ _ _ | Call_default_role => false
  | _ => true
  end.

Section calls.
Context `{Externals}.

(** The effect of one call on the guild at address [this]. *)
Definition perform_call (this : ref) (c : Call) (self : NewGuild.t)
    : Rand NewGuild.t :=
  match c with
  | Call_add_role name permissions color colour hoist mentionable =>
      let* r := NewGuild.add_role self name permissions color colour hoist
                  mentionable in
      ret_rand (snd r)
  | Call_default_role =>
      let* r := NewGuild.default_role self in ret_rand (snd r)
  | Call_add_text_channel name options category =>
      let* r := call_add_text_channel name options category this self in
      ret_rand (snd r)
  | Call_add_voice_channel name options category =>
      let* r := call_add_voice_channel name options category this self in
      ret_rand (snd r)
  | Call_add_stage_channel name options category =>
      let* r := call_add_stage_channel name options category this self in
      ret_rand (snd r)
  | Call_add_category name overwrites =>
      let* r := NewGuild.add_category this self name overwrites in
      ret_rand (snd r)
  | Call_add_forum name options category =>
      let* r := call_add_forum name options category this self in
      ret_rand (snd r)
  end.

(** A sequence of calls, in order. *)
Fixpoint perform (this : ref) (calls : list Call) (self : NewGuild.t)
    : Rand NewGuild.t :=
  match calls with
  | [] => ret_rand self
  | c :: calls' =>
      let* self := perform_call this c self in perform this calls' self
  end.

(** The icon, when there is one to encode, is accepted by the encoder. *)
Definition icon_encodes (g : NewGuild.t) : Prop :=
  match NewGuild.icon g with
  | Some (b :: bs) => exists data, _bytes_to_base64_data (b :: bs) = Return data
  | _ => True
  end.

(** A channel whose serializer returns a document. *)
Definition channel_renders (channel : Channel) : Prop :=
  exists doc, Channel._to_payload channel = Return doc.
End calls.

(** The entry rendered for the overwrite [p] of the role [r]. *)
Definition overwrite_entry `{Externals} (r : NewRole.t) (p : PermissionOverwrite.t)
    : dict :=
  <["type" := VInt Overwrites_ROLE]>
    (<["id" := VInt (NewRole.id r)]>
       (<["deny" := VInt (Permissions.value (snd (PermissionOverwrite.pair p)))]>
          {[ "allow" := VInt (Permissions.value (fst (PermissionOverwrite.pair p))) ]})).

(** The items of a mapping from roles to overwrites. *)
Definition role_items (rps : list (NewRole.t * PermissionOverwrite.t))
    : list (Target * Checked PermissionOverwrite.t) :=
  map (fun rp => (TRole (fst rp), IsInstance (snd rp))) rps.

(** [isinstance(x, T)] *)
Definition is_instance {T} (x : Checked T) : bool :=
  match x with
  | IsInstance _ => true
  | NotInstance _ => false
  end.

(** An item whose key is a role and whose value is an overwrite. *)
Definition item_well_typed (item : Target * Checked PermissionOverwrite.t) : bool :=
  NewGuildChannel.is_NewRole (fst item) && is_instance (snd item).

(** [overwrites] is [None], or a mapping from roles to overwrites. *)
Definition overwrites_well_typed (c : NewGuildChannel.t) : bool :=
  match NewGuildChannel.overwrites c with
  | None => true
  | Some (NotInstance _) => false
  | Some (IsInstance items) => forallb item_well_typed items
  end.

(** An optional argument is [None] or of the expected class. *)
Definition optional_instance {T} (x : option (Checked T)) : bool :=
  match x with
  | Some (NotInstance _) => false
  | _ => true
  end.

(** The attributes that the serializer of the subclass checks are of the
    expected classes. *)
Definition kind_fields_well_typed (channel : Channel) : bool :=
  match channel with
  | TextChannel _ | CategoryChannel _ => true
  | VoiceChannel c => optional_instance (NewVoiceChannel.video_quality_mode c)
  | StageChannel c => optional_instance (NewStageChannel.video_quality_mode c)
  | ForumChannel c =>
      optional_instance (NewForum.default_sort_order c)
      && match NewForum.default_reaction_emoji c with
         | Some (EmojiOther _) => false
         | _ => true
         end
      && optional_instance (NewForum.default_layout c)
  end.


(** The name a call gives to the channel it adds. *)
Definition call_channel_name (c : Call) : option string :=
  match c with
  | Call_add_role _ _ _ _ _ _ | Call_default_role => None
  | Call_add_text_channel name _ _ | Call_add_voice_channel name _ _
  | Call_add_stage_channel name _ _ | Call_add_category name _
  | Call_add_forum name _ _ => Some name
  end.

(** The value rendered under [color] for a role of colour [colour]. *)
Definition rendered_colour `{Externals} (colour : option ColourArg) : Z :=
  match colour with
  | Some (ColourInt n) => if n =? 0 then Colour.value Colour_default else n
  | Some (ColourObj c) =>
      if Colour_bool c then Colour.value c else Colour.value Colour_default
  | None => Colour.value Colour_default
  end.

(** The roles of a guild are empty or start with a role named '@everyone'. *)
Definition everyone_first (g : NewGuild.t) : Prop :=
  match NewGuild.roles g with
  | [] => True
  | r :: _ => NewRole.name r = Some "@everyone"
  end.

(** The AFK channel recorded by a guild, if any, is one of its voice
    channels, and the system channel one of its text channels. *)
Definition special_channels_known (g : NewGuild.t) : Prop :=
  (forall i, NewGuild.afk_channel_id g = Some i ->
     exists c, VoiceChannel c ∈ NewGuild.channels g /\
               NewGuildChannel.id (NewVoiceChannel.base c) = i) /\
  (forall i, NewGuild.system_channel_id g = Some i ->
     exists c, TextChannel c ∈ NewGuild.channels g /\
               NewGuildChannel.id (NewTextChannel.base c) = i).

(** Two guilds with the same attributes given at construction. *)
Definition same_settings (g g' : NewGuild.t) : Prop :=
  NewGuild.name g' = NewGuild.name g /\
  NewGuild.icon g' = NewGuild.icon g /\
  NewGuild.afk_timeout g' = NewGuild.afk_timeout g /\
  NewGuild.verification_level g' = NewGuild.verification_level g /\
  NewGuild.notification_level g' = NewGuild.notification_level g /\
  NewGuild.content_filter g' = NewGuild.content_filter g /\
  NewGuild.system_channel_flags g' = NewGuild.system_channel_flags g.

(** * Properties *)

(** ** Exceptions, documents and the generator *)

Lemma Exc_bind_Return_inv {A B} (k : A -> Exc B) (m : Exc A) (b : B) :
  mbind k m = Return b -> exists a, m = Return a /\ k a = Return b.
Proof. destruct m as [a|e]; simpl; [eauto | discriminate]. Qed.

Lemma lookup_set_if_not_None_ne {A} key (f : A -> pyval) x (payload : dict) k :
  key <> k -> set_if_not_None key f x payload !! k = payload !! k.
Proof. intros Hk. destruct x; simpl; [by rewrite lookup_insert_ne | done]. Qed.

Lemma lookup_set_if_not_None_unset {A} key (f : A -> pyval) (payload : dict) k :
  set_if_not_None key f None payload !! k = payload !! k.
Proof. done. Qed.

Lemma lookup_set_if_true_ne {A} key truth (f : A -> pyval) x (payload : dict) k :
  key <> k -> NewGuild.set_if_true key truth f x payload !! k = payload !! k.
Proof.
  intros Hk. destruct x as [a|]; simpl; [|done].
  destruct (truth a); [by rewrite lookup_insert_ne | done].
Qed.

Lemma randint_range (a b : Z) (s : Rng) :
  a <= b -> a <= fst (randint a b s) <= b.
Proof.
  intros Hab. unfold randint; simpl.
  pose proof (Z.mod_pos_bound (outcomes s (drawn s)) (b - a + 1)). lia.
Qed.

(** ** Rendering a channel *)

Ltac exc_inv H :=
  let a := fresh "p" in
  let Ha := fresh "Hp" in
  apply Exc_bind_Return_inv in H as (a & Ha & H).

Ltac lookup_frame :=
  repeat first
    [ rewrite lookup_set_if_not_None_ne by done
    | rewrite lookup_set_if_true_ne by done
    | rewrite lookup_insert_ne by done ].

Section channel_rendering.
Context `{Externals}.

Lemma NewGuildChannel_to_payload_inv (c : NewGuildChannel.t) (p : dict) :
  NewGuildChannel._to_payload c = Return p ->
  p !! "id" = Some (VInt (NewGuildChannel.id c)) /\
  p !! "name" = Some (VStr (NewGuildChannel.name c)) /\
  p !! "type" = Some (VInt (ChannelType_value (NewGuildChannel.type c))) /\
  p !! "parent_id" =
    (fun cat => VInt (NewGuildChannel.id cat)) <$> NewGuildChannel.category c /\
  exists perms,
    NewGuildChannel.overwrites_loop (overwrites_items c) [] = Return perms /\
    p !! "permission_overwrites" =
      match perms with [] => None | _ :: _ => Some (VList perms) end.
Proof.
  unfold NewGuildChannel._to_payload, overwrites_items. intros Hp.
  exc_inv Hp. exc_inv Hp. injection Hp as <-.
  assert (p0 = match NewGuildChannel.overwrites c with
               | Some (IsInstance items) => items | _ => [] end) as ->.
  { destruct (NewGuildChannel.overwrites c) as [[items|cls]|]; by simplify_eq. }
  repeat split.
  - by destruct (NewGuildChannel.category c), p1.
  - by destruct (NewGuildChannel.category c), p1.
  - by destruct (NewGuildChannel.category c), p1.
  - by destruct (NewGuildChannel.category c), p1.
  - exists p1. split; [done|].
    by destruct (NewGuildChannel.category c), p1.
Qed.

(** Each subclass starts from [super()._to_payload()] and only adds keys of
    its own. *)
Lemma Channel_to_payload_base (channel : Channel) (doc : dict) :
  Channel._to_payload channel = Return doc ->
  exists p, NewGuildChannel._to_payload (Channel.base channel) = Return p /\
            forall k, k ∈ base_keys -> doc !! k = p !! k.
Proof.
  intros Hdoc. destruct channel as [c|c|c|c|c]; simpl in *.
  - unfold NewTextChannel._to_payload in Hdoc. exc_inv Hdoc.
    injection Hdoc as <-. exists p. split; [done|].
    intros k Hk. unfold base_keys in Hk.
    repeat (apply elem_of_cons in Hk as [->|Hk]; [by lookup_frame|]).
    by apply elem_of_nil in Hk.
  - unfold NewVoiceChannel._to_payload in Hdoc. exc_inv Hdoc. exc_inv Hdoc.
    injection Hdoc as <-. exists p. split; [done|].
    intros k Hk. unfold base_keys in Hk.
    destruct (NewVoiceChannel.video_quality_mode c) as [[m|cls]|]; simplify_eq;
      repeat (apply elem_of_cons in Hk as [->|Hk]; [by lookup_frame|]);
      by apply elem_of_nil in Hk.
  - unfold NewStageChannel._to_payload in Hdoc. exc_inv Hdoc. exc_inv Hdoc.
    injection Hdoc as <-. exists p. split; [done|].
    intros k Hk. unfold base_keys in Hk.
    destruct (NewStageChannel.video_quality_mode c) as [[m|cls]|]; simplify_eq;
      repeat (apply elem_of_cons in Hk as [->|Hk]; [by lookup_frame|]);
      by apply elem_of_nil in Hk.
  - exists doc. by split.
  - unfold NewForum._to_payload in Hdoc.
    exc_inv Hdoc. exc_inv Hdoc. exc_inv Hdoc. exc_inv Hdoc.
    injection Hdoc as <-. exists p. split; [done|].
    intros k Hk. unfold base_keys in Hk.
    destruct (NewForum.default_sort_order c) as [[o|cls]|]; simplify_eq;
      destruct (NewForum.default_reaction_emoji c) as [[e|e|cls']|]; simplify_eq;
      destruct (NewForum.default_layout c) as [[l|cls'']|]; simplify_eq;
      repeat (apply elem_of_cons in Hk as [->|Hk]; [by lookup_frame|]);
      by apply elem_of_nil in Hk.
Qed.
End channel_rendering.

(** ** Rendering a guild *)

Section guild_rendering.
Context `{Externals}.

Lemma lookup_set_if_true_eq {A} key truth (f : A -> pyval) x (payload : dict) :
  NewGuild.set_if_true key truth f x payload !! key =
    match x with
    | Some a => if truth a then Some (f a) else payload !! key
    | None => payload !! key
    end.
Proof.
  destruct x as [a|]; simpl; [|done].
  destruct (truth a); [by rewrite lookup_insert_eq | done].
Qed.

(** The document after the [name] and [icon] steps. *)
Lemma icon_step_inv (g : NewGuild.t) (p : dict) :
  match NewGuild.icon g with
  | Some (b :: bs) =>
      data ← _bytes_to_base64_data (b :: bs);
      Return (<["icon" := VStr data]> ({[ "name" := VStr (NewGuild.name g) ]} : dict))
  | _ => Return {[ "name" := VStr (NewGuild.name g) ]}
  end = Return p ->
  (forall k, k <> "icon" ->
     p !! k = ({[ "name" := VStr (NewGuild.name g) ]} : dict) !! k) /\
  (NewGuild.icon g = None -> p !! "icon" = None).
Proof.
  intros Hp. destruct (NewGuild.icon g) as [[|b bs]|].
  - injection Hp as <-. by split.
  - exc_inv Hp. injection Hp as <-. split; [|done].
    intros k Hk. by rewrite lookup_insert_ne.
  - injection Hp as <-. by split.
Qed.

Lemma NewGuild_to_payload_inv (g : NewGuild.t) (doc : dict) :
  NewGuild._to_payload g = Return doc ->
  exists p0 : dict,
    (forall k, k <> "icon" ->
       p0 !! k = ({[ "name" := VStr (NewGuild.name g) ]} : dict) !! k) /\
    (NewGuild.icon g = None -> p0 !! "icon" = None) /\
    let p1 :=
      set_if_not_None "afk_timeout" VInt (NewGuild.afk_timeout g) p0 in
    let p2 :=
      NewGuild.set_if_true "verification_level" VerificationLevel_bool
        (fun l => VInt (VerificationLevel.value l)) (NewGuild.verification_level g) p1 in
    let p3 :=
      NewGuild.set_if_true "default_message_notifications" NotificationLevel_bool
        (fun l => VInt (NotificationLevel.value l)) (NewGuild.notification_level g) p2 in
    let p4 :=
      NewGuild.set_if_true "explicit_content_filter" ContentFilter_bool
        (fun l => VInt (ContentFilter.value l)) (NewGuild.content_filter g) p3 in
    let p5 :=
      NewGuild.set_if_true "system_channel_flags" SystemChannelFlags_bool
        (fun l => VInt (SystemChannelFlags.value l))
        (NewGuild.system_channel_flags g) p4 in
    let p6 :=
      match NewGuild.roles g with
      | [] => p5
      | _ :: _ =>
          <["roles" := VList (map (fun role => VDict (NewRole._to_payload role))
                                (NewGuild.roles g))]> p5
      end in
    match NewGuild.channels g with
    | [] => doc = p6
    | _ :: _ =>
        exists docs,
          comprehension Channel._to_payload (NewGuild.channels g) = Return docs /\
          doc =
            NewGuild.set_if_true "system_channel_id" (fun i => negb (i =? 0)) VInt
              (NewGuild.system_channel_id g)
              (NewGuild.set_if_true "afk_channel_id" (fun i => negb (i =? 0)) VInt
                 (NewGuild.afk_channel_id g)
                 (<["channels" := VList (map VDict docs)]> p6))
    end.
Proof.
  unfold NewGuild._to_payload. intros Hdoc. exc_inv Hdoc.
  apply icon_step_inv in Hp as [Hframe Hicon].
  exists p. split; [done|]. split; [done|]. simpl.
  destruct (NewGuild.channels g) as [|c cs].
  - by injection Hdoc as <-.
  - exc_inv Hdoc. injection Hdoc as <-. by exists p0.
Qed.

(** The [roles] key holds the role documents in the order of [self.roles],
    and is absent when [self.roles] is empty. *)
Lemma NewGuild_to_payload_roles (g : NewGuild.t) (doc : dict) :
  NewGuild._to_payload g = Return doc ->
  doc !! "roles" =
    match NewGuild.roles g with
    | [] => None
    | _ :: _ =>
        Some (VList (map (fun role => VDict (NewRole._to_payload role))
                       (NewGuild.roles g)))
    end.
Proof.
  intros Hdoc. apply NewGuild_to_payload_inv in Hdoc as (p0 & Hframe & _ & Hdoc).
  simpl in Hdoc.
  assert (p0 !! "roles" = None) as Hp0 by by rewrite Hframe.
  destruct (NewGuild.channels g) as [|c cs].
  - subst doc. destruct (NewGuild.roles g) as [|r rs].
    + by lookup_frame.
    + by rewrite lookup_insert_eq.
  - destruct Hdoc as (docs & _ & ->). lookup_frame.
    destruct (NewGuild.roles g) as [|r rs].
    + by lookup_frame.
    + by rewrite lookup_insert_eq.
Qed.

(** The [channels], [afk_channel_id] and [system_channel_id] keys. *)
Lemma NewGuild_to_payload_channels (g : NewGuild.t) (doc : dict) :
  NewGuild._to_payload g = Return doc ->
  match NewGuild.channels g with
  | [] =>
      doc !! "channels" = None /\
      doc !! "afk_channel_id" = None /\
      doc !! "system_channel_id" = None
  | _ :: _ =>
      exists docs,
        comprehension Channel._to_payload (NewGuild.channels g) = Return docs /\
        doc !! "channels" = Some (VList (map VDict docs)) /\
        doc !! "afk_channel_id" =
          match NewGuild.afk_channel_id g with
          | Some i => if negb (i =? 0) then Some (VInt i) else None
          | None => None
          end /\
        doc !! "system_channel_id" =
          match NewGuild.system_channel_id g with
          | Some i => if negb (i =? 0) then Some (VInt i) else None
          | None => None
          end
  end.
Proof.
  intros Hdoc. apply NewGuild_to_payload_inv in Hdoc as (p0 & Hframe & _ & Hdoc).
  simpl in Hdoc.
  assert (forall k, k <> "icon" -> k <> "name" -> p0 !! k = None) as Hp0.
  { intros k ? ?. rewrite Hframe by done. by rewrite lookup_singleton_ne. }
  destruct (NewGuild.channels g) as [|c cs].
  - subst doc.
    destruct (NewGuild.roles g) as [|r rs]; lookup_frame; by rewrite !Hp0.
  - destruct Hdoc as (docs & Hdocs & ->). exists docs. split; [done|].
    split; [by lookup_frame; rewrite lookup_insert_eq|].
    split.
    + lookup_frame. rewrite lookup_set_if_true_eq. lookup_frame.
      destruct (NewGuild.roles g) as [|r rs]; lookup_frame; by rewrite !Hp0.
    + rewrite lookup_set_if_true_eq. lookup_frame.
      destruct (NewGuild.roles g) as [|r rs]; lookup_frame; by rewrite !Hp0.
Qed.
End guild_rendering.

(** ** Building a guild *)

Ltac unfold_builders :=
  unfold perform_call, call_add_text_channel, call_add_voice_channel,
    call_add_stage_channel, call_add_forum, NewGuild.add_text_channel,
    NewGuild.add_voice_channel, NewGuild.add_stage_channel, NewGuild.add_category,
    NewGuild.add_forum, NewTextChannel.__init__, NewVoiceChannel.__init__,
    NewStageChannel.__init__, NewCategory.__init__, NewForum.__init__,
    NewGuildChannel.__init__, NewGuild.add_role, NewGuild.default_role,
    NewGuild.add_role_body, NewRole.__init__, bind_rand, ret_rand in *.

Section building.
Context `{Externals}.

(** The call [self.add_role(name='@everyone')] made by [default_role] is a
    call of [add_role]: the two definitions agree on that name. *)
Lemma add_role_everyone (self : NewGuild.t) permissions color colour hoist
    mentionable :
  NewGuild.add_role self "@everyone" permissions color colour hoist mentionable =
  NewGuild.add_role_body ret_rand self "@everyone" permissions color colour hoist
    mentionable.
Proof. unfold NewGuild.add_role, NewGuild.add_role_body. by destruct (NewGuild.roles self). Qed.

Lemma default_role_empty (g : NewGuild.t) (s : Rng) :
  NewGuild.roles g = [] ->
  NewGuild.default_role g s =
    (Return (everyone_role (fst (randint 0 999999999999 s))),
     NewGuild.roles_append (everyone_role (fst (randint 0 999999999999 s))) g,
     snd (randint 0 999999999999 s)).
Proof.
  intros Hroles. unfold_builders. rewrite Hroles. simpl. by rewrite Hroles.
Qed.

Lemma default_role_nonempty (g : NewGuild.t) (s : Rng) r rs :
  NewGuild.roles g = r :: rs ->
  NewGuild.default_role g s = (Return r, g, s).
Proof. intros Hroles. unfold_builders. by rewrite !Hroles. Qed.

(** The property never raises: [self.roles[0]] exists when it is read. *)
Lemma default_role_returns (g : NewGuild.t) (s : Rng) :
  exists r, fst (fst (NewGuild.default_role g s)) = Return r.
Proof.
  destruct (NewGuild.roles g) as [|r rs] eqn:Hroles.
  - rewrite default_role_empty by done. eauto.
  - erewrite default_role_nonempty by done. eauto.
Qed.

Lemma add_role_first (g : NewGuild.t) name permissions color colour hoist
    mentionable (s : Rng) :
  NewGuild.roles g = [] -> name <> "@everyone" ->
  let everyone := everyone_role (fst (randint 0 999999999999 s)) in
  let s1 := snd (randint 0 999999999999 s) in
  let role :=
    {| NewRole.id := fst (randint 0 999999999999 s1); NewRole.name := Some name;
       NewRole.permissions := permissions;
       NewRole.colour := if colour_bool color then color else colour;
       NewRole.hoist := hoist; NewRole.mentionable := mentionable |} in
  NewGuild.add_role g name permissions color colour hoist mentionable s =
    (role, NewGuild.roles_append role (NewGuild.roles_append everyone g),
     snd (randint 0 999999999999 s1)).
Proof.
  intros Hroles Hname. unfold_builders. rewrite Hroles.
  apply String.eqb_neq in Hname. by rewrite Hname.
Qed.

Lemma add_role_roles (g : NewGuild.t) name permissions color colour hoist
    mentionable (s : Rng) :
  let r := NewGuild.add_role g name permissions color colour hoist mentionable s in
  NewGuild.roles g `prefix_of` NewGuild.roles (snd (fst r)) /\
  NewGuild.channels (snd (fst r)) = NewGuild.channels g.
Proof.
  unfold_builders. destruct (NewGuild.roles g) as [|r0 rs] eqn:Hroles.
  - destruct (negb (name =? "@everyone")%string); simpl;
      rewrite ?Hroles; split; by try apply prefix_nil.
  - simpl. rewrite Hroles. split; [by apply prefix_app_r | done].
Qed.

(** No call removes or reorders a role. *)
Lemma perform_call_roles_prefix (this : ref) (c : Call) (g : NewGuild.t) (s : Rng) :
  NewGuild.roles g `prefix_of` NewGuild.roles (fst (perform_call this c g s)).
Proof.
  destruct c.
  - pose proof (add_role_roles g name permissions color colour hoist mentionable s)
      as [Hr _].
    unfold perform_call, bind_rand, ret_rand. simpl in Hr.
    by destruct (NewGuild.add_role _ _ _ _ _ _ _ _) as [[r g1] s1].
  - unfold perform_call, bind_rand, ret_rand.
    destruct (NewGuild.roles g) as [|r rs] eqn:Hroles.
    + rewrite default_role_empty by done. simpl. rewrite Hroles. apply prefix_nil.
    + erewrite default_role_nonempty by done. simpl. by rewrite Hroles.
  - unfold_builders. simpl. by destruct (opt_is_system_channel options).
  - unfold_builders. simpl. by destruct (vopt_is_afk_channel options).
  - by unfold_builders.
  - by unfold_builders.
  - by unfold_builders.
Qed.

Lemma perform_roles_prefix (this : ref) (calls : list Call) (g : NewGuild.t) (s : Rng) :
  NewGuild.roles g `prefix_of` NewGuild.roles (fst (perform this calls g s)).
Proof.
  revert g s. induction calls as [|c calls IH]; intros g s; simpl; [done|].
  unfold bind_rand.
  pose proof (perform_call_roles_prefix this c g s) as Hc.
  destruct (perform_call this c g s) as [g1 s1]. simpl in Hc.
  etrans; [exact Hc | apply IH].
Qed.

(** A call that adds a channel leaves the roles alone. *)
Lemma perform_call_channel_roles (this : ref) (c : Call) (g : NewGuild.t) (s : Rng) :
  is_channel_call c = true ->
  NewGuild.roles (fst (perform_call this c g s)) = NewGuild.roles g.
Proof.
  destruct c; try discriminate; intros _; unfold_builders; simpl; try done.
  - by destruct (opt_is_system_channel options).
  - by destruct (vopt_is_afk_channel options).
Qed.

Lemma perform_channel_calls_roles (this : ref) (calls : list Call) (g : NewGuild.t)
    (s : Rng) :
  forallb is_channel_call calls = true ->
  NewGuild.roles (fst (perform this calls g s)) = NewGuild.roles g.
Proof.
  revert g s. induction calls as [|c calls IH]; intros g s Hcalls; simpl; [done|].
  simpl in Hcalls. apply andb_prop in Hcalls as [Hc Hcalls].
  unfold bind_rand.
  pose proof (perform_call_channel_roles this c g s Hc) as Hroles.
  destruct (perform_call this c g s) as [g1 s1]. simpl in Hroles.
  by rewrite IH.
Qed.
End building.

(** ** When the serializer returns *)

Section returning.
Context `{Externals}.

Lemma comprehension_returns {A B} (f : A -> Exc B) (xs : list A) :
  Forall (fun x => exists y, f x = Return y) xs ->
  exists ys, comprehension f xs = Return ys /\ length ys = length xs.
Proof.
  induction 1 as [|x xs [y Hy] _ [ys [Hys Hlen]]]; simpl.
  - by exists [].
  - rewrite Hy. simpl. rewrite Hys. simpl. exists (y :: ys). split; [done|]. simpl. by rewrite Hlen.
Qed.

Lemma comprehension_raises {A B} (f : A -> Exc B) (xs : list A) :
  Exists (fun x => exists e, f x = Raise e) xs ->
  exists e, comprehension f xs = Raise e.
Proof.
  induction 1 as [x xs [e He]|x xs _ [e He]]; simpl.
  - rewrite He. by exists e.
  - destruct (f x) as [y|e']; simpl; [|by exists e'].
    rewrite He. by exists e.
Qed.

(** The serializer of a guild returns a document as soon as the icon is
    accepted by the encoder and every channel renders. *)
Lemma NewGuild_to_payload_returns (g : NewGuild.t) :
  icon_encodes g -> Forall channel_renders (NewGuild.channels g) ->
  exists doc, NewGuild._to_payload g = Return doc.
Proof.
  unfold icon_encodes, NewGuild._to_payload. intros Hicon Hchannels.
  apply comprehension_returns in Hchannels as (docs & Hdocs & _).
  destruct (NewGuild.icon g) as [[|b bs]|].
  - simpl. destruct (NewGuild.channels g); [by eauto|].
    rewrite Hdocs. simpl. by eauto.
  - destruct Hicon as [data ->]. simpl.
    destruct (NewGuild.channels g); [by eauto|].
    rewrite Hdocs. simpl. by eauto.
  - simpl. destruct (NewGuild.channels g); [by eauto|].
    rewrite Hdocs. simpl. by eauto.
Qed.

(** It returns nothing when a channel fails to render. *)
Lemma NewGuild_to_payload_raises (g : NewGuild.t) :
  Exists (fun c => exists e, Channel._to_payload c = Raise e) (NewGuild.channels g) ->
  exists e, NewGuild._to_payload g = Raise e.
Proof.
  unfold NewGuild._to_payload. intros Hchannels.
  pose proof (comprehension_raises _ _ Hchannels) as [e He].
  destruct (NewGuild.channels g) as [|c cs]; [by apply Exists_nil in Hchannels|].
  destruct (match NewGuild.icon g with
            | Some (b :: bs) => _ | _ => _ end) as [p|e']; simpl in *; [|by eauto].
  rewrite He. simpl. by eauto.
Qed.
End returning.

(** ** The default role and the order of roles *)

(** C1 (as amended). On a graph built from a new guild by calls that only add
    channels (no role added, [default_role] never read), [self.roles] is
    empty and the rendered document has no [roles] key at all; the document
    is returned as soon as the icon encodes and the channels render. Once
    [default_role] is read, [self.roles] is the default role alone and the
    [roles] key holds exactly its document. *)
Theorem roles_key_absent_until_default_role `{Externals}
    (name : string) (icon : option (list Byte.byte)) (afk_timeout : option Z)
    (verification_level : option VerificationLevel.t)
    (notification_level : option NotificationLevel.t)
    (content_filter : option ContentFilter.t)
    (system_channel_flags : option SystemChannelFlags.t)
    (this : ref) (calls : list Call) (s : Rng) :
  forallb is_channel_call calls = true ->
  let g :=
    fst (perform this calls
           (NewGuild.__init__ name icon afk_timeout verification_level
              notification_level content_filter system_channel_flags) s) in
  NewGuild.roles g = [] /\
  (forall doc, NewGuild._to_payload g = Return doc -> doc !! "roles" = None) /\
  (icon_encodes g -> Forall channel_renders (NewGuild.channels g) ->
   exists doc, NewGuild._to_payload g = Return doc) /\
  (forall s1,
     let everyone := everyone_role (fst (randint 0 999999999999 s1)) in
     let g1 := NewGuild.roles_append everyone g in
     NewGuild.default_role g s1 = (Return everyone, g1, snd (randint 0 999999999999 s1)) /\
     NewGuild.roles g1 = [everyone] /\
     forall doc, NewGuild._to_payload g1 = Return doc ->
                 doc !! "roles" = Some (VList [VDict (NewRole._to_payload everyone)])).
Proof.
  intros Hcalls g.
  assert (NewGuild.roles g = []) as Hroles.
  { unfold g. by rewrite perform_channel_calls_roles. }
  split; [done|]. split; [|split].
  - intros doc Hdoc. apply NewGuild_to_payload_roles in Hdoc. by rewrite Hroles in Hdoc.
  - apply NewGuild_to_payload_returns.
  - intros s1 everyone g1. split; [by apply default_role_empty|].
    assert (NewGuild.roles g1 = [everyone]) as Hroles1.
    { unfold g1. simpl. by rewrite Hroles. }
    split; [done|]. intros doc Hdoc.
    apply NewGuild_to_payload_roles in Hdoc. by rewrite Hroles1 in Hdoc.
Qed.

(** C3. On a graph with no role, [add_role] with a name other than
    '@everyone' appends the default role and then the requested role: the
    roles are the default role at index 0 and the named role at index 1, the
    rendered [roles] sequence holds their documents in that order, and every
    later sequence of calls keeps both in place, in [self.roles] and in the
    rendered sequence. *)
Theorem add_role_puts_default_role_first `{Externals} (g : NewGuild.t)
    (name : string) (permissions : option Permissions.t)
    (color colour : option ColourArg) (hoist mentionable : option bool) (s : Rng) :
  NewGuild.roles g = [] -> name <> "@everyone" ->
  exists everyone role g' s',
    NewGuild.add_role g name permissions color colour hoist mentionable s =
      (role, g', s') /\
    everyone = everyone_role (fst (randint 0 999999999999 s)) /\
    NewRole.name role = Some name /\
    NewGuild.roles g' = [everyone; role] /\
    (forall doc, NewGuild._to_payload g' = Return doc ->
       doc !! "roles" =
         Some (VList [VDict (NewRole._to_payload everyone);
                      VDict (NewRole._to_payload role)])) /\
    (forall this calls s1,
       let g'' := fst (perform this calls g' s1) in
       exists later,
         NewGuild.roles g'' = everyone :: role :: later /\
         forall doc, NewGuild._to_payload g'' = Return doc ->
           doc !! "roles" =
             Some (VList (VDict (NewRole._to_payload everyone)
                          :: VDict (NewRole._to_payload role)
                          :: map (fun r => VDict (NewRole._to_payload r)) later))).
Proof.
  intros Hroles Hname.
  set (everyone := everyone_role (fst (randint 0 999999999999 s))).
  set (s1 := snd (randint 0 999999999999 s)).
  set (role :=
         {| NewRole.id := fst (randint 0 999999999999 s1); NewRole.name := Some name;
            NewRole.permissions := permissions;
            NewRole.colour := if colour_bool color then color else colour;
            NewRole.hoist := hoist; NewRole.mentionable := mentionable |}).
  set (g' := NewGuild.roles_append role (NewGuild.roles_append everyone g)).
  exists everyone, role, g', (snd (randint 0 999999999999 s1)).
  split; [by apply add_role_first|]. split; [done|]. split; [done|].
  assert (NewGuild.roles g' = [everyone; role]) as Hroles'.
  { unfold g'. simpl. by rewrite Hroles. }
  clearbody g' role everyone. split; [done|]. split.
  - intros doc Hdoc. apply NewGuild_to_payload_roles in Hdoc.
    by rewrite Hroles' in Hdoc.
  - intros this calls s2 g''.
    destruct (perform_roles_prefix this calls g' s2) as [later Hlater].
    fold g'' in Hlater. clearbody g''. rewrite Hroles' in Hlater.
    exists later. split; [done|].
    intros doc Hdoc. apply NewGuild_to_payload_roles in Hdoc.
    by rewrite Hlater in Hdoc.
Qed.

(** C4 (as amended). When both [color] and [colour] are given to [add_role],
    the role takes [color] whenever [color] is true as a condition, and
    [colour] only when [color] is [None] or false (the integer 0). *)
Theorem add_role_color_before_colour `{Externals} (g : NewGuild.t)
    (name : string) (permissions : option Permissions.t)
    (color colour : option ColourArg) (hoist mentionable : option bool) (s : Rng) :
  NewRole.colour
    (fst (fst (NewGuild.add_role g name permissions color colour hoist mentionable s)))
  = if colour_bool color then color else colour.
Proof.
  unfold_builders. destruct (NewGuild.roles g) as [|r rs] eqn:Hroles; [|done].
  by destruct (negb (name =? "@everyone")%string).
Qed.

(** ** Permission overwrites *)

Section overwrites.
Context `{Externals}.

(** A failure of [super()._to_payload()] is the failure of the subclass. *)
Lemma Channel_to_payload_base_raises (channel : Channel) (e : exn) :
  NewGuildChannel._to_payload (Channel.base channel) = Raise e ->
  Channel._to_payload channel = Raise e.
Proof.
  destruct channel as [c|c|c|c|c]; simpl; intros He; try done.
  - unfold NewTextChannel._to_payload. by rewrite He.
  - unfold NewVoiceChannel._to_payload. by rewrite He.
  - unfold NewStageChannel._to_payload. by rewrite He.
  - unfold NewForum._to_payload. by rewrite He.
Qed.

(** The loop stops with an exception at the first key that is not a
    [NewRole] (if not earlier), whatever was accumulated; the exception is a
    [TypeError] when the keys that are not roles carry an [id]. *)
Lemma overwrites_loop_non_role
    (items : list (Target * Checked PermissionOverwrite.t)) (perms : list pyval) :
  Exists (fun item => NewGuildChannel.is_NewRole (fst item) = false) items ->
  exists e,
    NewGuildChannel.overwrites_loop items perms = Raise e /\
    (Forall (fun item => forall cls, fst item <> TObject cls None) items ->
     exists msg, e = TypeError msg).
Proof.
  intros Hex. revert perms.
  induction Hex as [[target perm] items Hkey|[target perm] items _ IH];
    intros perms; simpl in *.
  - destruct perm as [perm|cls]; [|by eauto].
    destruct (PermissionOverwrite.pair perm) as [allow deny].
    destruct target as [r|cls [i|]]; try discriminate; simpl.
    + by eauto.
    + eexists. split; [done|]. intros Hall.
      apply Forall_cons in Hall as [Hid _]. by destruct (Hid cls).
  - destruct perm as [perm|cls]; [|by eauto].
    destruct (PermissionOverwrite.pair perm) as [allow deny].
    destruct target as [r|cls [i|]]; simpl.
    + destruct (IH (perms ++ [VDict
                 (<["type" := VInt Overwrites_ROLE]>
                    (<["id" := VInt (NewRole.id r)]>
                       (<["deny" := VInt (Permissions.value deny)]>
                          {[ "allow" := VInt (Permissions.value allow) ]})))]))
        as (e & He & Hty).
      exists e. split; [done|]. intros Hall.
      apply Forall_cons in Hall as [_ Hall]. by apply Hty.
    + by eauto.
    + eexists. split; [done|]. intros Hall.
      apply Forall_cons in Hall as [Hid _]. by destruct (Hid cls).
Qed.

(** When every item is a role with a [PermissionOverwrite], the loop appends
    one entry per item, in order. *)
Lemma overwrites_loop_one_role (R : NewRole.t) (P : PermissionOverwrite.t)
    (perms : list pyval) :
  NewGuildChannel.overwrites_loop [(TRole R, IsInstance P)] perms =
    Return (perms ++ [VDict
      (<["type" := VInt Overwrites_ROLE]>
         (<["id" := VInt (NewRole.id R)]>
            (<["deny" := VInt (Permissions.value (snd (PermissionOverwrite.pair P)))]>
               {[ "allow" :=
                    VInt (Permissions.value (fst (PermissionOverwrite.pair P))) ]})))]).
Proof. simpl. by destruct (PermissionOverwrite.pair P). Qed.

(** No document is produced for a channel whose [overwrites] mapping has a
    key that is not a [NewRole], nor for a guild that holds such a
    channel. *)
Lemma non_role_key_no_document (channel : Channel) :
  Exists (fun item => NewGuildChannel.is_NewRole (fst item) = false)
    (overwrites_items (Channel.base channel)) ->
  exists e,
    Channel._to_payload channel = Raise e /\
    (Forall (fun item => forall cls, fst item <> TObject cls None)
       (overwrites_items (Channel.base channel)) ->
     exists msg, e = TypeError msg).
Proof.
  intros Hex. destruct (overwrites_loop_non_role _ [] Hex) as (e & He & Hty).
  exists e. split; [|done]. apply Channel_to_payload_base_raises.
  unfold NewGuildChannel._to_payload, overwrites_items in *.
  destruct (NewGuildChannel.overwrites (Channel.base channel)) as [[items|cls]|].
  - simpl. by rewrite He.
  - by apply Exists_nil in Hex.
  - by apply Exists_nil in Hex.
Qed.

Lemma non_role_key_no_guild_document (g : NewGuild.t) :
  Exists (fun channel =>
            Exists (fun item => NewGuildChannel.is_NewRole (fst item) = false)
              (overwrites_items (Channel.base channel)))
    (NewGuild.channels g) ->
  exists e, NewGuild._to_payload g = Raise e.
Proof.
  intros Hex. apply NewGuild_to_payload_raises.
  eapply Exists_impl; [exact Hex|]. intros channel Hchannel.
  destruct (non_role_key_no_document channel Hchannel) as (e & He & _). by eauto.
Qed.
End overwrites.

(** C2 (as amended). For a channel of any kind whose [overwrites] mapping is
    {R: P} with R a role and P an overwrite of pair (allow = X, deny = Y),
    the base serializer returns, and in every document rendered for the
    channel [permission_overwrites] holds exactly one entry, whose keys are
    [id] (the id of R), [type] (the ROLE target kind), [allow] and [deny];
    [allow] and [deny] are the integers X.value and Y.value themselves, not
    their string encodings. *)
Theorem role_overwrite_rendered `{Externals} (channel : Channel) (R : NewRole.t)
    (P : PermissionOverwrite.t) (X Y : Permissions.t) :
  NewGuildChannel.overwrites (Channel.base channel) =
    Some (IsInstance [(TRole R, IsInstance P)]) ->
  PermissionOverwrite.pair P = (X, Y) ->
  (exists p, NewGuildChannel._to_payload (Channel.base channel) = Return p) /\
  forall doc, Channel._to_payload channel = Return doc ->
    exists entry : dict,
      doc !! "permission_overwrites" = Some (VList [VDict entry]) /\
      entry !! "id" = Some (VInt (NewRole.id R)) /\
      entry !! "type" = Some (VInt Overwrites_ROLE) /\
      entry !! "allow" = Some (VInt (Permissions.value X)) /\
      entry !! "deny" = Some (VInt (Permissions.value Y)) /\
      dom entry = {[ "id"; "type"; "allow"; "deny" ]}.
Proof.
  intros Hov Hpair. split.
  - unfold NewGuildChannel._to_payload. rewrite Hov. simpl.
    rewrite Hpair. simpl. by eauto.
  - intros doc Hdoc.
    apply Channel_to_payload_base in Hdoc as (p & Hp & Hframe).
    apply NewGuildChannel_to_payload_inv in Hp as (_ & _ & _ & _ & perms & Hloop & Hperms).
    unfold overwrites_items in Hloop. rewrite Hov in Hloop.
    rewrite overwrites_loop_one_role in Hloop. rewrite Hpair in Hloop.
    injection Hloop as <-. simpl in Hperms.
    eexists. split.
    { rewrite Hframe; [exact Hperms|]. unfold base_keys. set_solver. }
    repeat split; done.
Qed.

(** ** The kind of a channel *)

(** Every rendered channel document carries under [type] the code of the
    [type] attribute of the channel. *)
Lemma Channel_to_payload_type `{Externals} (channel : Channel) (doc : dict) :
  Channel._to_payload channel = Return doc ->
  doc !! "type" =
    Some (VInt (ChannelType_value (NewGuildChannel.type (Channel.base channel)))).
Proof.
  intros Hdoc. apply Channel_to_payload_base in Hdoc as (p & Hp & Hframe).
  apply NewGuildChannel_to_payload_inv in Hp as (_ & _ & Hty & _).
  rewrite Hframe; [done|]. unfold base_keys. set_solver.
Qed.

(** The text, voice, stage and category builders create channels of their
    own kind. *)
Lemma builders_set_own_kind (this : ref) (g : NewGuild.t) (name : string)
    (category : option NewCategory.t) (s : Rng) :
  (forall options,
     NewGuildChannel.type (NewTextChannel.base
       (fst (fst (call_add_text_channel name options category this g s))))
     = ChannelType.text) /\
  (forall options,
     NewGuildChannel.type (NewVoiceChannel.base
       (fst (fst (call_add_voice_channel name options category this g s))))
     = ChannelType.voice) /\
  (forall options,
     NewGuildChannel.type (NewStageChannel.base
       (fst (fst (call_add_stage_channel name options category this g s))))
     = ChannelType.stage_voice) /\
  (forall overwrites,
     NewGuildChannel.type (fst (fst (NewGuild.add_category this g name overwrites s)))
     = ChannelType.category).
Proof.
  repeat split; intros; by unfold_builders.
Qed.

(** C5 (the code departs from the claim). A channel created by [add_forum]
    has [ChannelType.text] as its [type], so every document rendered for it
    carries the code of the text kind under [type]; with the default options
    such a document is returned. *)
Theorem add_forum_renders_text_kind `{Externals} (this : ref) (g : NewGuild.t)
    (name : string) (options : forum_options) (category : option NewCategory.t)
    (s : Rng) :
  let channel := fst (fst (call_add_forum name options category this g s)) in
  NewGuildChannel.type (NewForum.base channel) = ChannelType.text /\
  (forall doc, Channel._to_payload (ForumChannel channel) = Return doc ->
     doc !! "type" = Some (VInt (ChannelType_value ChannelType.text))) /\
  (fopt_overwrites options = None -> fopt_default_sort_order options = None ->
   fopt_default_reaction_emoji options = None ->
   fopt_default_layout options = None ->
   exists doc, Channel._to_payload (ForumChannel channel) = Return doc).
Proof.
  intros channel.
  assert (NewGuildChannel.type (NewForum.base channel) = ChannelType.text) as Hty
    by done.
  split; [done|]. split.
  - intros doc Hdoc. apply Channel_to_payload_type in Hdoc. exact Hdoc.
  - intros Hov Hsort Hemoji Hlayout. unfold channel. unfold_builders. simpl.
    unfold NewForum._to_payload, NewGuildChannel._to_payload. simpl.
    rewrite Hov, Hsort, Hemoji, Hlayout. simpl.
    destruct category; simpl; by eauto.
Qed.

(** C7 (the code departs from the claim). A text channel added with an
    [overwrites] mapping whose only key is an object with no [id] attribute
    (an [int], a [str], ...) fails to render with an [AttributeError], raised
    by [target.id] before the class of the key is checked, and not with a
    [TypeError]; so does the guild that holds it. *)
Theorem overwrite_key_without_id_raises_AttributeError `{Externals} (this : ref)
    (name cls : string) (perm : PermissionOverwrite.t) (s : Rng) :
  let g := NewGuild.__init__ "Test" None None None None None None in
  let overwrites := Some (IsInstance [(TObject cls None, IsInstance perm)]) in
  let r := NewGuild.add_text_channel this g name None None None None overwrites
             None None false s in
  NewTextChannel._to_payload (fst (fst r)) =
    Raise (AttributeError ("'" +:+ cls +:+ "' object has no attribute 'id'")) /\
  NewGuild._to_payload (snd (fst r)) =
    Raise (AttributeError ("'" +:+ cls +:+ "' object has no attribute 'id'")).
Proof.
  simpl. unfold NewTextChannel._to_payload, NewGuild._to_payload,
    NewGuildChannel._to_payload. simpl.
  unfold NewTextChannel._to_payload, NewGuildChannel._to_payload. simpl.
  by destruct (PermissionOverwrite.pair perm).
Qed.

(** ** Attributes left unset *)

Lemma lookup_set_if_true_unset {A} key truth (f : A -> pyval) (payload : dict) k :
  NewGuild.set_if_true key truth f None payload !! k = payload !! k.
Proof. done. Qed.

Ltac lookup_unset :=
  repeat first
    [ rewrite lookup_set_if_not_None_unset
    | rewrite lookup_set_if_true_unset
    | rewrite lookup_set_if_not_None_ne by done
    | rewrite lookup_set_if_true_ne by done
    | rewrite lookup_insert_ne by done
    | rewrite lookup_singleton_ne by done ].

Ltac not_base_key :=
  unfold base_keys; rewrite !not_elem_of_cons;
  repeat split; try done; apply not_elem_of_nil.

(** A step [if x is not None: (check the class of x); payload[key] = f(x)]. *)
Lemma checked_step_inv {T} (x : option (Checked T)) (key : string) (f : T -> pyval)
    (failure : string -> exn) (p p' : dict) :
  match x with
  | None => Return p
  | Some (NotInstance cls) => Raise (failure cls)
  | Some (IsInstance m) => Return (<[key := f m]> p)
  end = Return p' ->
  (forall k, key <> k -> p' !! k = p !! k) /\ (x = None -> p' = p).
Proof.
  destruct x as [[m|cls]|]; intros Hp; simplify_eq.
  - split; [|done]. intros k Hk. by rewrite lookup_insert_ne.
  - by split.
Qed.

Section unset.
Context `{Externals}.

(** [NewGuildChannel._to_payload] writes no key outside [base_keys]. *)
Lemma NewGuildChannel_to_payload_keys (c : NewGuildChannel.t) (p : dict) (k : string) :
  NewGuildChannel._to_payload c = Return p -> k ∉ base_keys -> p !! k = None.
Proof.
  unfold NewGuildChannel._to_payload, base_keys. intros Hp Hk.
  assert ("id" <> k /\ "name" <> k /\ "type" <> k /\
          "permission_overwrites" <> k /\ "parent_id" <> k) as (?&?&?&?&?).
  { repeat split; intros <-; apply Hk; set_solver. }
  exc_inv Hp. exc_inv Hp. injection Hp as <-.
  destruct (NewGuildChannel.category c), p1; by lookup_unset.
Qed.

Lemma NewRole_unset (r : NewRole.t) :
  let doc := NewRole._to_payload r in
  (NewRole.name r = None -> doc !! "name" = None) /\
  (NewRole.permissions r = None -> doc !! "permissions" = None) /\
  (NewRole.hoist r = None -> doc !! "hoist" = None) /\
  (NewRole.mentionable r = None -> doc !! "mentionable" = None) /\
  (NewRole.colour r = None ->
   doc !! "color" = Some (VInt (Colour.value Colour_default))).
Proof.
  unfold NewRole._to_payload.
  repeat split; intros ->; simpl; lookup_unset;
    try (destruct (if colour_bool _ then _ else _); by lookup_unset).
  by rewrite lookup_insert_eq.
Qed.

Lemma Channel_unset (channel : Channel) (doc : dict) :
  Channel._to_payload channel = Return doc ->
  (NewGuildChannel.overwrites (Channel.base channel) = None ->
   doc !! "permission_overwrites" = None) /\
  (NewGuildChannel.category (Channel.base channel) = None ->
   doc !! "parent_id" = None).
Proof.
  intros Hdoc. apply Channel_to_payload_base in Hdoc as (p & Hp & Hframe).
  apply NewGuildChannel_to_payload_inv in Hp
    as (_ & _ & _ & Hparent & perms & Hloop & Hperms).
  split; intros Hunset.
  - rewrite Hframe by (unfold base_keys; set_solver).
    unfold overwrites_items in Hloop. rewrite Hunset in Hloop.
    injection Hloop as <-. done.
  - rewrite Hframe by (unfold base_keys; set_solver).
    by rewrite Hparent, Hunset.
Qed.

Lemma NewTextChannel_unset (c : NewTextChannel.t) (doc : dict) :
  NewTextChannel._to_payload c = Return doc ->
  (NewTextChannel.topic c = None -> doc !! "topic" = None) /\
  (NewTextChannel.slowmode_delay c = None -> doc !! "rate_limit_per_user" = None) /\
  (NewTextChannel.nsfw c = None -> doc !! "nsfw" = None) /\
  (NewTextChannel.default_auto_archive_duration c = None ->
   doc !! "default_auto_archive_duration" = None) /\
  (NewTextChannel.default_thread_slowmode_delay c = None ->
   doc !! "default_thread_rate_limit_per_user" = None).
Proof.
  unfold NewTextChannel._to_payload. intros Hdoc. exc_inv Hdoc.
  injection Hdoc as <-.
  repeat split; intros ->; lookup_unset;
    (eapply NewGuildChannel_to_payload_keys; [done|not_base_key]).
Qed.

Lemma NewVoiceChannel_unset (c : NewVoiceChannel.t) (doc : dict) :
  NewVoiceChannel._to_payload c = Return doc ->
  (NewVoiceChannel.bitrate c = None -> doc !! "bitrate" = None) /\
  (NewVoiceChannel.user_limit c = None -> doc !! "user_limit" = None) /\
  (NewVoiceChannel.rtc_region c = None -> doc !! "rtc_region" = None) /\
  (NewVoiceChannel.video_quality_mode c = None ->
   doc !! "video_quality_mode" = None).
Proof.
  unfold NewVoiceChannel._to_payload. intros Hdoc. exc_inv Hdoc. exc_inv Hdoc.
  injection Hdoc as <-.
  apply (checked_step_inv _ _ _ (fun _ => TypeError _)) in Hp0 as [Hframe Hsame].
  repeat split; intros Hunset;
    try (rewrite Hframe by done; rewrite Hunset);
    try (rewrite (Hsame Hunset));
    lookup_unset;
    (eapply NewGuildChannel_to_payload_keys; [done|not_base_key]).
Qed.

Lemma NewStageChannel_unset (c : NewStageChannel.t) (doc : dict) :
  NewStageChannel._to_payload c = Return doc ->
  (NewStageChannel.bitrate c = None -> doc !! "bitrate" = None) /\
  (NewStageChannel.user_limit c = None -> doc !! "user_limit" = None) /\
  (NewStageChannel.rtc_region c = None -> doc !! "rtc_region" = None) /\
  (NewStageChannel.video_quality_mode c = None ->
   doc !! "video_quality_mode" = None).
Proof.
  unfold NewStageChannel._to_payload. intros Hdoc. exc_inv Hdoc. exc_inv Hdoc.
  injection Hdoc as <-.
  apply (checked_step_inv _ _ _ (fun _ => TypeError _)) in Hp0 as [Hframe Hsame].
  repeat split; intros Hunset;
    try (rewrite Hframe by done; rewrite Hunset);
    try (rewrite (Hsame Hunset));
    lookup_unset;
    (eapply NewGuildChannel_to_payload_keys; [done|not_base_key]).
Qed.
End unset.

Section unset_forum_and_guild.
Context `{Externals}.

Lemma emoji_step_inv (x : option EmojiInput) (p p' : dict) :
  match x with
  | None => Return p
  | Some (EmojiObj e) =>
      Return (<["default_reaction_emoji" :=
                  VDict (PartialEmoji._to_forum_tag_payload (EmojiTag._to_partial e))]> p)
  | Some (EmojiStr s) =>
      Return (<["default_reaction_emoji" :=
                  VDict (PartialEmoji._to_forum_tag_payload (PartialEmoji_from_str s))]> p)
  | Some (EmojiOther _) =>
      Raise (ValueError
               "default_reaction_emoji parameter must be either Emoji, PartialEmoji, or str")
  end = Return p' ->
  (forall k, "default_reaction_emoji" <> k -> p' !! k = p !! k) /\
  (x = None -> p' = p).
Proof.
  destruct x as [[e|s|cls]|]; intros Hp; simplify_eq.
  - split; [|done]. intros k Hk. by rewrite lookup_insert_ne.
  - split; [|done]. intros k Hk. by rewrite lookup_insert_ne.
  - by split.
Qed.

Lemma NewForum_unset (c : NewForum.t) (doc : dict) :
  NewForum._to_payload c = Return doc ->
  (NewForum.topic c = None -> doc !! "topic" = None) /\
  (NewForum.slowmode_delay c = None -> doc !! "rate_limit_per_user" = None) /\
  (NewForum.nsfw c = None -> doc !! "nsfw" = None) /\
  (NewForum.default_auto_archive_duration c = None ->
   doc !! "default_auto_archive_duration" = None) /\
  (NewForum.default_thread_slowmode_delay c = None ->
   doc !! "default_thread_rate_limit_per_user" = None) /\
  (NewForum.default_sort_order c = None -> doc !! "default_sort_order" = None) /\
  (NewForum.default_reaction_emoji c = None ->
   doc !! "default_reaction_emoji" = None) /\
  (NewForum.default_layout c = None -> doc !! "default_forum_layout" = None) /\
  (NewForum.available_tags c = None -> doc !! "available_tags" = None).
Proof.
  unfold NewForum._to_payload. intros Hdoc.
  apply Exc_bind_Return_inv in Hdoc as (p & Hbase & Hdoc).
  apply Exc_bind_Return_inv in Hdoc as (p1 & Hsort & Hdoc).
  apply Exc_bind_Return_inv in Hdoc as (p2 & Hemoji & Hdoc).
  apply Exc_bind_Return_inv in Hdoc as (p3 & Hlayout & Hdoc).
  injection Hdoc as <-.
  apply (checked_step_inv _ _ _ (fun cls => TypeError _)) in Hsort as [Hf1 Hs1].
  apply emoji_step_inv in Hemoji as [Hf2 Hs2].
  apply (checked_step_inv _ _ _ (fun cls => TypeError _)) in Hlayout as [Hf3 Hs3].
  repeat split; intros Hunset; try rewrite Hunset; lookup_unset;
    first [rewrite (Hs3 Hunset) | rewrite Hf3 by done];
    first [rewrite (Hs2 Hunset) | rewrite Hf2 by done];
    first [rewrite (Hs1 Hunset) | rewrite Hf1 by done];
    try rewrite Hunset; lookup_unset;
    (eapply NewGuildChannel_to_payload_keys; [done|not_base_key]).
Qed.

Lemma NewGuild_unset (g : NewGuild.t) (doc : dict) :
  NewGuild._to_payload g = Return doc ->
  (NewGuild.icon g = None -> doc !! "icon" = None) /\
  (NewGuild.afk_timeout g = None -> doc !! "afk_timeout" = None) /\
  (NewGuild.verification_level g = None -> doc !! "verification_level" = None) /\
  (NewGuild.notification_level g = None ->
   doc !! "default_message_notifications" = None) /\
  (NewGuild.content_filter g = None -> doc !! "explicit_content_filter" = None) /\
  (NewGuild.system_channel_flags g = None -> doc !! "system_channel_flags" = None) /\
  (NewGuild.afk_channel_id g = None -> doc !! "afk_channel_id" = None) /\
  (NewGuild.system_channel_id g = None -> doc !! "system_channel_id" = None).
Proof.
  intros Hdoc.
  apply NewGuild_to_payload_inv in Hdoc as (p0 & Hframe & Hicon & Hdoc).
  simpl in Hdoc.
  assert (forall k, k <> "icon" -> k <> "name" -> p0 !! k = None) as Hp0.
  { intros k ? ?. rewrite Hframe by done. by rewrite lookup_singleton_ne. }
  destruct (NewGuild.channels g) as [|ch chs];
    [subst doc | destruct Hdoc as (docs & _ & ->)];
    destruct (NewGuild.roles g) as [|r rs];
    repeat split; intros Hunset; try rewrite Hunset; lookup_unset;
    first [by apply Hicon | by apply Hp0].
Qed.
End unset_forum_and_guild.

(** C8 (as amended). An optional attribute left unset never appears as a key
    of the rendered document, for every entity and every optional attribute
    but one: a role whose colour is unset still renders [color], with the
    value of [Colour.default()]. *)
Theorem unset_attributes_are_omitted `{Externals} :
  (forall r : NewRole.t,
     let doc := NewRole._to_payload r in
     (NewRole.name r = None -> doc !! "name" = None) /\
     (NewRole.permissions r = None -> doc !! "permissions" = None) /\
     (NewRole.hoist r = None -> doc !! "hoist" = None) /\
     (NewRole.mentionable r = None -> doc !! "mentionable" = None) /\
     (NewRole.colour r = None ->
      doc !! "color" = Some (VInt (Colour.value Colour_default)))) /\
  (forall (channel : Channel) (doc : dict),
     Channel._to_payload channel = Return doc ->
     (NewGuildChannel.overwrites (Channel.base channel) = None ->
      doc !! "permission_overwrites" = None) /\
     (NewGuildChannel.category (Channel.base channel) = None ->
      doc !! "parent_id" = None)) /\
  (forall (c : NewTextChannel.t) (doc : dict),
     NewTextChannel._to_payload c = Return doc ->
     (NewTextChannel.topic c = None -> doc !! "topic" = None) /\
     (NewTextChannel.slowmode_delay c = None -> doc !! "rate_limit_per_user" = None) /\
     (NewTextChannel.nsfw c = None -> doc !! "nsfw" = None) /\
     (NewTextChannel.default_auto_archive_duration c = None ->
      doc !! "default_auto_archive_duration" = None) /\
     (NewTextChannel.default_thread_slowmode_delay c = None ->
      doc !! "default_thread_rate_limit_per_user" = None)) /\
  (forall (c : NewVoiceChannel.t) (doc : dict),
     NewVoiceChannel._to_payload c = Return doc ->
     (NewVoiceChannel.bitrate c = None -> doc !! "bitrate" = None) /\
     (NewVoiceChannel.user_limit c = None -> doc !! "user_limit" = None) /\
     (NewVoiceChannel.rtc_region c = None -> doc !! "rtc_region" = None) /\
     (NewVoiceChannel.video_quality_mode c = None ->
      doc !! "video_quality_mode" = None)) /\
  (forall (c : NewStageChannel.t) (doc : dict),
     NewStageChannel._to_payload c = Return doc ->
     (NewStageChannel.bitrate c = None -> doc !! "bitrate" = None) /\
     (NewStageChannel.user_limit c = None -> doc !! "user_limit" = None) /\
     (NewStageChannel.rtc_region c = None -> doc !! "rtc_region" = None) /\
     (NewStageChannel.video_quality_mode c = None ->
      doc !! "video_quality_mode" = None)) /\
  (forall (c : NewForum.t) (doc : dict),
     NewForum._to_payload c = Return doc ->
     (NewForum.topic c = None -> doc !! "topic" = None) /\
     (NewForum.slowmode_delay c = None -> doc !! "rate_limit_per_user" = None) /\
     (NewForum.nsfw c = None -> doc !! "nsfw" = None) /\
     (NewForum.default_auto_archive_duration c = None ->
      doc !! "default_auto_archive_duration" = None) /\
     (NewForum.default_thread_slowmode_delay c = None ->
      doc !! "default_thread_rate_limit_per_user" = None) /\
     (NewForum.default_sort_order c = None -> doc !! "default_sort_order" = None) /\
     (NewForum.default_reaction_emoji c = None ->
      doc !! "default_reaction_emoji" = None) /\
     (NewForum.default_layout c = None -> doc !! "default_forum_layout" = None) /\
     (NewForum.available_tags c = None -> doc !! "available_tags" = None)) /\
  (forall (g : NewGuild.t) (doc : dict),
     NewGuild._to_payload g = Return doc ->
     (NewGuild.icon g = None -> doc !! "icon" = None) /\
     (NewGuild.afk_timeout g = None -> doc !! "afk_timeout" = None) /\
     (NewGuild.verification_level g = None -> doc !! "verification_level" = None) /\
     (NewGuild.notification_level g = None ->
      doc !! "default_message_notifications" = None) /\
     (NewGuild.content_filter g = None -> doc !! "explicit_content_filter" = None) /\
     (NewGuild.system_channel_flags g = None ->
      doc !! "system_channel_flags" = None) /\
     (NewGuild.afk_channel_id g = None -> doc !! "afk_channel_id" = None) /\
     (NewGuild.system_channel_id g = None -> doc !! "system_channel_id" = None)).
Proof.
  split; [exact NewRole_unset|].
  split; [exact Channel_unset|].
  split; [exact NewTextChannel_unset|].
  split; [exact NewVoiceChannel_unset|].
  split; [exact NewStageChannel_unset|].
  split; [exact NewForum_unset|].
  exact NewGuild_unset.
Qed.

(** ** The AFK and system channels *)


(** Adding a channel to a guild that renders gives a guild that renders,
    provided the new channel renders. *)
Lemma channels_append_renders `{Externals} (g g' : NewGuild.t) (channel : Channel) :
  NewGuild.icon g' = NewGuild.icon g ->
  NewGuild.channels g' = NewGuild.channels g ++ [channel] ->
  icon_encodes g -> Forall channel_renders (NewGuild.channels g) ->
  channel_renders channel ->
  exists doc, NewGuild._to_payload g' = Return doc.
Proof.
  intros Hicon Hchannels Hencodes Hrenders Hchannel.
  apply NewGuild_to_payload_returns.
  - unfold icon_encodes in *. by rewrite Hicon.
  - rewrite Hchannels. apply Forall_app. split; [done|]. by constructor.
Qed.

Lemma comprehension_length {A B} (f : A -> Exc B) (xs : list A) (ys : list B) :
  comprehension f xs = Return ys -> length ys = length xs.
Proof.
  revert ys. induction xs as [|x xs IH]; intros ys Hys; simpl in *.
  - by injection Hys as <-.
  - destruct (f x) as [y|e]; [|done]. simpl in Hys.
    destruct (comprehension f xs) as [ys'|e]; [|done]. simpl in Hys.
    injection Hys as <-. simpl. by rewrite (IH ys').
Qed.

(** The document of a guild that has channels. *)
Lemma NewGuild_to_payload_with_channels `{Externals} (g : NewGuild.t) (doc : dict)
    (channels : list Channel) (channel : Channel) :
  NewGuild.channels g = channels ++ [channel] ->
  NewGuild._to_payload g = Return doc ->
  (exists d docs, doc !! "channels" = Some (VList (d :: docs))) /\
  doc !! "afk_channel_id" =
    match NewGuild.afk_channel_id g with
    | Some i => if negb (i =? 0) then Some (VInt i) else None
    | None => None
    end /\
  doc !! "system_channel_id" =
    match NewGuild.system_channel_id g with
    | Some i => if negb (i =? 0) then Some (VInt i) else None
    | None => None
    end.
Proof.
  intros Hchannels Hdoc. apply NewGuild_to_payload_channels in Hdoc.
  destruct (NewGuild.channels g) as [|c cs] eqn:Hcs.
  { by destruct channels. }
  destruct Hdoc as (docs & Hdocs & Hdoc & Hafk & Hsys).
  split; [|done]. apply comprehension_length in Hdocs.
  destruct docs as [|d docs]; [done|]. simpl in Hdoc. by eauto.
Qed.

(** C10. The temporary id of a role or of a channel is drawn from
    0..999999999999, both ends included, so it can be 0. When the draw made
    for a voice channel added with [is_afk_channel] is 0,
    the guild records 0 as its AFK channel and has channels, yet no rendered
    document has the [afk_channel_id] key, although [channels] is rendered
    and not empty; the same holds for a text channel added with
    [is_system_channel] and the [system_channel_id] key. In both cases the
    document is returned as soon as the guild rendered before and the new
    channel renders. *)
Theorem zero_temp_id_hides_special_channel `{Externals} (this : ref)
    (g : NewGuild.t) (name : string) (category : option NewCategory.t)
    (voptions : voice_options) (toptions : text_options) (s : Rng) :
  fst (randint 0 999999999999 s) = 0 ->
  vopt_is_afk_channel voptions = true ->
  opt_is_system_channel toptions = true ->
  (forall name permissions colour hoist mentionable s',
     0 <= NewRole.id (fst (NewRole.__init__ name permissions colour hoist
                             mentionable s')) <= 999999999999) /\
  (forall name type category overwrites guild s',
     0 <= NewGuildChannel.id (fst (NewGuildChannel.__init__ name type category
                                     overwrites guild s')) <= 999999999999) /\
  (let r := call_add_voice_channel name voptions category this g s in
   let channel := fst (fst r) in
   let g' := snd (fst r) in
   NewGuildChannel.id (NewVoiceChannel.base channel) = 0 /\
   NewGuild.afk_channel_id g' = Some 0 /\
   NewGuild.channels g' = NewGuild.channels g ++ [VoiceChannel channel] /\
   (forall doc, NewGuild._to_payload g' = Return doc ->
      doc !! "afk_channel_id" = None /\
      exists d docs, doc !! "channels" = Some (VList (d :: docs))) /\
   (icon_encodes g -> Forall channel_renders (NewGuild.channels g) ->
    channel_renders (VoiceChannel channel) ->
    exists doc, NewGuild._to_payload g' = Return doc)) /\
  (let r := call_add_text_channel name toptions category this g s in
   let channel := fst (fst r) in
   let g' := snd (fst r) in
   NewGuildChannel.id (NewTextChannel.base channel) = 0 /\
   NewGuild.system_channel_id g' = Some 0 /\
   NewGuild.channels g' = NewGuild.channels g ++ [TextChannel channel] /\
   (forall doc, NewGuild._to_payload g' = Return doc ->
      doc !! "system_channel_id" = None /\
      exists d docs, doc !! "channels" = Some (VList (d :: docs))) /\
   (icon_encodes g -> Forall channel_renders (NewGuild.channels g) ->
    channel_renders (TextChannel channel) ->
    exists doc, NewGuild._to_payload g' = Return doc)).
Proof.
  intros Hdraw Hafk Hsys. split; [|split; [|split]].
  - intros. by apply randint_range.
  - intros. by apply randint_range.
  - intros r channel g'.
    assert (NewGuildChannel.id (NewVoiceChannel.base channel) = 0) as Hid by exact Hdraw.
    assert (NewGuild.afk_channel_id g' = Some 0 /\
            NewGuild.icon g' = NewGuild.icon g /\
            NewGuild.channels g' = NewGuild.channels g ++ [VoiceChannel channel])
      as (Hrec & Hicon & Hchannels).
    { unfold g', channel, r. unfold_builders. simpl. rewrite Hafk. simpl.
      unfold randint in Hdraw. simpl in Hdraw. by rewrite Hdraw. }
    clearbody g' channel. split; [done|]. split; [done|]. split; [done|]. split.
    + intros doc Hdoc.
      destruct (NewGuild_to_payload_with_channels _ _ _ _ Hchannels Hdoc)
        as (Hdocs & Hkey & _).
      rewrite Hrec in Hkey. by split.
    + intros. by eapply channels_append_renders.
  - intros r channel g'.
    assert (NewGuildChannel.id (NewTextChannel.base channel) = 0) as Hid by exact Hdraw.
    assert (NewGuild.system_channel_id g' = Some 0 /\
            NewGuild.icon g' = NewGuild.icon g /\
            NewGuild.channels g' = NewGuild.channels g ++ [TextChannel channel])
      as (Hrec & Hicon & Hchannels).
    { unfold g', channel, r. unfold_builders. simpl. rewrite Hsys. simpl.
      unfold randint in Hdraw. simpl in Hdraw. by rewrite Hdraw. }
    clearbody g' channel. split; [done|]. split; [done|]. split; [done|]. split.
    + intros doc Hdoc.
      destruct (NewGuild_to_payload_with_channels _ _ _ _ Hchannels Hdoc)
        as (Hdocs & _ & Hkey).
      rewrite Hrec in Hkey. by split.
    + intros. by eapply channels_append_renders.
Qed.

(** ** The operations of a category *)

(** A call through a reference runs the operation on the object stored at
    that address and stores the result there. *)
Lemma invoke_spec {A} (guild : ref)
    (method : ref -> NewGuild.t -> Rand (A * NewGuild.t)) (w : World) (g : NewGuild.t) :
  heap w !! guild = Some g ->
  invoke guild method w =
    Some (fst (fst (method guild g (rng w))),
          {| heap := <[guild := snd (fst (method guild g (rng w)))]> (heap w);
             rng := snd (method guild g (rng w)) |}).
Proof.
  intros Hg. unfold invoke. rewrite Hg.
  by destruct (method guild g (rng w)) as [[a g'] s'].
Qed.

(** C9. Each convenience operation of a category is the operation of the
    same name of the guild the category belongs to, called through
    [self.guild] with the same name and options and with the category as
    [category]: same result, same store. When that guild is in the store, the
    operation returns the channel built by the guild operation, whose parent
    is the category, and the guild holds it as its last channel. *)
Theorem category_operations_delegate (self : NewCategory.t) (name : string)
    (w : World) :
  (forall options,
     NewCategory_add_text_channel self name options w =
     guild_add_text_channel (NewGuildChannel.guild self) name options (Some self) w) /\
  (forall options,
     NewCategory_add_voice_channel self name options w =
     guild_add_voice_channel (NewGuildChannel.guild self) name options (Some self) w) /\
  (forall options,
     NewCategory_add_stage_channel self name options w =
     guild_add_stage_channel (NewGuildChannel.guild self) name options (Some self) w) /\
  (forall options,
     NewCategory_add_forum self name options w =
     guild_add_forum (NewGuildChannel.guild self) name options (Some self) w) /\
  (forall g, heap w !! NewGuildChannel.guild self = Some g ->
     (forall options,
        let r := call_add_text_channel name options (Some self)
                   (NewGuildChannel.guild self) g (rng w) in
        NewCategory_add_text_channel self name options w =
          Some (fst (fst r),
                {| heap := <[NewGuildChannel.guild self := snd (fst r)]> (heap w);
                   rng := snd r |}) /\
        NewGuildChannel.category (NewTextChannel.base (fst (fst r))) = Some self /\
        NewGuildChannel.guild (NewTextChannel.base (fst (fst r))) =
          NewGuildChannel.guild self /\
        NewGuild.channels (snd (fst r)) =
          NewGuild.channels g ++ [TextChannel (fst (fst r))]) /\
     (forall options,
        let r := call_add_voice_channel name options (Some self)
                   (NewGuildChannel.guild self) g (rng w) in
        NewCategory_add_voice_channel self name options w =
          Some (fst (fst r),
                {| heap := <[NewGuildChannel.guild self := snd (fst r)]> (heap w);
                   rng := snd r |}) /\
        NewGuildChannel.category (NewVoiceChannel.base (fst (fst r))) = Some self /\
        NewGuildChannel.guild (NewVoiceChannel.base (fst (fst r))) =
          NewGuildChannel.guild self /\
        NewGuild.channels (snd (fst r)) =
          NewGuild.channels g ++ [VoiceChannel (fst (fst r))]) /\
     (forall options,
        let r := call_add_stage_channel name options (Some self)
                   (NewGuildChannel.guild self) g (rng w) in
        NewCategory_add_stage_channel self name options w =
          Some (fst (fst r),
                {| heap := <[NewGuildChannel.guild self := snd (fst r)]> (heap w);
                   rng := snd r |}) /\
        NewGuildChannel.category (NewStageChannel.base (fst (fst r))) = Some self /\
        NewGuildChannel.guild (NewStageChannel.base (fst (fst r))) =
          NewGuildChannel.guild self /\
        NewGuild.channels (snd (fst r)) =
          NewGuild.channels g ++ [StageChannel (fst (fst r))]) /\
     (forall options,
        let r := call_add_forum name options (Some self)
                   (NewGuildChannel.guild self) g (rng w) in
        NewCategory_add_forum self name options w =
          Some (fst (fst r),
                {| heap := <[NewGuildChannel.guild self := snd (fst r)]> (heap w);
                   rng := snd r |}) /\
        NewGuildChannel.category (NewForum.base (fst (fst r))) = Some self /\
        NewGuildChannel.guild (NewForum.base (fst (fst r))) =
          NewGuildChannel.guild self /\
        NewGuild.channels (snd (fst r)) =
          NewGuild.channels g ++ [ForumChannel (fst (fst r))])).
Proof.
  split; [done|]. split; [done|]. split; [done|]. split; [done|].
  intros g Hg. split; [|split; [|split]]; intros options r;
    (split; [by apply invoke_spec|]); unfold r; unfold_builders; simpl.
  - by destruct (opt_is_system_channel options).
  - by destruct (vopt_is_afk_channel options).
  - done.
  - done.
Qed.

(** ** Concrete graphs *)

Example test_guild_document :
  let '(general, mods, chat, g) := fst (@test_guild platform counting_rng) in
  NewGuildChannel.id general = 1 /\ NewRole.id mods = 3 /\
  @NewGuild._to_payload platform g = Return (
    <["channels" := VList [
        VDict (<["type" := VInt 4]> (<["name" := VStr "General"]> {[ "id" := VInt 1 ]}));
        VDict (<["parent_id" := VInt 1]>
                (<["permission_overwrites" := VList [
                     VDict (<["type" := VInt 0]> (<["id" := VInt 3]>
                             (<["deny" := VInt 0]> {[ "allow" := VInt 8 ]})))]]>
                  (<["type" := VInt 0]> (<["name" := VStr "chat"]> {[ "id" := VInt 4 ]}))))]]>
      (<["roles" := VList [
           VDict (<["name" := VStr "@everyone"]> (<["color" := VInt 0]> {[ "id" := VInt 2 ]}));
           VDict (<["name" := VStr "Mods"]> (<["color" := VInt 0]>
                   (<["permissions" := VStr "8"]> {[ "id" := VInt 3 ]})))]]>
         {[ "name" := VStr "Test" ]})).
Proof. vm_compute. repeat split. Qed.

(** A new guild, serialized before any role is added: the document is
    [{'name': 'Test'}], with no [roles] key. *)
Lemma no_roles_key_counterexample :
  let g := NewGuild.__init__ "Test" None None None None None None in
  NewGuild.roles g = [] /\
  exists doc,
    @NewGuild._to_payload platform g = Return doc /\
    doc !! "roles" = None /\
    ~ (exists everyone, doc !! "roles" = Some (VList [everyone])).
Proof.
  simpl. split; [reflexivity|]. eexists. split; [reflexivity|].
  split; [reflexivity|]. intros [everyone Heveryone]. discriminate Heveryone.
Qed.

Lemma roles_key_absent_until_default_role_witness :
  forallb is_channel_call [Call_add_category "General" None] = true /\
  let g :=
    fst (@perform platform 0%nat [Call_add_category "General" None]
           (NewGuild.__init__ "Test" None None None None None None) counting_rng) in
  NewGuild.roles g = [] /\
  (exists doc, @NewGuild._to_payload platform g = Return doc /\ doc !! "roles" = None) /\
  exists doc,
    @NewGuild._to_payload platform
      (snd (fst (@NewGuild.default_role platform g counting_rng))) = Return doc /\
    doc !! "roles" =
      Some (VList [VDict (@NewRole._to_payload platform (everyone_role 1))]).
Proof.
  split; [reflexivity|].
  destruct (@roles_key_absent_until_default_role platform "Test" None None None None
              None None 0%nat [Call_add_category "General" None] counting_rng
              eq_refl) as (Hroles & Hnone & _ & Hdefault).
  split; [exact Hroles|]. split.
  - eexists. split; [reflexivity|]. apply Hnone. reflexivity.
  - destruct (Hdefault counting_rng) as (_ & _ & Hdoc).
    eexists. split; [reflexivity|]. apply Hdoc. reflexivity.
Defined.

(** The overwrite (allow = 8, deny = 0) of the role "Mods" on the channel
    "chat": [allow] and [deny] are rendered as the integers 8 and 0, not as
    the strings '8' and '0'. *)
Lemma overwrite_not_string_encoded_counterexample :
  let '(general, mods, chat, g) := fst (@test_guild platform counting_rng) in
  exists doc entry,
    @Channel._to_payload platform (TextChannel chat) = Return doc /\
    doc !! "permission_overwrites" = Some (VList [VDict entry]) /\
    entry !! "id" = Some (VInt (NewRole.id mods)) /\
    entry !! "allow" = Some (VInt 8) /\ str 8 = "8" /\
    entry !! "allow" <> Some (VStr (str 8)) /\
    entry !! "deny" = Some (VInt 0) /\ str 0 = "0" /\
    entry !! "deny" <> Some (VStr (str 0)).
Proof.
  vm_compute. eexists _, _. split; [reflexivity|]. split; [reflexivity|].
  repeat split; discriminate.
Qed.

Lemma role_overwrite_rendered_witness :
  let R := everyone_role 7 in
  let P := {| PermissionOverwrite.pair :=
                ({| Permissions.value := 8 |}, {| Permissions.value := 0 |}) |} in
  let channel :=
    CategoryChannel
      {| NewGuildChannel.id := 3; NewGuildChannel.name := "General";
         NewGuildChannel.guild := 0%nat; NewGuildChannel.type := ChannelType.category;
         NewGuildChannel.category := None;
         NewGuildChannel.overwrites := Some (IsInstance [(TRole R, IsInstance P)]) |} in
  NewGuildChannel.overwrites (Channel.base channel) =
    Some (IsInstance [(TRole R, IsInstance P)]) /\
  PermissionOverwrite.pair P = ({| Permissions.value := 8 |}, {| Permissions.value := 0 |}) /\
  exists doc entry,
    @Channel._to_payload platform channel = Return doc /\
    doc !! "permission_overwrites" = Some (VList [VDict entry]) /\
    entry !! "id" = Some (VInt 7) /\ entry !! "allow" = Some (VInt 8) /\
    entry !! "deny" = Some (VInt 0).
Proof.
  intros R P channel. split; [reflexivity|]. split; [reflexivity|].
  destruct (@role_overwrite_rendered platform channel R P _ _ eq_refl eq_refl)
    as [_ Hdoc].
  destruct (Hdoc _ eq_refl) as (entry & Hentry & Hid & _ & Hallow & Hdeny & _).
  eexists _, entry. split; [reflexivity|]. repeat split; assumption.
Defined.

Lemma add_role_puts_default_role_first_witness :
  let g := NewGuild.__init__ "Test" None None None None None None in
  NewGuild.roles g = [] /\ "Mods" <> "@everyone" /\
  exists role g',
    fst (@NewGuild.add_role platform g "Mods" None None None None None counting_rng) =
      (role, g') /\
    NewGuild.roles g' = [everyone_role 1; role] /\ NewRole.name role = Some "Mods".
Proof.
  intros g. split; [reflexivity|]. split; [discriminate|].
  destruct (@add_role_puts_default_role_first platform g "Mods" None None None None
              None counting_rng eq_refl ltac:(discriminate))
    as (everyone & role & g' & s' & Hadd & Heveryone & Hname & Hroles & _).
  exists role, g'. rewrite Hadd. split; [reflexivity|].
  rewrite Hroles, Heveryone. split; [reflexivity | exact Hname].
Defined.

(** [add_role(name='Mods', color=1, colour=2)]: the role takes 1. *)
Lemma colour_does_not_win_counterexample :
  let g := NewGuild.__init__ "Test" None None None None None None in
  let role :=
    fst (fst (@NewGuild.add_role platform g "Mods" None (Some (ColourInt 1))
                (Some (ColourInt 2)) None None counting_rng)) in
  NewRole.colour role = Some (ColourInt 1) /\
  NewRole.colour role <> Some (ColourInt 2).
Proof. simpl. split; [reflexivity | discriminate]. Qed.

(** A role created with no colour renders [color] as 0. *)
Lemma unset_colour_rendered_counterexample :
  NewRole.colour (everyone_role 5) = None /\
  @NewRole._to_payload platform (everyone_role 5) !! "color" = Some (VInt 0) /\
  @NewRole._to_payload platform (everyone_role 5) !! "color" <> None.
Proof. split; [reflexivity|]. split; [reflexivity | discriminate]. Qed.

(** A forum added to a new guild renders the code of the text kind (0), not
    that of the forum kind (15). *)
Example forum_rendered_as_text :
  let g := NewGuild.__init__ "Test" None None None None None None in
  let forum_options :=
    {| fopt_topic := None; fopt_slowmode_delay := None; fopt_nsfw := None;
       fopt_overwrites := None; fopt_default_auto_archive_duration := None;
       fopt_default_thread_slowmode_delay := None; fopt_default_sort_order := None;
       fopt_default_reaction_emoji := None; fopt_default_layout := None;
       fopt_available_tags := None |} in
  let channel := fst (fst (call_add_forum "rules" forum_options None 0%nat g counting_rng)) in
  @Channel._to_payload platform (ForumChannel channel) =
    Return (<["type" := VInt 0]> (<["name" := VStr "rules"]> {[ "id" := VInt 1 ]})) /\
  @ChannelType_value platform ChannelType.forum = 15.
Proof. vm_compute. split; reflexivity. Qed.

(** A role id used as a key: [overwrites={3: overwrite}]. *)
Example int_key_rejected_with_AttributeError :
  let g := NewGuild.__init__ "Test" None None None None None None in
  let overwrite :=
    {| PermissionOverwrite.pair :=
         ({| Permissions.value := 8 |}, {| Permissions.value := 0 |}) |} in
  let overwrites := Some (IsInstance [(TObject "int" None, IsInstance overwrite)]) in
  let r := NewGuild.add_text_channel 0%nat g "chat" None None None None overwrites
             None None false counting_rng in
  @NewGuild._to_payload platform (snd (fst r)) =
    Raise (AttributeError "'int' object has no attribute 'id'").
Proof. vm_compute. reflexivity. Qed.

(** A key that is another channel of the graph (it has an [id]) is rejected
    with a [TypeError]. *)
Example channel_key_rejected_with_TypeError :
  let '(general, mods, chat, g) := fst (@test_guild platform counting_rng) in
  let overwrite :=
    {| PermissionOverwrite.pair :=
         ({| Permissions.value := 8 |}, {| Permissions.value := 0 |}) |} in
  let overwrites :=
    Some (IsInstance [(TObject "NewCategory" (Some (NewGuildChannel.id general)),
                       IsInstance overwrite)]) in
  let r := NewGuild.add_category 0%nat g "Staff" overwrites counting_rng in
  @NewGuild._to_payload platform (snd (fst r)) =
    Raise (TypeError "Expected NewRole received PermissionOverwrite").
Proof. vm_compute. reflexivity. Qed.

Lemma zero_temp_id_hides_special_channel_witness :
  let g := NewGuild.__init__ "Test" None None None None None None in
  let voptions :=
    {| vopt_bitrate := None; vopt_user_limit := None; vopt_rtc_region := None;
       vopt_video_quality_mode := None; vopt_overwrites := None;
       vopt_is_afk_channel := true |} in
  let toptions :=
    {| opt_topic := None; opt_slowmode_delay := None; opt_nsfw := None;
       opt_overwrites := None; opt_default_auto_archive_duration := None;
       opt_default_thread_slowmode_delay := None; opt_is_system_channel := true |} in
  fst (randint 0 999999999999 (constant_rng 0)) = 0 /\
  vopt_is_afk_channel voptions = true /\
  opt_is_system_channel toptions = true /\
  let g' := snd (fst (call_add_voice_channel "AFK" voptions None 0%nat g (constant_rng 0))) in
  NewGuild.afk_channel_id g' = Some 0 /\
  exists doc,
    @NewGuild._to_payload platform g' = Return doc /\
    doc !! "afk_channel_id" = None /\
    exists d docs, doc !! "channels" = Some (VList (d :: docs)).
Proof.
  intros g voptions toptions.
  split; [reflexivity|]. split; [reflexivity|]. split; [reflexivity|].
  destruct (@zero_temp_id_hides_special_channel platform 0%nat g "AFK" None voptions
              toptions (constant_rng 0) eq_refl eq_refl eq_refl)
    as (_ & _ & (_ & Hrec & _ & Hdoc & _) & _).
  split; [exact Hrec|].
  eexists. split; [reflexivity|]. apply Hdoc. reflexivity.
Defined.


Lemma unset_attributes_are_omitted_witness :
  let '(general, mods, chat, g) := fst (@test_guild platform counting_rng) in
  NewTextChannel.topic chat = None /\
  exists doc,
    @NewTextChannel._to_payload platform chat = Return doc /\
    doc !! "topic" = None /\
    doc !! "name" = Some (VStr "chat").
Proof.
  vm_compute test_guild. simpl. split; [reflexivity|].
  destruct (@unset_attributes_are_omitted platform) as (_ & _ & Htext & _).
  match goal with |- exists doc, NewTextChannel._to_payload ?c = _ /\ _ =>
    destruct (NewTextChannel._to_payload c) as [doc|e] eqn:Hdoc;
      [|vm_compute in Hdoc; discriminate]
  end.
  exists doc. split; [reflexivity|].
  destruct (Htext _ _ Hdoc) as (Htopic & _). split; [apply Htopic; reflexivity|].
  vm_compute in Hdoc. injection Hdoc as <-. reflexivity.
Defined.

Lemma category_operations_delegate_witness :
  let general :=
    {| NewGuildChannel.id := 1; NewGuildChannel.name := "General";
       NewGuildChannel.guild := 0%nat; NewGuildChannel.type := ChannelType.category;
       NewGuildChannel.category := None; NewGuildChannel.overwrites := None |} in
  let g :=
    NewGuild.channels_append (CategoryChannel general)
      (NewGuild.__init__ "Test" None None None None None None) in
  let w := {| heap := {[ 0%nat := g ]}; rng := constant_rng 9 |} in
  let options :=
    {| opt_topic := Some "rules"; opt_slowmode_delay := None; opt_nsfw := None;
       opt_overwrites := None; opt_default_auto_archive_duration := None;
       opt_default_thread_slowmode_delay := None; opt_is_system_channel := false |} in
  NewCategory_add_text_channel general "rules" options w =
    guild_add_text_channel 0%nat "rules" options (Some general) w /\
  exists channel w',
    NewCategory_add_text_channel general "rules" options w = Some (channel, w') /\
    NewGuildChannel.id (NewTextChannel.base channel) = 9 /\
    NewGuildChannel.category (NewTextChannel.base channel) = Some general /\
    (NewGuild.channels <$> heap w' !! 0%nat) =
      Some [CategoryChannel general; TextChannel channel].
Proof.
  intros general g w options.
  destruct (category_operations_delegate general "rules" w)
    as (Htext & _ & _ & _ & Hrun).
  split; [apply Htext|].
  destruct (Hrun g eq_refl) as (Hrun_text & _).
  destruct (Hrun_text options) as (Hres & Hcat & _ & Hchannels).
  eexists _, _. split; [apply Hres|]. split; [reflexivity|].
  split; [apply Hcat|]. reflexivity.
Defined.

(** * Further properties of the builders and of the serializers *)

(** ** Order of the channels *)

Lemma comprehension_Forall2 {A B} (f : A -> Exc B) (xs : list A) (ys : list B) :
  comprehension f xs = Return ys <-> Forall2 (fun x y => f x = Return y) xs ys.
Proof.
  revert ys. induction xs as [|x xs IH]; intros ys; simpl.
  - split.
    + intros Hys. injection Hys as <-. constructor.
    + intros Hys. by apply Forall2_nil_inv_l in Hys as ->.
  - split.
    + intros Hys. apply Exc_bind_Return_inv in Hys as (y & Hy & Hys).
      apply Exc_bind_Return_inv in Hys as (ys' & Hys' & Hys).
      injection Hys as <-. constructor; [done|]. by apply IH.
    + intros Hys. apply Forall2_cons_inv_l in Hys as (y & ys' & Hy & Hys' & ->).
      rewrite Hy. simpl. apply IH in Hys'. by rewrite Hys'.
Qed.

Ltac render_as doc Hdoc :=
  match goal with
  | |- context [ @NewGuild._to_payload ?E ?g ] =>
      destruct (@NewGuild._to_payload E g) as [doc|?] eqn:Hdoc;
      [|vm_compute in Hdoc; discriminate Hdoc]
  | |- context [ @Channel._to_payload ?E ?c ] =>
      destruct (@Channel._to_payload E c) as [doc|?] eqn:Hdoc;
      [|vm_compute in Hdoc; discriminate Hdoc]
  end.

(** X1. The rendered [channels] sequence holds the documents of the channels
    of the guild, one per channel and in the order of [self.channels]; the
    key is absent when there is no channel. *)
Theorem channels_rendered_in_insertion_order `{Externals} (g : NewGuild.t)
    (doc : dict) :
  NewGuild._to_payload g = Return doc ->
  exists docs,
    Forall2 (fun channel d => Channel._to_payload channel = Return d)
      (NewGuild.channels g) docs /\
    doc !! "channels" =
      match docs with
      | [] => None
      | _ :: _ => Some (VList (map VDict docs))
      end.
Proof.
  intros Hdoc. apply NewGuild_to_payload_channels in Hdoc.
  destruct (NewGuild.channels g) as [|c cs] eqn:Hchannels.
  - exists []. split; [constructor | by destruct Hdoc].
  - destruct Hdoc as (docs & Hdocs & Hdoc & _). exists docs.
    apply comprehension_Forall2 in Hdocs. split; [done|].
    destruct docs as [|d docs]; [|done]. by apply Forall2_nil_inv_r in Hdocs.
Qed.

Lemma channels_rendered_in_insertion_order_witness :
  exists doc general chat,
    @NewGuild._to_payload platform test_graph = Return doc /\
    doc !! "channels" = Some (VList [VDict general; VDict chat]) /\
    general !! "name" = Some (VStr "General") /\
    chat !! "name" = Some (VStr "chat").
Proof.
  render_as doc Hdoc.
  destruct (@channels_rendered_in_insertion_order platform _ _ Hdoc)
    as (docs & Hdocs & Hchannels).
  apply Forall2_cons_inv_l in Hdocs as (general & docs' & Hgeneral & Hdocs & ->).
  apply Forall2_cons_inv_l in Hdocs as (chat & docs'' & Hchat & Hdocs & ->).
  apply Forall2_nil_inv_l in Hdocs as ->.
  exists doc, general, chat. split; [reflexivity|]. split; [exact Hchannels|].
  vm_compute in Hgeneral, Hchat.
  injection Hgeneral as <-. injection Hchat as <-. split; reflexivity.
Defined.

Section channel_order.
Context `{Externals}.

Lemma perform_call_channels (this : ref) (c : Call) (g : NewGuild.t) (s : Rng) :
  exists added,
    NewGuild.channels (fst (perform_call this c g s)) = NewGuild.channels g ++ added /\
    map (fun channel => NewGuildChannel.name (Channel.base channel)) added =
      option_list (call_channel_name c) /\
    Forall (fun channel => NewGuildChannel.guild (Channel.base channel) = this) added.
Proof.
  destruct c; simpl.
  - exists []. rewrite app_nil_r. split; [|by split].
    pose proof (add_role_roles g name permissions color colour hoist mentionable s)
      as [_ Hch]. simpl in Hch.
    unfold bind_rand, ret_rand.
    by destruct (NewGuild.add_role _ _ _ _ _ _ _ _) as [[r g1] s1].
  - exists []. rewrite app_nil_r. split; [|by split].
    unfold bind_rand, ret_rand.
    destruct (NewGuild.roles g) as [|r rs] eqn:Hroles.
    + by rewrite default_role_empty.
    + by erewrite default_role_nonempty.
  - eexists [_]. unfold_builders. simpl.
    split; [by destruct (opt_is_system_channel options)|]. split; [done|].
    by repeat constructor.
  - eexists [_]. unfold_builders. simpl.
    split; [by destruct (vopt_is_afk_channel options)|]. split; [done|].
    by repeat constructor.
  - eexists [_]. unfold_builders. simpl. split; [done|]. split; [done|].
    by repeat constructor.
  - eexists [_]. unfold_builders. simpl. split; [done|]. split; [done|].
    by repeat constructor.
  - eexists [_]. unfold_builders. simpl. split; [done|]. split; [done|].
    by repeat constructor.
Qed.
End channel_order.

(** X2. A sequence of builder calls only appends to [self.channels]: the
    channels that were there stay in place, and one channel is added per call
    that adds a channel, in the order of the calls, with the name given to
    the call and with the guild as its [guild]. *)
Theorem builders_append_channels_in_call_order `{Externals} (this : ref)
    (calls : list Call) (g : NewGuild.t) (s : Rng) :
  exists added,
    NewGuild.channels (fst (perform this calls g s)) = NewGuild.channels g ++ added /\
    map (fun channel => NewGuildChannel.name (Channel.base channel)) added =
      omap call_channel_name calls /\
    Forall (fun channel => NewGuildChannel.guild (Channel.base channel) = this) added.
Proof.
  revert g s. induction calls as [|c calls IH]; intros g s; simpl.
  - exists []. by rewrite app_nil_r.
  - unfold bind_rand.
    destruct (perform_call_channels this c g s) as (added1 & Hch1 & Hnames1 & Hguild1).
    destruct (perform_call this c g s) as [g1 s1]. simpl in Hch1.
    destruct (IH g1 s1) as (added2 & Hch2 & Hnames2 & Hguild2).
    exists (added1 ++ added2). split; [|split].
    + by rewrite Hch2, Hch1, app_assoc.
    + rewrite map_app, Hnames1, Hnames2.
      by destruct (call_channel_name c).
    + by apply Forall_app.
Qed.

(** ** Documents of the channels *)

(** X3. A channel placed under a category renders [parent_id] as the id of
    that category, which is the value the document of the category carries
    under [id]. *)
Theorem parent_id_matches_category_id `{Externals} (channel : Channel)
    (cat : NewCategory.t) (doc cdoc : dict) :
  NewGuildChannel.category (Channel.base channel) = Some cat ->
  Channel._to_payload channel = Return doc ->
  Channel._to_payload (CategoryChannel cat) = Return cdoc ->
  doc !! "parent_id" = Some (VInt (NewGuildChannel.id cat)) /\
  cdoc !! "id" = doc !! "parent_id".
Proof.
  intros Hcat Hdoc Hcdoc.
  apply Channel_to_payload_base in Hdoc as (p & Hp & Hframe).
  apply NewGuildChannel_to_payload_inv in Hp as (_ & _ & _ & Hparent & _).
  simpl in Hcdoc.
  apply NewGuildChannel_to_payload_inv in Hcdoc as (Hid & _).
  rewrite Hframe by (unfold base_keys; rewrite !elem_of_cons; tauto).
  rewrite Hparent, Hcat. by split.
Qed.

Lemma parent_id_matches_category_id_witness :
  NewGuildChannel.category (Channel.base (TextChannel test_chat)) = Some test_general /\
  exists doc cdoc,
    @Channel._to_payload platform (TextChannel test_chat) = Return doc /\
    @Channel._to_payload platform (CategoryChannel test_general) = Return cdoc /\
    doc !! "parent_id" = Some (VInt 1) /\ cdoc !! "id" = Some (VInt 1).
Proof.
  split; [reflexivity|].
  destruct (@Channel._to_payload platform (TextChannel test_chat))
    as [doc|?] eqn:Hdoc; [|vm_compute in Hdoc; discriminate Hdoc].
  destruct (@Channel._to_payload platform (CategoryChannel test_general))
    as [cdoc|?] eqn:Hcdoc; [|vm_compute in Hcdoc; discriminate Hcdoc].
  destruct (@parent_id_matches_category_id platform (TextChannel test_chat)
              test_general doc cdoc eq_refl Hdoc Hcdoc)
    as [Hparent Hid].
  exists doc, cdoc. split; [reflexivity|]. split; [reflexivity|].
  split; [exact Hparent|]. rewrite Hid. exact Hparent.
Defined.

(** X4. Every rendered channel document carries [id], [name] and [type]: the
    temporary id, the name and the code of the kind of the channel. *)
Theorem channel_document_base_fields `{Externals} (channel : Channel) (doc : dict) :
  Channel._to_payload channel = Return doc ->
  doc !! "id" = Some (VInt (NewGuildChannel.id (Channel.base channel))) /\
  doc !! "name" = Some (VStr (NewGuildChannel.name (Channel.base channel))) /\
  doc !! "type" =
    Some (VInt (ChannelType_value (NewGuildChannel.type (Channel.base channel)))).
Proof.
  intros Hdoc. apply Channel_to_payload_base in Hdoc as (p & Hp & Hframe).
  apply NewGuildChannel_to_payload_inv in Hp as (Hid & Hname & Hty & _).
  rewrite !Hframe by (unfold base_keys; rewrite !elem_of_cons; tauto).
  by split.
Qed.

Lemma channel_document_base_fields_witness :
  exists doc,
    @Channel._to_payload platform (TextChannel test_chat) = Return doc /\
    doc !! "id" = Some (VInt 4) /\ doc !! "name" = Some (VStr "chat") /\
    doc !! "type" = Some (VInt 0).
Proof.
  render_as doc Hdoc. exists doc. split; [reflexivity|].
  exact (@channel_document_base_fields platform _ _ Hdoc).
Defined.

(** ** The document of a role *)

Lemma lookup_set_if_not_None_eq {A} key (f : A -> pyval) x (payload : dict) :
  set_if_not_None key f x payload !! key =
    match x with
    | Some a => Some (f a)
    | None => payload !! key
    end.
Proof. destruct x; simpl; [by rewrite lookup_insert_eq | done]. Qed.

Ltac lookup_doc :=
  repeat first
    [ rewrite lookup_set_if_not_None_eq
    | rewrite lookup_set_if_not_None_ne by done
    | rewrite lookup_insert_eq
    | rewrite lookup_insert_ne by done
    | rewrite lookup_singleton_eq
    | rewrite lookup_singleton_ne by done ].

(** X5. The document of a role: [id] and [color] are always rendered, [color]
    being the integer given, the value of the [Colour] given, or the value of
    [Colour.default()] when the colour is unset or is the integer 0;
    [permissions] is the decimal string of the permission value; [name],
    [hoist] and [mentionable] are rendered as given when set; and there is no
    other key. *)
Theorem role_document `{Externals} (r : NewRole.t) :
  let doc := NewRole._to_payload r in
  doc !! "id" = Some (VInt (NewRole.id r)) /\
  doc !! "color" = Some (VInt (rendered_colour (NewRole.colour r))) /\
  doc !! "permissions" =
    (fun p => VStr (str (Permissions.value p))) <$> NewRole.permissions r /\
  doc !! "hoist" = VBool <$> NewRole.hoist r /\
  doc !! "mentionable" = VBool <$> NewRole.mentionable r /\
  doc !! "name" = VStr <$> NewRole.name r /\
  forall k, k ∉ ["id"; "color"; "permissions"; "hoist"; "mentionable"; "name"] ->
            doc !! k = None.
Proof.
  unfold NewRole._to_payload, rendered_colour.
  destruct r as [id name permissions colour hoist mentionable]. simpl.
  assert (forall k (p : dict),
            match (if colour_bool colour
                   then default (ColourObj Colour_default) colour
                   else ColourObj Colour_default) with
            | ColourInt n => <["color" := VInt n]> p
            | ColourObj c => <["color" := VInt (Colour.value c)]> p
            end !! k =
            if decide ("color" = k)
            then Some (VInt match colour with
                            | Some (ColourInt n) =>
                                if n =? 0 then Colour.value Colour_default else n
                            | Some (ColourObj c) =>
                                if Colour_bool c then Colour.value c
                                else Colour.value Colour_default
                            | None => Colour.value Colour_default
                            end)
            else p !! k) as Hcolour.
  { intros k p. destruct colour as [[c|n]|]; simpl.
    - destruct (Colour_bool c); simpl; case_decide; subst;
        by rewrite ?lookup_insert_eq, ?lookup_insert_ne.
    - destruct (n =? 0); simpl; case_decide; subst;
        by rewrite ?lookup_insert_eq, ?lookup_insert_ne.
    - case_decide; subst; by rewrite ?lookup_insert_eq, ?lookup_insert_ne. }
  repeat split.
  - lookup_doc. rewrite Hcolour. rewrite decide_False by done. by lookup_doc.
  - lookup_doc. rewrite Hcolour. by rewrite decide_True.
  - lookup_doc. rewrite Hcolour. rewrite decide_False by done. lookup_doc.
    by destruct permissions.
  - lookup_doc. destruct hoist; [done|]. rewrite Hcolour.
    rewrite decide_False by done. by lookup_doc.
  - lookup_doc. destruct mentionable; [done|]. lookup_doc. rewrite Hcolour.
    rewrite decide_False by done. by lookup_doc.
  - lookup_doc. destruct name; [done|]. lookup_doc. rewrite Hcolour.
    rewrite decide_False by done. by lookup_doc.
  - intros k Hk. rewrite !not_elem_of_cons in Hk.
    destruct Hk as (? & ? & ? & ? & ? & ? & _).
    lookup_doc. rewrite Hcolour. rewrite decide_False by done. by lookup_doc.
Qed.

(** ** Permission overwrites of several roles *)

Section role_overwrites.
Context `{Externals}.

Lemma overwrites_loop_roles (rps : list (NewRole.t * PermissionOverwrite.t))
    (perms : list pyval) :
  NewGuildChannel.overwrites_loop (role_items rps) perms =
    Return (perms ++ map (fun rp => VDict (overwrite_entry (fst rp) (snd rp))) rps).
Proof.
  revert perms. induction rps as [|[r p] rps IH]; intros perms; simpl.
  - by rewrite app_nil_r.
  - unfold overwrite_entry. destruct (PermissionOverwrite.pair p) as [allow deny].
    simpl. rewrite IH. by rewrite <- app_assoc.
Qed.

(** The loop returns exactly on the mappings from roles to overwrites. *)
Lemma overwrites_loop_returns_iff
    (items : list (Target * Checked PermissionOverwrite.t)) (perms : list pyval) :
  (exists result, NewGuildChannel.overwrites_loop items perms = Return result) <->
  forallb item_well_typed items = true.
Proof.
  revert perms. induction items as [|[target perm] items IH]; intros perms; simpl.
  - split; [done | by eauto].
  - unfold item_well_typed at 1. simpl.
    destruct perm as [perm|cls]; simpl.
    + destruct (PermissionOverwrite.pair perm) as [allow deny].
      destruct target as [r|cls [i|]]; simpl.
      * apply IH.
      * split; [by intros [? ?] | done].
      * split; [by intros [? ?] | done].
    + rewrite andb_false_r. split; [by intros [? ?] | done].
Qed.

End role_overwrites.

(** X6. A channel whose [overwrites] maps roles to overwrites renders under
    [permission_overwrites] one entry per role, in the order of the mapping;
    for the empty mapping the key is omitted, as for [None]. The base
    serializer returns on every such channel. *)
Theorem role_overwrites_rendered_in_order `{Externals} (channel : Channel)
    (rps : list (NewRole.t * PermissionOverwrite.t)) :
  NewGuildChannel.overwrites (Channel.base channel) =
    Some (IsInstance (role_items rps)) ->
  (exists p, NewGuildChannel._to_payload (Channel.base channel) = Return p) /\
  forall doc, Channel._to_payload channel = Return doc ->
    doc !! "permission_overwrites" =
      match rps with
      | [] => None
      | _ :: _ =>
          Some (VList (map (fun rp => VDict (overwrite_entry (fst rp) (snd rp))) rps))
      end.
Proof.
  intros Hov. split.
  - unfold NewGuildChannel._to_payload. rewrite Hov. simpl.
    rewrite overwrites_loop_roles. simpl. by eauto.
  - intros doc Hdoc. apply Channel_to_payload_base in Hdoc as (p & Hp & Hframe).
    apply NewGuildChannel_to_payload_inv in Hp as (_ & _ & _ & _ & perms & Hloop & Hperms).
    unfold overwrites_items in Hloop. rewrite Hov, overwrites_loop_roles in Hloop.
    injection Hloop as <-. simpl in Hperms.
    rewrite Hframe by (unfold base_keys; rewrite !elem_of_cons; tauto).
    by destruct rps.
Qed.

Lemma role_overwrites_rendered_in_order_witness :
  let p := {| PermissionOverwrite.pair :=
                ({| Permissions.value := 8 |}, {| Permissions.value := 0 |}) |} in
  let q := {| PermissionOverwrite.pair :=
                ({| Permissions.value := 0 |}, {| Permissions.value := 1024 |}) |} in
  let rps := [(test_mods, p); (everyone_role 2, q)] in
  let channel :=
    CategoryChannel
      {| NewGuildChannel.id := 5; NewGuildChannel.name := "Staff";
         NewGuildChannel.guild := 0%nat; NewGuildChannel.type := ChannelType.category;
         NewGuildChannel.category := None;
         NewGuildChannel.overwrites := Some (IsInstance (role_items rps)) |} in
  NewGuildChannel.overwrites (Channel.base channel) =
    Some (IsInstance (role_items rps)) /\
  exists doc first second,
    @Channel._to_payload platform channel = Return doc /\
    doc !! "permission_overwrites" = Some (VList [VDict first; VDict second]) /\
    first !! "id" = Some (VInt 3) /\ first !! "allow" = Some (VInt 8) /\
    second !! "id" = Some (VInt 2) /\ second !! "deny" = Some (VInt 1024).
Proof.
  intros p q rps channel. split; [reflexivity|].
  render_as doc Hrender.
  destruct (@role_overwrites_rendered_in_order platform channel rps eq_refl)
    as [_ Hdoc].
  specialize (Hdoc doc Hrender).
  exists doc, (@overwrite_entry platform test_mods p),
    (@overwrite_entry platform (everyone_role 2) q).
  split; [reflexivity|]. split; [exact Hdoc|].
  repeat split; reflexivity.
Defined.

Lemma NewGuildChannel_to_payload_returns_iff `{Externals} (c : NewGuildChannel.t) :
  (exists p, NewGuildChannel._to_payload c = Return p) <->
  overwrites_well_typed c = true.
Proof.
  unfold NewGuildChannel._to_payload, overwrites_well_typed.
  destruct (NewGuildChannel.overwrites c) as [[items|cls]|]; simpl.
  - rewrite <- (overwrites_loop_returns_iff items []). split.
    + intros [p Hp]. destruct (NewGuildChannel.overwrites_loop items []); [by eauto|done].
    + intros [perms ->]. simpl. by eauto.
  - split; [by intros [? ?] | done].
  - split; [done | by eauto].
Qed.

(** X7. [NewGuildChannel._to_payload] returns a document exactly when
    [overwrites] is [None] or a mapping all of whose keys are roles and all
    of whose values are overwrites. *)
Theorem channel_base_renders_iff `{Externals} (c : NewGuildChannel.t) :
  (exists p, NewGuildChannel._to_payload c = Return p) <->
  overwrites_well_typed c = true.
Proof. apply NewGuildChannel_to_payload_returns_iff. Qed.



(** ** When a channel and a guild render *)

(** X9. The serializer of a channel returns a document exactly when its
    overwrites are well typed and the attributes checked by its subclass
    ([video_quality_mode] of a voice or stage channel; [default_sort_order],
    [default_reaction_emoji] and [default_layout] of a forum) are unset or of
    the expected classes. *)
Theorem channel_renders_iff `{Externals} (channel : Channel) :
  channel_renders channel <->
  overwrites_well_typed (Channel.base channel) = true /\
  kind_fields_well_typed channel = true.
Proof.
  unfold channel_renders.
  rewrite <- (NewGuildChannel_to_payload_returns_iff (Channel.base channel)).
  destruct channel as [c|c|c|c|c]; simpl.
  - unfold NewTextChannel._to_payload.
    destruct (NewGuildChannel._to_payload (NewTextChannel.base c)) as [p|e]; simpl.
    + split; [by eauto | by eauto].
    + split; [by intros [? ?] | by intros [[? ?] _]].
  - unfold NewVoiceChannel._to_payload.
    destruct (NewGuildChannel._to_payload (NewVoiceChannel.base c)) as [p|e]; simpl.
    + destruct (NewVoiceChannel.video_quality_mode c) as [[m|cls]|]; simpl.
      * split; by eauto.
      * split; [by intros [? ?] | by intros [_ ?]].
      * split; by eauto.
    + split; [by intros [? ?] | by intros [[? ?] _]].
  - unfold NewStageChannel._to_payload.
    destruct (NewGuildChannel._to_payload (NewStageChannel.base c)) as [p|e]; simpl.
    + destruct (NewStageChannel.video_quality_mode c) as [[m|cls]|]; simpl.
      * split; by eauto.
      * split; [by intros [? ?] | by intros [_ ?]].
      * split; by eauto.
    + split; [by intros [? ?] | by intros [[? ?] _]].
  - split; [by eauto | by intros [? _]].
  - unfold NewForum._to_payload.
    destruct (NewGuildChannel._to_payload (NewForum.base c)) as [p|e]; simpl.
    + destruct (NewForum.default_sort_order c) as [[o|cls]|]; simpl;
        destruct (NewForum.default_reaction_emoji c) as [[em|em|cls']|]; simpl;
        destruct (NewForum.default_layout c) as [[l|cls'']|]; simpl;
        (split; [first [by eauto | by intros [? ?]]
                | first [by eauto | by intros [_ ?]]]).
    + split; [by intros [? ?] | by intros [[? ?] _]].
Qed.

(** X10. In the serializer of a forum whose base part renders, the first
    attribute of a wrong class decides the exception, in the order
    [default_sort_order], [default_reaction_emoji], [default_layout]: a
    [TypeError] naming the class for the sort order and for the layout, a
    [ValueError] for the emoji. *)
Theorem forum_first_failure `{Externals} (c : NewForum.t) (p : dict) :
  NewGuildChannel._to_payload (NewForum.base c) = Return p ->
  (forall cls, NewForum.default_sort_order c = Some (NotInstance cls) ->
     NewForum._to_payload c =
       Raise (TypeError
                ("default_sort_order parameter must be a ForumOrderType not " +:+ cls))) /\
  (forall cls, optional_instance (NewForum.default_sort_order c) = true ->
     NewForum.default_reaction_emoji c = Some (EmojiOther cls) ->
     NewForum._to_payload c =
       Raise (ValueError
                "default_reaction_emoji parameter must be either Emoji, PartialEmoji, or str")) /\
  (forall cls, optional_instance (NewForum.default_sort_order c) = true ->
     (forall cls', NewForum.default_reaction_emoji c <> Some (EmojiOther cls')) ->
     NewForum.default_layout c = Some (NotInstance cls) ->
     NewForum._to_payload c =
       Raise (TypeError
                ("default_layout parameter must be a ForumLayoutType not " +:+ cls))).
Proof.
  intros Hp. unfold NewForum._to_payload. rewrite Hp. simpl.
  split; [|split].
  - by intros cls ->.
  - intros cls Hsort ->.
    by destruct (NewForum.default_sort_order c) as [[o|cls0]|].
  - intros cls Hsort Hemoji ->.
    destruct (NewForum.default_sort_order c) as [[o|cls0]|]; try done;
      destruct (NewForum.default_reaction_emoji c) as [[em|em|cls']|]; simpl;
      first [done | by destruct (Hemoji cls')].
Qed.

Lemma forum_first_failure_witness :
  let c :=
    {| NewForum.base :=
         {| NewGuildChannel.id := 6; NewGuildChannel.name := "rules";
            NewGuildChannel.guild := 0%nat; NewGuildChannel.type := ChannelType.text;
            NewGuildChannel.category := None; NewGuildChannel.overwrites := None |};
       NewForum.topic := None; NewForum.slowmode_delay := None;
       NewForum.nsfw := None; NewForum.default_auto_archive_duration := None;
       NewForum.default_thread_slowmode_delay := None;
       NewForum.default_sort_order := Some (NotInstance "int");
       NewForum.default_reaction_emoji := Some (EmojiOther "int");
       NewForum.default_layout := Some (NotInstance "str");
       NewForum.available_tags := None |} in
  (exists p, @NewGuildChannel._to_payload platform (NewForum.base c) = Return p) /\
  @NewForum._to_payload platform c =
    Raise (TypeError "default_sort_order parameter must be a ForumOrderType not int").
Proof.
  intros c. split; [by eexists|].
  destruct (@forum_first_failure platform c _ eq_refl) as (Hsort & _).
  exact (Hsort "int" eq_refl).
Defined.

Lemma comprehension_first_failure {A B} (f : A -> Exc B) (good : list A) (x : A)
    (rest : list A) (e : exn) :
  Forall (fun y => exists b, f y = Return b) good -> f x = Raise e ->
  comprehension f (good ++ x :: rest) = Raise e.
Proof.
  intros Hgood Hx. induction Hgood as [|y good [b Hb] _ IH]; simpl.
  - by rewrite Hx.
  - rewrite Hb. simpl. by rewrite IH.
Qed.

(** X11. The serializer of a guild returns a document exactly when the icon,
    if there is one with at least one byte, is accepted by the encoder and
    every channel renders; the roles never make it fail. *)
Theorem guild_renders_iff `{Externals} (g : NewGuild.t) :
  (exists doc, NewGuild._to_payload g = Return doc) <->
  icon_encodes g /\ Forall channel_renders (NewGuild.channels g).
Proof.
  split; [|intros [? ?]; by apply NewGuild_to_payload_returns].
  intros [doc Hdoc]. split.
  - unfold icon_encodes. unfold NewGuild._to_payload in Hdoc.
    destruct (NewGuild.icon g) as [[|b bs]|]; [done| |done].
    destruct (_bytes_to_base64_data (b :: bs)); [by eauto | done].
  - apply NewGuild_to_payload_channels in Hdoc.
    destruct (NewGuild.channels g) as [|c cs]; [constructor|].
    destruct Hdoc as (docs & Hdocs & _).
    apply comprehension_Forall2 in Hdocs.
    eapply Forall2_Forall_l; [exact Hdocs|].
    apply Forall_true. intros d channel Hchannel. by exists d.
Qed.

(** X12. A guild fails to render with the first failure met: that of the icon
    encoder when it rejects the icon, otherwise that of the first channel, in
    the order of [self.channels], that fails to render. *)
Theorem guild_first_failure `{Externals} (g : NewGuild.t) (e : exn) :
  (forall b bs, NewGuild.icon g = Some (b :: bs) ->
     _bytes_to_base64_data (b :: bs) = Raise e ->
     NewGuild._to_payload g = Raise e) /\
  (forall good channel rest,
     icon_encodes g ->
     NewGuild.channels g = good ++ channel :: rest ->
     Forall channel_renders good ->
     Channel._to_payload channel = Raise e ->
     NewGuild._to_payload g = Raise e).
Proof.
  split.
  - intros b bs Hicon Hraise. unfold NewGuild._to_payload.
    rewrite Hicon, Hraise. done.
  - intros good channel rest Hicon Hchannels Hgood Hchannel.
    pose proof (comprehension_first_failure Channel._to_payload good channel rest e
                  Hgood Hchannel) as Hfail.
    unfold NewGuild._to_payload, icon_encodes in *.
    rewrite Hchannels. rewrite Hfail.
    destruct (NewGuild.icon g) as [[|b bs]|]; simpl.
    + by destruct good.
    + destruct Hicon as [data ->]. simpl. by destruct good.
    + by destruct good.
Qed.

Lemma guild_first_failure_witness :
  let voice :=
    VoiceChannel
      {| NewVoiceChannel.base :=
           {| NewGuildChannel.id := 5; NewGuildChannel.name := "Lounge";
              NewGuildChannel.guild := 0%nat; NewGuildChannel.type := ChannelType.voice;
              NewGuildChannel.category := None; NewGuildChannel.overwrites := None |};
         NewVoiceChannel.bitrate := None; NewVoiceChannel.user_limit := None;
         NewVoiceChannel.rtc_region := None;
         NewVoiceChannel.video_quality_mode := Some (NotInstance "int") |} in
  let g := NewGuild.channels_append voice test_graph in
  let e := TypeError "video_quality_mode must be of type VideoQualityMode" in
  NewGuild.channels g = NewGuild.channels test_graph ++ voice :: [] /\
  @Channel._to_payload platform voice = Raise e /\
  @NewGuild._to_payload platform g = Raise e.
Proof.
  intros voice g e. split; [reflexivity|]. split; [reflexivity|].
  destruct (@guild_first_failure platform g e) as [_ Hchannel].
  apply (Hchannel (NewGuild.channels test_graph) voice []).
  - exact I.
  - reflexivity.
  - repeat constructor; by eexists.
  - reflexivity.
Defined.

(** ** Attributes that are set *)

Ltac other_key Hp :=
  eapply NewGuildChannel_to_payload_keys; [exact Hp | not_base_key].

(** X13. The document of a text channel renders each attribute that is set,
    [slowmode_delay] under [rate_limit_per_user] and
    [default_thread_slowmode_delay] under
    [default_thread_rate_limit_per_user], the others under their own names;
    it has no key besides these and those of every channel. *)
Theorem text_channel_document `{Externals} (c : NewTextChannel.t) (doc : dict) :
  NewTextChannel._to_payload c = Return doc ->
  doc !! "topic" = VStr <$> NewTextChannel.topic c /\
  doc !! "rate_limit_per_user" = VInt <$> NewTextChannel.slowmode_delay c /\
  doc !! "nsfw" = VBool <$> NewTextChannel.nsfw c /\
  doc !! "default_auto_archive_duration" =
    VInt <$> NewTextChannel.default_auto_archive_duration c /\
  doc !! "default_thread_rate_limit_per_user" =
    VInt <$> NewTextChannel.default_thread_slowmode_delay c /\
  forall k,
    k ∉ base_keys ++
        ["topic"; "rate_limit_per_user"; "nsfw"; "default_auto_archive_duration";
         "default_thread_rate_limit_per_user"] ->
    doc !! k = None.
Proof.
  unfold NewTextChannel._to_payload. intros Hdoc.
  apply Exc_bind_Return_inv in Hdoc as (p & Hp & Hdoc). injection Hdoc as <-.
  repeat split.
  - lookup_doc. destruct (NewTextChannel.topic c); [done|]. simpl. other_key Hp.
  - lookup_doc. destruct (NewTextChannel.slowmode_delay c); [done|]. simpl.
    other_key Hp.
  - lookup_doc. destruct (NewTextChannel.nsfw c); [done|]. simpl. other_key Hp.
  - lookup_doc. destruct (NewTextChannel.default_auto_archive_duration c); [done|].
    simpl. other_key Hp.
  - lookup_doc. destruct (NewTextChannel.default_thread_slowmode_delay c); [done|].
    simpl. other_key Hp.
  - intros k Hk.
    assert ("topic" <> k /\ "rate_limit_per_user" <> k /\ "nsfw" <> k /\
            "default_auto_archive_duration" <> k /\
            "default_thread_rate_limit_per_user" <> k /\ k ∉ base_keys)
      as (?&?&?&?&?&?).
    { rewrite not_elem_of_app, !not_elem_of_cons in Hk. intuition congruence. }
    lookup_doc. by eapply NewGuildChannel_to_payload_keys.
Qed.

Lemma text_channel_document_witness :
  let c :=
    {| NewTextChannel.base := NewTextChannel.base test_chat;
       NewTextChannel.topic := Some ""; NewTextChannel.slowmode_delay := Some 0;
       NewTextChannel.nsfw := Some false;
       NewTextChannel.default_auto_archive_duration := None;
       NewTextChannel.default_thread_slowmode_delay := Some 30 |} in
  exists doc,
    @NewTextChannel._to_payload platform c = Return doc /\
    doc !! "topic" = Some (VStr "") /\
    doc !! "rate_limit_per_user" = Some (VInt 0) /\
    doc !! "nsfw" = Some (VBool false) /\
    doc !! "default_auto_archive_duration" = None /\
    doc !! "default_thread_rate_limit_per_user" = Some (VInt 30).
Proof.
  intros c.
  destruct (@NewTextChannel._to_payload platform c) as [doc|?] eqn:Hdoc;
    [|vm_compute in Hdoc; discriminate Hdoc].
  destruct (@text_channel_document platform c doc Hdoc)
    as (Htopic & Hrate & Hnsfw & Harchive & Hthread & _).
  exists doc. split; [reflexivity|]. repeat split; assumption.
Defined.

(** X14. The document of a voice channel, and likewise of a stage channel,
    renders [bitrate], [user_limit] and [rtc_region] as given when set, and
    [video_quality_mode] as the code of the mode; it has no key besides these
    and those of every channel. *)
Theorem voice_and_stage_channel_documents `{Externals} :
  (forall (c : NewVoiceChannel.t) (doc : dict),
     NewVoiceChannel._to_payload c = Return doc ->
     doc !! "bitrate" = VInt <$> NewVoiceChannel.bitrate c /\
     doc !! "user_limit" = VInt <$> NewVoiceChannel.user_limit c /\
     doc !! "rtc_region" = VStr <$> NewVoiceChannel.rtc_region c /\
     doc !! "video_quality_mode" =
       match NewVoiceChannel.video_quality_mode c with
       | Some (IsInstance m) => Some (VInt (VideoQualityMode.value m))
       | _ => None
       end /\
     forall k,
       k ∉ base_keys ++ ["bitrate"; "user_limit"; "rtc_region"; "video_quality_mode"] ->
       doc !! k = None) /\
  (forall (c : NewStageChannel.t) (doc : dict),
     NewStageChannel._to_payload c = Return doc ->
     doc !! "bitrate" = VInt <$> NewStageChannel.bitrate c /\
     doc !! "user_limit" = VInt <$> NewStageChannel.user_limit c /\
     doc !! "rtc_region" = VStr <$> NewStageChannel.rtc_region c /\
     doc !! "video_quality_mode" =
       match NewStageChannel.video_quality_mode c with
       | Some (IsInstance m) => Some (VInt (VideoQualityMode.value m))
       | _ => None
       end /\
     forall k,
       k ∉ base_keys ++ ["bitrate"; "user_limit"; "rtc_region"; "video_quality_mode"] ->
       doc !! k = None).
Proof.
  split.
  - intros c doc. unfold NewVoiceChannel._to_payload. intros Hdoc.
    apply Exc_bind_Return_inv in Hdoc as (p & Hp & Hdoc).
    apply Exc_bind_Return_inv in Hdoc as (p1 & Hp1 & Hdoc). injection Hdoc as <-.
    destruct (NewVoiceChannel.video_quality_mode c) as [[m|cls]|]; simplify_eq;
      repeat split;
      try (lookup_doc;
           first [ destruct (NewVoiceChannel.bitrate c); [done|]
                 | destruct (NewVoiceChannel.user_limit c); [done|]
                 | destruct (NewVoiceChannel.rtc_region c); [done|]
                 | idtac ];
           simpl; first [done | other_key Hp]);
      (intros k Hk;
       assert ("bitrate" <> k /\ "user_limit" <> k /\ "rtc_region" <> k /\
               "video_quality_mode" <> k /\ k ∉ base_keys) as (?&?&?&?&?)
         by (rewrite not_elem_of_app, !not_elem_of_cons in Hk; intuition congruence);
       lookup_doc; by eapply NewGuildChannel_to_payload_keys).
  - intros c doc. unfold NewStageChannel._to_payload. intros Hdoc.
    apply Exc_bind_Return_inv in Hdoc as (p & Hp & Hdoc).
    apply Exc_bind_Return_inv in Hdoc as (p1 & Hp1 & Hdoc). injection Hdoc as <-.
    destruct (NewStageChannel.video_quality_mode c) as [[m|cls]|]; simplify_eq;
      repeat split;
      try (lookup_doc;
           first [ destruct (NewStageChannel.bitrate c); [done|]
                 | destruct (NewStageChannel.user_limit c); [done|]
                 | destruct (NewStageChannel.rtc_region c); [done|]
                 | idtac ];
           simpl; first [done | other_key Hp]);
      (intros k Hk;
       assert ("bitrate" <> k /\ "user_limit" <> k /\ "rtc_region" <> k /\
               "video_quality_mode" <> k /\ k ∉ base_keys) as (?&?&?&?&?)
         by (rewrite not_elem_of_app, !not_elem_of_cons in Hk; intuition congruence);
       lookup_doc; by eapply NewGuildChannel_to_payload_keys).
Qed.

(** X15. The document of a forum renders, besides the attributes it shares
    with a text channel, [default_sort_order] and [default_layout] (under
    [default_forum_layout]) as the codes of the values given,
    [default_reaction_emoji] as the forum-tag document of the emoji, whether
    it was given as an emoji object or as a string, and [available_tags] as
    the documents of the tags in the order given. *)
Theorem forum_document `{Externals} (c : NewForum.t) (doc : dict) :
  NewForum._to_payload c = Return doc ->
  doc !! "topic" = VStr <$> NewForum.topic c /\
  doc !! "rate_limit_per_user" = VInt <$> NewForum.slowmode_delay c /\
  doc !! "nsfw" = VBool <$> NewForum.nsfw c /\
  doc !! "default_auto_archive_duration" =
    VInt <$> NewForum.default_auto_archive_duration c /\
  doc !! "default_thread_rate_limit_per_user" =
    VInt <$> NewForum.default_thread_slowmode_delay c /\
  doc !! "default_sort_order" =
    match NewForum.default_sort_order c with
    | Some (IsInstance o) => Some (VInt (ForumOrderType.value o))
    | _ => None
    end /\
  doc !! "default_reaction_emoji" =
    match NewForum.default_reaction_emoji c with
    | Some (EmojiObj e) =>
        Some (VDict (PartialEmoji._to_forum_tag_payload (EmojiTag._to_partial e)))
    | Some (EmojiStr s) =>
        Some (VDict (PartialEmoji._to_forum_tag_payload (PartialEmoji_from_str s)))
    | _ => None
    end /\
  doc !! "default_forum_layout" =
    match NewForum.default_layout c with
    | Some (IsInstance l) => Some (VInt (ForumLayoutType.value l))
    | _ => None
    end /\
  doc !! "available_tags" =
    (fun tags => VList (map (fun t => VDict (ForumTag.to_dict t)) tags))
      <$> NewForum.available_tags c.
Proof.
  unfold NewForum._to_payload. intros Hdoc.
  apply Exc_bind_Return_inv in Hdoc as (p & Hp & Hdoc).
  apply Exc_bind_Return_inv in Hdoc as (p1 & Hp1 & Hdoc).
  apply Exc_bind_Return_inv in Hdoc as (p2 & Hp2 & Hdoc).
  apply Exc_bind_Return_inv in Hdoc as (p3 & Hp3 & Hdoc). injection Hdoc as <-.
  destruct (NewForum.default_sort_order c) as [[o|cls]|]; simplify_eq;
    destruct (NewForum.default_reaction_emoji c) as [[e|e|cls']|]; simplify_eq;
    destruct (NewForum.default_layout c) as [[l|cls'']|]; simplify_eq;
    repeat split;
    lookup_doc;
    first [ done
          | destruct (NewForum.topic c); [done|]
          | destruct (NewForum.slowmode_delay c); [done|]
          | destruct (NewForum.nsfw c); [done|]
          | destruct (NewForum.default_auto_archive_duration c); [done|]
          | destruct (NewForum.default_thread_slowmode_delay c); [done|]
          | destruct (NewForum.available_tags c); [done|]
          | idtac ];
    simpl; lookup_doc; first [done | other_key Hp].
Qed.

Lemma forum_document_witness :
  let heart :=
    {| EmojiTag._to_partial :=
         {| PartialEmoji._to_forum_tag_payload :=
              <["emoji_name" := VStr "heart"]> {[ "emoji_id" := VNone ]} |} |} in
  let tag (n : string) := {| ForumTag.to_dict := {[ "name" := VStr n ]} |} in
  let c (emoji : EmojiInput) :=
    {| NewForum.base :=
         {| NewGuildChannel.id := 6; NewGuildChannel.name := "help";
            NewGuildChannel.guild := 0%nat; NewGuildChannel.type := ChannelType.text;
            NewGuildChannel.category := None; NewGuildChannel.overwrites := None |};
       NewForum.topic := None; NewForum.slowmode_delay := None;
       NewForum.nsfw := None; NewForum.default_auto_archive_duration := None;
       NewForum.default_thread_slowmode_delay := None;
       NewForum.default_sort_order := Some (IsInstance {| ForumOrderType.value := 1 |});
       NewForum.default_reaction_emoji := Some emoji;
       NewForum.default_layout := None;
       NewForum.available_tags := Some [tag "bug"; tag "question"] |} in
  exists doc doc',
    @NewForum._to_payload platform (c (EmojiObj heart)) = Return doc /\
    @NewForum._to_payload platform (c (EmojiStr "heart")) = Return doc' /\
    doc !! "default_reaction_emoji" = doc' !! "default_reaction_emoji" /\
    doc !! "default_sort_order" = Some (VInt 1) /\
    doc !! "available_tags" =
      Some (VList [VDict {[ "name" := VStr "bug" ]};
                   VDict {[ "name" := VStr "question" ]}]).
Proof.
  intros heart tag c.
  destruct (@NewForum._to_payload platform (c (EmojiObj heart)))
    as [doc|?] eqn:Hdoc; [|vm_compute in Hdoc; discriminate Hdoc].
  destruct (@NewForum._to_payload platform (c (EmojiStr "heart")))
    as [doc'|?] eqn:Hdoc'; [|vm_compute in Hdoc'; discriminate Hdoc'].
  destruct (@forum_document platform _ _ Hdoc)
    as (_ & _ & _ & _ & _ & Hsort & Hemoji & _ & Htags).
  destruct (@forum_document platform _ _ Hdoc')
    as (_ & _ & _ & _ & _ & _ & Hemoji' & _).
  exists doc, doc'. split; [reflexivity|]. split; [reflexivity|].
  split; [|split; [exact Hsort | exact Htags]].
  rewrite Hemoji, Hemoji'. reflexivity.
Defined.

(** ** The document of a guild *)

Section guild_document.
Context `{Externals}.

(** The [icon] key after the [name] and [icon] steps. *)
Lemma icon_step_icon (g : NewGuild.t) (p : dict) :
  match NewGuild.icon g with
  | Some (b :: bs) =>
      data ← _bytes_to_base64_data (b :: bs);
      Return (<["icon" := VStr data]> ({[ "name" := VStr (NewGuild.name g) ]} : dict))
  | _ => Return {[ "name" := VStr (NewGuild.name g) ]}
  end = Return p ->
  match NewGuild.icon g with
  | Some (b :: bs) =>
      exists data, _bytes_to_base64_data (b :: bs) = Return data /\
                   p !! "icon" = Some (VStr data)
  | _ => p !! "icon" = None
  end.
Proof.
  intros Hp. destruct (NewGuild.icon g) as [[|b bs]|].
  - by injection Hp as <-.
  - apply Exc_bind_Return_inv in Hp as (data & Hdata & Hp). injection Hp as <-.
    exists data. split; [done|]. by rewrite lookup_insert_eq.
  - by injection Hp as <-.
Qed.
End guild_document.

Ltac lookup_guild :=
  repeat first
    [ rewrite lookup_set_if_true_eq
    | rewrite lookup_set_if_true_ne by done
    | rewrite lookup_set_if_not_None_eq
    | rewrite lookup_set_if_not_None_ne by done
    | rewrite lookup_insert_ne by done ].

(** X16. The attributes of a guild in its document: [name] is always
    rendered; [afk_timeout] is rendered whenever it is set, 0 included;
    [verification_level], [notification_level] (under
    [default_message_notifications]), [content_filter] (under
    [explicit_content_filter]) and [system_channel_flags] are rendered as
    their codes when set and true as conditions; [icon] is rendered, as the
    text given by the encoder, when it is set and has at least one byte. *)
Theorem guild_document_attributes `{Externals} (g : NewGuild.t) (doc : dict) :
  NewGuild._to_payload g = Return doc ->
  doc !! "name" = Some (VStr (NewGuild.name g)) /\
  doc !! "afk_timeout" = VInt <$> NewGuild.afk_timeout g /\
  doc !! "verification_level" =
    match NewGuild.verification_level g with
    | Some l =>
        if VerificationLevel_bool l then Some (VInt (VerificationLevel.value l))
        else None
    | None => None
    end /\
  doc !! "default_message_notifications" =
    match NewGuild.notification_level g with
    | Some l =>
        if NotificationLevel_bool l then Some (VInt (NotificationLevel.value l))
        else None
    | None => None
    end /\
  doc !! "explicit_content_filter" =
    match NewGuild.content_filter g with
    | Some l =>
        if ContentFilter_bool l then Some (VInt (ContentFilter.value l)) else None
    | None => None
    end /\
  doc !! "system_channel_flags" =
    match NewGuild.system_channel_flags g with
    | Some f =>
        if SystemChannelFlags_bool f then Some (VInt (SystemChannelFlags.value f))
        else None
    | None => None
    end /\
  match NewGuild.icon g with
  | Some (b :: bs) =>
      exists data, _bytes_to_base64_data (b :: bs) = Return data /\
                   doc !! "icon" = Some (VStr data)
  | _ => doc !! "icon" = None
  end.
Proof.
  intros Hdoc. split; [|split; [|split; [|split; [|split; [|split]]]]].
  7: {
    unfold NewGuild._to_payload in Hdoc.
    apply Exc_bind_Return_inv in Hdoc as (p0 & Hp0 & Hdoc).
    apply icon_step_icon in Hp0 as Hicon.
    assert (doc !! "icon" = p0 !! "icon") as Heq.
    { destruct (NewGuild.channels g) as [|c cs].
      - injection Hdoc as <-. destruct (NewGuild.roles g); by lookup_guild.
      - apply Exc_bind_Return_inv in Hdoc as (docs & _ & Hdoc).
        injection Hdoc as <-. lookup_guild.
        destruct (NewGuild.roles g); by lookup_guild. }
    destruct (NewGuild.icon g) as [[|b bs]|]; rewrite Heq; done. }
  all: apply NewGuild_to_payload_inv in Hdoc as (p0 & Hframe & _ & Hdoc);
    simpl in Hdoc;
    assert (p0 !! "name" = Some (VStr (NewGuild.name g))) as Hname
      by (by rewrite Hframe);
    assert (forall k, k <> "icon" -> k <> "name" -> p0 !! k = None) as Hother
      by (intros k ? ?; rewrite Hframe by done; by rewrite lookup_singleton_ne);
    (destruct (NewGuild.channels g) as [|c cs];
      [subst doc | destruct Hdoc as (docs & _ & ->)]);
    destruct (NewGuild.roles g) as [|r rs]; lookup_guild.
  all: try done.
  all: try (destruct (NewGuild.afk_timeout g); first [done | by apply Hother]).
  all: try (destruct (NewGuild.verification_level g) as [l|];
            try destruct (VerificationLevel_bool l); lookup_guild;
            first [done | by apply Hother]).
  all: try (destruct (NewGuild.notification_level g) as [l|];
            try destruct (NotificationLevel_bool l); lookup_guild;
            first [done | by apply Hother]).
  all: try (destruct (NewGuild.content_filter g) as [l|];
            try destruct (ContentFilter_bool l); lookup_guild;
            first [done | by apply Hother]).
  all: destruct (NewGuild.system_channel_flags g) as [l|];
         try destruct (SystemChannelFlags_bool l); lookup_guild;
         first [done | by apply Hother].
Qed.

Lemma guild_document_attributes_witness :
  let g :=
    NewGuild.__init__ "Test" (Some []) (Some 0)
      (Some {| VerificationLevel.value := 0 |}) None None
      (Some {| SystemChannelFlags.value := 0 |}) in
  exists doc,
    @NewGuild._to_payload platform g = Return doc /\
    doc !! "name" = Some (VStr "Test") /\
    doc !! "afk_timeout" = Some (VInt 0) /\
    doc !! "verification_level" = Some (VInt 0) /\
    doc !! "system_channel_flags" = None /\
    doc !! "icon" = None.
Proof.
  intros g. render_as doc Hdoc.
  destruct (@guild_document_attributes platform g doc Hdoc)
    as (Hname & Hafk & Hlevel & _ & _ & Hflags & Hicon).
  exists doc. split; [reflexivity|]. repeat split; assumption.
Defined.

(** ** Invariants of the builders *)

Section invariants.
Context `{Externals}.

Lemma perform_call_everyone_first (this : ref) (c : Call) (g : NewGuild.t) (s : Rng) :
  everyone_first g -> everyone_first (fst (perform_call this c g s)).
Proof.
  unfold everyone_first. intros Hg.
  destruct (NewGuild.roles g) as [|r rs] eqn:Hroles.
  - destruct c; unfold_builders; simpl; rewrite ?Hroles; simpl;
      rewrite ?Hroles; try done.
    + destruct (String.eqb_spec name "@everyone") as [->|Hname]; simpl;
        by rewrite Hroles.
    + by destruct (opt_is_system_channel options); simpl; rewrite Hroles.
    + by destruct (vopt_is_afk_channel options); simpl; rewrite Hroles.
  - pose proof (perform_call_roles_prefix this c g s) as [later Hlater].
    rewrite Hlater, Hroles. done.
Qed.

Lemma perform_everyone_first (this : ref) (calls : list Call) (g : NewGuild.t)
    (s : Rng) :
  everyone_first g -> everyone_first (fst (perform this calls g s)).
Proof.
  revert g s. induction calls as [|c calls IH]; intros g s Hg; simpl; [done|].
  unfold bind_rand.
  pose proof (perform_call_everyone_first this c g s Hg) as Hc.
  destruct (perform_call this c g s) as [g1 s1]. by apply IH.
Qed.
End invariants.

(** X17. Whatever calls are made on a new guild, its roles, when it has any,
    start with a role named '@everyone', and so does the rendered [roles]
    sequence. *)
Theorem first_role_is_everyone `{Externals}
    (name : string) (icon : option (list Byte.byte)) (afk_timeout : option Z)
    (verification_level : option VerificationLevel.t)
    (notification_level : option NotificationLevel.t)
    (content_filter : option ContentFilter.t)
    (system_channel_flags : option SystemChannelFlags.t)
    (this : ref) (calls : list Call) (s : Rng) :
  let g :=
    fst (perform this calls
           (NewGuild.__init__ name icon afk_timeout verification_level
              notification_level content_filter system_channel_flags) s) in
  (forall r rs, NewGuild.roles g = r :: rs -> NewRole.name r = Some "@everyone") /\
  (forall doc docs,
     NewGuild._to_payload g = Return doc -> doc !! "roles" = Some (VList docs) ->
     exists d rest,
       docs = VDict d :: rest /\ d !! "name" = Some (VStr "@everyone")).
Proof.
  intros g.
  assert (everyone_first g) as Hg by (by apply perform_everyone_first).
  unfold everyone_first in Hg. split.
  - intros r rs Hroles. by rewrite Hroles in Hg.
  - intros doc docs Hdoc Hdocs. apply NewGuild_to_payload_roles in Hdoc.
    rewrite Hdoc in Hdocs. destruct (NewGuild.roles g) as [|r rs]; [done|].
    injection Hdocs as <-. eexists _, _. split; [reflexivity|].
    unfold NewRole._to_payload. rewrite Hg. simpl. by rewrite lookup_insert_eq.
Qed.

(** X18. Reading [default_role] a second time returns the same role and
    changes nothing: no role is added and no id is drawn. After the first
    read the guild has roles, and the role returned is the first of them. *)
Theorem default_role_idempotent `{Externals} (g : NewGuild.t) (s : Rng) :
  let first := NewGuild.default_role g s in
  let g1 := snd (fst first) in
  NewGuild.default_role g1 (snd first) = first /\
  exists r rs, NewGuild.roles g1 = r :: rs /\ fst (fst first) = Return r.
Proof.
  destruct (NewGuild.roles g) as [|r rs] eqn:Hroles.
  - rewrite default_role_empty by done. simpl. split.
    + erewrite default_role_nonempty; [done|]. simpl. by rewrite Hroles.
    + eexists _, _. split; [|done]. simpl. by rewrite Hroles.
  - erewrite default_role_nonempty by done. simpl. split.
    + by erewrite default_role_nonempty.
    + by eauto.
Qed.

Section special_channels.
Context `{Externals}.

Lemma perform_call_special_channels (this : ref) (c : Call) (g : NewGuild.t)
    (s : Rng) :
  special_channels_known g -> special_channels_known (fst (perform_call this c g s)).
Proof.
  unfold special_channels_known. intros [Hafk Hsys].
  destruct c; unfold_builders; simpl.
  - destruct (NewGuild.roles g) as [|r rs];
      [destruct (negb (name =? "@everyone")%string)|]; simpl; by split.
  - destruct (NewGuild.roles g) as [|r rs]; simpl; by split.
  - destruct (opt_is_system_channel options); simpl; split.
    + intros i Hi. destruct (Hafk i Hi) as (c & Hc & Hid).
      exists c. split; [|done]. apply elem_of_app. by left.
    + intros i Hi. injection Hi as <-. eexists.
      split; [apply elem_of_app; right; by apply list_elem_of_singleton | done].
    + intros i Hi. destruct (Hafk i Hi) as (c & Hc & Hid).
      exists c. split; [|done]. apply elem_of_app. by left.
    + intros i Hi. destruct (Hsys i Hi) as (c & Hc & Hid).
      exists c. split; [|done]. apply elem_of_app. by left.
  - destruct (vopt_is_afk_channel options); simpl; split.
    + intros i Hi. injection Hi as <-. eexists.
      split; [apply elem_of_app; right; by apply list_elem_of_singleton | done].
    + intros i Hi. destruct (Hsys i Hi) as (c & Hc & Hid).
      exists c. split; [|done]. apply elem_of_app. by left.
    + intros i Hi. destruct (Hafk i Hi) as (c & Hc & Hid).
      exists c. split; [|done]. apply elem_of_app. by left.
    + intros i Hi. destruct (Hsys i Hi) as (c & Hc & Hid).
      exists c. split; [|done]. apply elem_of_app. by left.
  - split; intros i Hi;
      [destruct (Hafk i Hi) as (c & Hc & Hid) | destruct (Hsys i Hi) as (c & Hc & Hid)];
      exists c; (split; [|done]); apply elem_of_app; by left.
  - split; intros i Hi;
      [destruct (Hafk i Hi) as (c & Hc & Hid) | destruct (Hsys i Hi) as (c & Hc & Hid)];
      exists c; (split; [|done]); apply elem_of_app; by left.
  - split; intros i Hi;
      [destruct (Hafk i Hi) as (c & Hc & Hid) | destruct (Hsys i Hi) as (c & Hc & Hid)];
      exists c; (split; [|done]); apply elem_of_app; by left.
Qed.

Lemma perform_call_settings (this : ref) (c : Call) (g : NewGuild.t) (s : Rng) :
  same_settings g (fst (perform_call this c g s)).
Proof.
  unfold same_settings.
  destruct c; unfold_builders; simpl.
  - destruct (NewGuild.roles g) as [|r rs];
      [destruct (negb (name =? "@everyone")%string)|]; simpl; by repeat split.
  - destruct (NewGuild.roles g) as [|r rs]; simpl; by repeat split.
  - destruct (opt_is_system_channel options); simpl; by repeat split.
  - destruct (vopt_is_afk_channel options); simpl; by repeat split.
  - by repeat split.
  - by repeat split.
  - by repeat split.
Qed.
End special_channels.

(** X19. Whatever calls are made on a new guild, the AFK channel it records,
    if any, is the id of one of its voice channels, and the system channel it
    records the id of one of its text channels. *)
Theorem special_channels_are_channels_of_the_guild `{Externals}
    (name : string) (icon : option (list Byte.byte)) (afk_timeout : option Z)
    (verification_level : option VerificationLevel.t)
    (notification_level : option NotificationLevel.t)
    (content_filter : option ContentFilter.t)
    (system_channel_flags : option SystemChannelFlags.t)
    (this : ref) (calls : list Call) (s : Rng) :
  special_channels_known
    (fst (perform this calls
            (NewGuild.__init__ name icon afk_timeout verification_level
               notification_level content_filter system_channel_flags) s)).
Proof.
  assert (forall g s, special_channels_known g ->
                      special_channels_known (fst (perform this calls g s))) as Hinv.
  { induction calls as [|c calls IH]; intros g s' Hg; simpl; [done|].
    unfold bind_rand.
    pose proof (perform_call_special_channels this c g s' Hg) as Hc.
    destruct (perform_call this c g s') as [g1 s1]. by apply IH. }
  apply Hinv. split; intros i Hi; discriminate Hi.
Qed.

(** X20. No sequence of builder calls changes the attributes given to the
    guild at construction, and none removes or reorders a role or a channel:
    the roles and the channels it had are a prefix of those it has
    afterwards. *)
Theorem builders_keep_settings `{Externals} (this : ref) (calls : list Call)
    (g : NewGuild.t) (s : Rng) :
  let g' := fst (perform this calls g s) in
  same_settings g g' /\
  NewGuild.roles g `prefix_of` NewGuild.roles g' /\
  NewGuild.channels g `prefix_of` NewGuild.channels g'.
Proof.
  intros g'. split; [|split].
  - unfold g'. clear g'. revert g s.
    induction calls as [|c calls IH]; intros g s; simpl.
    + by repeat split.
    + unfold bind_rand. pose proof (perform_call_settings this c g s) as Hc.
      destruct (perform_call this c g s) as [g1 s1]. simpl in Hc.
      specialize (IH g1 s1). unfold same_settings in *.
      destruct Hc as (? & ? & ? & ? & ? & ? & ?).
      destruct IH as (? & ? & ? & ? & ? & ? & ?).
      repeat split; congruence.
  - apply perform_roles_prefix.
  - unfold g'. clear g'. revert g s.
    induction calls as [|c calls IH]; intros g s; simpl; [done|].
    unfold bind_rand.
    destruct (perform_call_channels this c g s) as (added & Hadded & _).
    destruct (perform_call this c g s) as [g1 s1]. simpl in Hadded.
    etrans; [|apply IH]. rewrite Hadded. by apply prefix_app_r.
Qed.

(** ** Roles and temporary ids *)

(** X21. On a guild that already has roles, or for the name '@everyone',
    [add_role] appends exactly the role it returns and draws exactly one id:
    the role carries the name and the attributes given, so the default role
    itself may be given permissions or a colour by adding it first. *)
Theorem add_role_appends_one `{Externals} (g : NewGuild.t) (name : string)
    (permissions : option Permissions.t) (color colour : option ColourArg)
    (hoist mentionable : option bool) (s : Rng) :
  NewGuild.roles g <> [] \/ name = "@everyone" ->
  let role :=
    {| NewRole.id := fst (randint 0 999999999999 s); NewRole.name := Some name;
       NewRole.permissions := permissions;
       NewRole.colour := if colour_bool color then color else colour;
       NewRole.hoist := hoist; NewRole.mentionable := mentionable |} in
  NewGuild.add_role g name permissions color colour hoist mentionable s =
    (role, NewGuild.roles_append role g, snd (randint 0 999999999999 s)).
Proof.
  intros Hcase. unfold_builders.
  destruct (NewGuild.roles g) as [|r rs] eqn:Hroles; [|done].
  destruct Hcase as [Hne| ->]; [done|]. done.
Qed.

Lemma add_role_appends_one_witness :
  let g := NewGuild.__init__ "Test" None None None None None None in
  let admin := Some {| Permissions.value := 8 |} in
  (NewGuild.roles g <> [] \/ "@everyone" = "@everyone") /\
  exists role g',
    fst (@NewGuild.add_role platform g "@everyone" admin None None None None
           counting_rng) = (role, g') /\
    NewGuild.roles g' = [role] /\ NewRole.permissions role = admin /\
    @NewRole._to_payload platform role !! "permissions" = Some (VStr "8").
Proof.
  intros g admin. split; [by right|].
  pose proof (@add_role_appends_one platform g "@everyone" admin None None None
                None counting_rng (or_intror eq_refl)) as Hadd.
  simpl in Hadd. eexists _, _. rewrite Hadd. split; [reflexivity|].
  split; [reflexivity|]. split; reflexivity.
Defined.

(** X22. Nothing keeps two temporary ids apart: when two successive draws
    agree, a category and the text channel added under it next carry the same
    id, and the document of the channel names the channel itself as its
    parent. *)
Theorem temporary_ids_may_collide `{Externals} (this : ref) (g : NewGuild.t)
    (cname name : string) (options : text_options) (s : Rng) :
  fst (randint 0 999999999999 s) =
    fst (randint 0 999999999999 (snd (randint 0 999999999999 s))) ->
  let r1 := NewGuild.add_category this g cname None s in
  let cat := fst (fst r1) in
  let r2 := call_add_text_channel name options (Some cat) this (snd (fst r1)) (snd r1) in
  let channel := fst (fst r2) in
  NewGuildChannel.id (NewTextChannel.base channel) = NewGuildChannel.id cat /\
  forall doc, NewTextChannel._to_payload channel = Return doc ->
    doc !! "parent_id" = doc !! "id".
Proof.
  intros Hdraw r1 cat r2 channel.
  assert (NewGuildChannel.id (NewTextChannel.base channel) = NewGuildChannel.id cat)
    as Hid by (symmetry; exact Hdraw).
  assert (NewGuildChannel.category (NewTextChannel.base channel) = Some cat) as Hcat.
  { unfold channel, r2. unfold_builders. simpl.
    by destruct (opt_is_system_channel options). }
  clearbody channel. clear r2. clearbody cat. clear r1.
  split; [done|]. intros doc Hdoc.
  change (Channel._to_payload (TextChannel channel) = Return doc) in Hdoc.
  apply Channel_to_payload_base in Hdoc as (p & Hp & Hframe).
  apply NewGuildChannel_to_payload_inv in Hp as (Hpid & _ & _ & Hparent & _).
  rewrite !Hframe by (unfold base_keys; rewrite !elem_of_cons; tauto).
  simpl in Hparent, Hpid. rewrite Hparent, Hpid, Hcat. simpl. by rewrite Hid.
Qed.

Lemma temporary_ids_may_collide_witness :
  let g := NewGuild.__init__ "Test" None None None None None None in
  let options :=
    {| opt_topic := None; opt_slowmode_delay := None; opt_nsfw := None;
       opt_overwrites := None; opt_default_auto_archive_duration := None;
       opt_default_thread_slowmode_delay := None; opt_is_system_channel := false |} in
  let s := constant_rng 7 in
  fst (randint 0 999999999999 s) =
    fst (randint 0 999999999999 (snd (randint 0 999999999999 s))) /\
  let r1 := NewGuild.add_category 0%nat g "General" None s in
  let r2 := call_add_text_channel "chat" options (Some (fst (fst r1))) 0%nat
              (snd (fst r1)) (snd r1) in
  NewGuildChannel.id (fst (fst r1)) = 7 /\
  exists doc,
    @NewTextChannel._to_payload platform (fst (fst r2)) = Return doc /\
    doc !! "id" = Some (VInt 7) /\ doc !! "parent_id" = Some (VInt 7).
Proof.
  intros g options s. split; [reflexivity|]. intros r1 r2. split; [reflexivity|].
  destruct (@NewTextChannel._to_payload platform (fst (fst r2)))
    as [doc|?] eqn:Hrender; [|vm_compute in Hrender; discriminate Hrender].
  destruct (@temporary_ids_may_collide platform 0%nat g "General" "chat" options s
              eq_refl) as [_ Hdoc].
  specialize (Hdoc doc Hrender).
  exists doc. split; [reflexivity|].
  assert (doc !! "id" = Some (VInt 7)) as Hid.
  { vm_compute in Hrender. injection Hrender as <-. reflexivity. }
  split; [exact Hid|]. rewrite Hdoc. exact Hid.
Defined.

(** ** The store *)


Lemma invoke_None {A} (guild : ref)
    (method : ref -> NewGuild.t -> Rand (A * NewGuild.t)) (w : World) :
  invoke guild method w = None <-> heap w !! guild = None.
Proof.
  unfold invoke. destruct (heap w !! guild) as [g|]; [|done].
  by destruct (method guild g (rng w)) as [[a' g'] s'].
Qed.



(** ** Submission *)

(** X24. [NewGuild._create_guild] submits the rendered document and nothing
    else: it returns a guild exactly when the graph renders and the request
    made with that document succeeds, the guild being built from the data
    received; a graph that fails to render fails with the same exception,
    whatever the connection would answer, and a failure of the request is
    passed on unchanged. *)
Theorem create_guild_submits_the_document `{Externals} `{Transport}
    (g : NewGuild.t) :
  (forall guild,
     NewGuild_create_guild g = Return guild <->
     exists doc data,
       NewGuild._to_payload g = Return doc /\
       http_create_guild doc = Return data /\
       guild = Guild_from_data data) /\
  (forall e, NewGuild._to_payload g = Raise e -> NewGuild_create_guild g = Raise e) /\
  (forall doc e,
     NewGuild._to_payload g = Return doc -> http_create_guild doc = Raise e ->
     NewGuild_create_guild g = Raise e).
Proof.
  unfold NewGuild_create_guild. split; [|split].
  - intros guild. split.
    + intros Hrun. apply Exc_bind_Return_inv in Hrun as (doc & Hdoc & Hrun).
      apply Exc_bind_Return_inv in Hrun as (data & Hdata & Hrun).
      injection Hrun as <-. by eauto.
    + intros (doc & data & -> & Hdata & ->). simpl. by rewrite Hdata.
  - by intros e ->.
  - intros doc e -> Hdata. simpl. by rewrite Hdata.
Qed.

Lemma create_guild_submits_the_document_witness :
  exists doc,
    @NewGuild._to_payload platform test_graph = Return doc /\
    @NewGuild_create_guild platform echo test_graph = Return doc.
Proof.
  render_as doc Hdoc. exists doc. split; [reflexivity|].
  destruct (@create_guild_submits_the_document platform echo test_graph)
    as (Hiff & _).
  apply Hiff. exists doc, doc. split; [exact Hdoc|]. split; reflexivity.
Defined.

(** X25. [NewTemplatedGuild._create_guild] sends the code, the name and the
    encoded icon: [None] when there is no icon, and otherwise the text given
    by the encoder, which is called on every icon that is not [None], the
    empty one included; when the encoder rejects the icon the request is not
    made. A guild graph, on the contrary, leaves out an empty icon without
    calling the encoder. *)
Theorem templated_guild_submission `{Externals} `{Transport}
    (name code : string) :
  NewTemplatedGuild._create_guild (NewTemplatedGuild.__init__ name code None) =
    (data ← http_create_from_template code name None; Return (Guild_from_data data)) /\
  (forall bytes text,
     _bytes_to_base64_data bytes = Return text ->
     NewTemplatedGuild._create_guild
       (NewTemplatedGuild.__init__ name code (Some bytes)) =
       (data ← http_create_from_template code name (Some text);
        Return (Guild_from_data data))) /\
  (forall bytes e,
     _bytes_to_base64_data bytes = Raise e ->
     NewTemplatedGuild._create_guild
       (NewTemplatedGuild.__init__ name code (Some bytes)) = Raise e) /\
  (forall g doc,
     NewGuild.icon g = Some [] -> NewGuild._to_payload g = Return doc ->
     doc !! "icon" = None) /\
  (forall g, NewGuild.icon g = Some [] -> NewGuild.channels g = [] ->
     exists doc, NewGuild._to_payload g = Return doc).
Proof.
  unfold NewTemplatedGuild._create_guild. simpl. split; [done|].
  split; [by intros bytes text ->|]. split; [by intros bytes e ->|]. split.
  - intros g doc Hicon Hdoc. unfold NewGuild._to_payload in Hdoc.
    rewrite Hicon in Hdoc. simpl in Hdoc.
    destruct (NewGuild.channels g) as [|c cs].
    + injection Hdoc as <-. destruct (NewGuild.roles g); by lookup_guild.
    + apply Exc_bind_Return_inv in Hdoc as (docs & _ & Hdoc).
      injection Hdoc as <-. lookup_guild.
      destruct (NewGuild.roles g); by lookup_guild.
  - intros g Hicon Hchannels. apply NewGuild_to_payload_returns.
    + unfold icon_encodes. by rewrite Hicon.
    + rewrite Hchannels. constructor.
Qed.

Lemma templated_guild_submission_witness :
  @_bytes_to_base64_data platform [] = Raise (ValueError "Unsupported image type given") /\
  @NewTemplatedGuild._create_guild platform echo
    (NewTemplatedGuild.__init__ "Test" "abc" (Some [])) =
    Raise (ValueError "Unsupported image type given") /\
  exists doc,
    @NewGuild_create_guild platform echo
      (NewGuild.__init__ "Test" (Some []) None None None None None) = Return doc /\
    doc !! "icon" = None.
Proof.
  split; [reflexivity|].
  destruct (@templated_guild_submission platform echo "Test" "abc")
    as (_ & _ & Hraise & Hicon & _).
  split; [exact (Hraise [] _ eq_refl)|].
  eexists. split; [reflexivity|].
  apply (Hicon (NewGuild.__init__ "Test" (Some []) None None None None None));
    reflexivity.
Defined.

(** ** More concrete graphs *)

Lemma voice_and_stage_channel_documents_witness :
  let c :=
    {| NewVoiceChannel.base :=
         {| NewGuildChannel.id := 5; NewGuildChannel.name := "Lounge";
            NewGuildChannel.guild := 0%nat; NewGuildChannel.type := ChannelType.voice;
            NewGuildChannel.category := None; NewGuildChannel.overwrites := None |};
       NewVoiceChannel.bitrate := Some 64000; NewVoiceChannel.user_limit := Some 0;
       NewVoiceChannel.rtc_region := None;
       NewVoiceChannel.video_quality_mode :=
         Some (IsInstance {| VideoQualityMode.value := 2 |}) |} in
  exists doc,
    @NewVoiceChannel._to_payload platform c = Return doc /\
    doc !! "bitrate" = Some (VInt 64000) /\ doc !! "user_limit" = Some (VInt 0) /\
    doc !! "rtc_region" = None /\ doc !! "video_quality_mode" = Some (VInt 2).
Proof.
  intros c.
  destruct (@NewVoiceChannel._to_payload platform c) as [doc|?] eqn:Hdoc;
    [|vm_compute in Hdoc; discriminate Hdoc].
  destruct (@voice_and_stage_channel_documents platform) as [Hvoice _].
  destruct (Hvoice c doc Hdoc) as (Hbitrate & Hlimit & Hregion & Hmode & _).
  exists doc. split; [reflexivity|]. repeat split; assumption.
Defined.

Lemma first_role_is_everyone_witness :
  let calls :=
    [Call_add_category "General" None;
     Call_add_role "Mods" None None None None None;
     Call_add_role "Helpers" None None None None None] in
  let g :=
    fst (@perform platform 0%nat calls
           (NewGuild.__init__ "Test" None None None None None None) counting_rng) in
  map NewRole.name (NewGuild.roles g) =
    [Some "@everyone"; Some "Mods"; Some "Helpers"] /\
  exists doc d rest,
    @NewGuild._to_payload platform g = Return doc /\
    doc !! "roles" = Some (VList (VDict d :: rest)) /\
    d !! "name" = Some (VStr "@everyone").
Proof.
  intros calls g. split; [reflexivity|].
  render_as doc Hdoc.
  destruct (@first_role_is_everyone platform "Test" None None None None None None
              0%nat calls counting_rng) as [_ Hrendered].
  assert (exists docs, doc !! "roles" = Some (VList docs)) as [docs Hdocs].
  { vm_compute in Hdoc. injection Hdoc as <-. eexists. reflexivity. }
  destruct (Hrendered doc docs Hdoc Hdocs) as (d & rest & -> & Hname).
  exists doc, d, rest. split; [reflexivity|]. split; assumption.
Defined.
